(** * OpenPlatform: the REST client of ddb-react

    A shallow embedding of the class [OpenPlatform] and its helper
    [formatUrlArray], and the properties of its request construction,
    chunking and response unwrapping.

    The client is dynamically typed JavaScript working on parsed JSON, so
    the embedding has three layers:

    - the JavaScript values the client handles and the few runtime
      operations it applies to them (truthiness, [===], property reads,
      [ToString], [encodeURIComponent], [JSON.stringify], lodash's
      [chunk] and [isEmpty]);
    - promises: an [async] function is a computation over the log of
      requests issued so far, which ends in a settled or pending promise;
    - the client's methods, written in that monad in the order of the
      source. *)

From Stdlib Require Import List Ascii Bool Arith NArith ZArith Lia.
From Stdlib Require Import Strings.Byte Floats.SpecFloat.
Import ListNotations.

#[local] Set Warnings "-register-all".

(** ** JavaScript strings *)

(** A JavaScript string is a sequence of UTF-16 code units, any 16-bit
    values: a surrogate need not be paired.  A code unit is held as its
    two bytes. *)
Record unit16 : Set := Unit16 { high : ascii; low : ascii }.

(** The number of a code unit, from 0 to 65535. *)
Definition code (c : unit16) : N :=
  (256 * N_of_ascii (high c) + N_of_ascii (low c))%N.

(** The code unit of a number below 65536. *)
Definition unit (n : N) : unit16 :=
  Unit16 (ascii_of_N (n / 256)) (ascii_of_N (n mod 256)).

(** A character of the first 256 as a code unit. *)
Definition ch (a : ascii) : unit16 := Unit16 zero a.

Coercion ch : ascii >-> unit16.

Definition unit_eqb (a b : unit16) : bool :=
  Ascii.eqb (high a) (high b) && Ascii.eqb (low a) (low b).

Inductive string : Set :=
| EmptyString
| String (c : unit16) (s : string).

Module JsString.

(** String literals: one code unit per byte of the literal.  A string
    with a code unit from 256 on is written with [String] and [unit]. *)
Fixpoint of_bytes (bs : list byte) : string :=
  match bs with
  | [] => EmptyString
  | b :: r => String (ch (ascii_of_byte b)) (of_bytes r)
  end.

Fixpoint to_bytes (s : string) : option (list byte) :=
  match s with
  | EmptyString => Some []
  | String c r =>
      if Ascii.eqb (high c) zero then
        match to_bytes r with
        | Some bs => Some (byte_of_ascii (low c) :: bs)
        | None => None
        end
      else None
  end.

Fixpoint append (a b : string) : string :=
  match a with
  | EmptyString => b
  | String c r => String c (append r b)
  end.

Fixpoint length (s : string) : nat :=
  match s with
  | EmptyString => 0
  | String _ r => S (length r)
  end.

Fixpoint eqb (a b : string) : bool :=
  match a, b with
  | EmptyString, EmptyString => true
  | String x a', String y b' => unit_eqb x y && eqb a' b'
  | _, _ => false
  end.

(** [b.startsWith(a)] *)
Fixpoint prefix (a b : string) : bool :=
  match a with
  | EmptyString => true
  | String x a' =>
      match b with
      | EmptyString => false
      | String y b' => unit_eqb x y && prefix a' b'
      end
  end.

End JsString.

Declare Scope js_scope.
Delimit Scope js_scope with js.
Bind Scope js_scope with string.
String Notation string JsString.of_bytes JsString.to_bytes : js_scope.
Infix "++" := JsString.append (right associativity, at level 60) : js_scope.

Local Open Scope list_scope.
Local Open Scope js_scope.

(** ** JavaScript values *)

(** A JavaScript number is an IEEE 754 binary64 value; [spec_float] holds
    it in canonical form, with both zeros, the infinities and NaN. *)
Definition number := spec_float.

Definition num (z : Z) : number := binary_normalize 53 1024 z 0 false.

Arguments num : simpl never.

(** The values that [JSON.parse] produces, and [undefined], which a read
    of a missing property yields.  An object lists its own properties in
    insertion order, each key once. *)
Inductive JsVal : Type :=
| JUndefined
| JNull
| JBool (b : bool)
| JNum (x : number)
| JStr (s : string)
| JArr (items : list JsVal)
| JObj (fields : list (string * JsVal)).

(** What the client throws or lets through. *)
Inductive Exn : Type :=
| JsError (message : string)   (* [throw Error(message)] *)
| TypeError                    (* raised by the runtime *)
| URIError                     (* raised by [encodeURIComponent] *)
| NetworkError                 (* [fetch] rejected *)
| SyntaxError.                 (* [rawResponse.json()] rejected *)

(** Synchronous code either completes with a value or throws. *)
Inductive Result (A : Type) : Type :=
| Ok (a : A)
| Throw (e : Exn).

Arguments Ok {A} a.
Arguments Throw {A} e.

Definition rbind {A B} (r : Result A) (k : A -> Result B) : Result B :=
  match r with
  | Ok a => k a
  | Throw e => Throw e
  end.

Declare Scope result_scope.
Delimit Scope result_scope with result.
Notation "x <- r ;; k" := (rbind r (fun x => k))
  (at level 61, r at next level, right associativity) : result_scope.

(** [mapR f l]: [l.map(f)] for an [f] that may throw; the first throw
    ends the loop. *)
Fixpoint mapR {A B} (f : A -> Result B) (l : list A) : Result (list B) :=
  match l with
  | [] => Ok []
  | a :: r =>
      (b <- f a ;;
       bs <- mapR f r ;;
       Ok (b :: bs))%result
  end.

(** *** Characters *)

Definition chr (n : N) : string := String (unit n) EmptyString.

Definition quote : string := chr 34.
Definition backslash : string := chr 92.

Definition hex_upper (d : N) : string :=
  chr (if (d <? 10)%N then 48 + d else 55 + d)%N.

Definition hex_lower (d : N) : string :=
  chr (if (d <? 10)%N then 48 + d else 87 + d)%N.

(** The first half of a surrogate pair, and the second. *)
Definition is_lead_surrogate (c : unit16) : bool :=
  ((0xD800 <=? code c) && (code c <=? 0xDBFF))%N.

Definition is_trail_surrogate (c : unit16) : bool :=
  ((0xDC00 <=? code c) && (code c <=? 0xDFFF))%N.

(** *** Truthiness and strict equality *)

(** [ToBoolean]: [undefined], [null], [false], [+0], [-0], [NaN] and the
    empty string are falsy; every object and array is truthy. *)
Definition truthy (v : JsVal) : bool :=
  match v with
  | JUndefined | JNull => false
  | JBool b => b
  | JNum (S754_zero _) | JNum S754_nan => false
  | JNum _ => true
  | JStr EmptyString => false
  | JStr _ => true
  | JArr _ | JObj _ => true
  end.

(** [v === n] for a number literal [n]. *)
Definition strict_eq_num (v : JsVal) (n : number) : bool :=
  match v with
  | JNum x => SFeqb x n
  | _ => false
  end.

(** [v === s] for a string literal [s]. *)
Definition strict_eq_str (v : JsVal) (s : string) : bool :=
  match v with
  | JStr t => JsString.eqb t s
  | _ => false
  end.

(** *** Property reads *)

Fixpoint lookup (k : string) (fields : list (string * JsVal)) : option JsVal :=
  match fields with
  | [] => None
  | (k', v) :: r => if JsString.eqb k k' then Some v else lookup k r
  end.

Definition has_key (k : string) (fields : list (string * JsVal)) : bool :=
  match lookup k fields with
  | Some _ => true
  | None => false
  end.

(** The value of an object's own property [k], [undefined] when there
    is none. *)
Definition field (k : string) (fields : list (string * JsVal)) : JsVal :=
  match lookup k fields with
  | Some x => x
  | None => JUndefined
  end.

(** [v.k] for the property names the client reads by name ([statusCode],
    [error], [data], [willLend], [orderPossible], [name], [address],
    [mail], [orderParameters]): none of them is defined on a prototype, so
    only an object can hold one; reading from [undefined] or [null] is a
    TypeError. *)
Definition get_prop (v : JsVal) (k : string) : Result JsVal :=
  match v with
  | JUndefined | JNull => Throw TypeError
  | JObj fields => Ok (field k fields)
  | _ => Ok JUndefined
  end.

(** [o.k = v] on an object: an existing key keeps its place. *)
Fixpoint set_prop (k : string) (v : JsVal) (fields : list (string * JsVal))
  : list (string * JsVal) :=
  match fields with
  | [] => [(k, v)]
  | (k', v') :: r =>
      if JsString.eqb k k' then (k', v) :: r else (k', v') :: set_prop k v r
  end.

(** [v[0]]. *)
Definition get_first (v : JsVal) : Result JsVal :=
  match v with
  | JUndefined | JNull => Throw TypeError
  | JArr items => Ok (nth 0 items JUndefined)
  | JStr (String c _) => Ok (JStr (String c EmptyString))
  | JObj fields => Ok (field "0" fields)
  | _ => Ok JUndefined
  end.

(** A parameter left out or [undefined] takes its default. *)
Definition or_default (default v : JsVal) : JsVal :=
  match v with
  | JUndefined => default
  | given => given
  end.

(** [array.push(a)] *)
Definition push {A} (array : list A) (a : A) : list A := (array ++ [a])%list.

(** [Array.prototype.join] on strings. *)
Fixpoint join (sep : string) (l : list string) : string :=
  match l with
  | [] => EmptyString
  | [s] => s
  | s :: r => s ++ sep ++ join sep r
  end.

(** *** encodeURIComponent *)

(** The characters that [encodeURIComponent] leaves as they are:
    letters, digits and [- _ . ! ~ * ' ( )]. *)
Definition unreserved (c : unit16) : bool :=
  let n := code c in
  ((65 <=? n) && (n <=? 90))%N || ((97 <=? n) && (n <=? 122))%N ||
  ((48 <=? n) && (n <=? 57))%N ||
  existsb (N.eqb n) [45; 95; 46; 33; 126; 42; 39; 40; 41]%N.

(** An octet as a percent sign and two upper-case hexadecimal digits. *)
Definition percent (octet : N) : string :=
  "%" ++ hex_upper (octet / 16) ++ hex_upper (octet mod 16).

(** The octets of the UTF-8 form of a code point: one to four. *)
Definition utf8 (cp : N) : list N :=
  (if cp <? 0x80 then [cp]
   else if cp <? 0x800 then [0xC0 + cp / 64; 0x80 + cp mod 64]
   else if cp <? 0x10000 then
     [0xE0 + cp / 4096; 0x80 + (cp / 64) mod 64; 0x80 + cp mod 64]
   else
     [0xF0 + cp / 262144; 0x80 + (cp / 4096) mod 64;
      0x80 + (cp / 64) mod 64; 0x80 + cp mod 64])%N.

Fixpoint escape_octets (octets : list N) : string :=
  match octets with
  | [] => EmptyString
  | octet :: r => percent octet ++ escape_octets r
  end.

Definition escape (cp : N) : string := escape_octets (utf8 cp).

(** The code point of a surrogate pair. *)
Definition pair_code_point (lead trail : unit16) : N :=
  (0x10000 + (code lead - 0xD800) * 0x400 + (code trail - 0xDC00))%N.

(** The abstract operation [Encode] of ECMAScript, with the unescaped
    set of [encodeURIComponent]: an unreserved code unit is copied; any
    other code point is written as the escaped octets of its UTF-8
    form, a surrogate pair counting as one code point; a surrogate
    without its other half is a URIError. *)
Fixpoint Encode (s : string) : Result string :=
  match s with
  | EmptyString => Ok EmptyString
  | String c r =>
      if unreserved c then
        (R <- Encode r ;; Ok (String c R))%result
      else if is_lead_surrogate c then
        match r with
        | String c2 r2 =>
            if is_trail_surrogate c2 then
              (R <- Encode r2 ;;
               Ok (escape (pair_code_point c c2) ++ R))%result
            else Throw URIError
        | EmptyString => Throw URIError
        end
      else if is_trail_surrogate c then Throw URIError
      else (R <- Encode r ;; Ok (escape (code c) ++ R))%result
  end.

(** *** lodash *)

(** [_.isEmpty] on a JSON value: arrays and strings by length, objects by
    own keys, everything else is empty. *)
Definition isEmpty (v : JsVal) : bool :=
  match v with
  | JArr [] => true
  | JArr _ => false
  | JStr EmptyString => true
  | JStr _ => false
  | JObj [] => true
  | JObj _ => false
  | _ => true
  end.

(** [_.chunk(array, size)]: consecutive groups of [size] elements, the
    last one shorter when the length is no multiple of [size]; no group at
    all for an empty array or a size below 1. *)
Fixpoint chunk_loop {A} (fuel size : nat) (array : list A) : list (list A) :=
  match fuel with
  | O => []
  | S fuel' =>
      match array with
      | [] => []
      | _ => firstn size array :: chunk_loop fuel' size (skipn size array)
      end
  end.

Definition chunk {A} (array : list A) (size : nat) : list (list A) :=
  if (size <? 1)%nat then [] else chunk_loop (List.length array) size array.

(** ** Runtime conversions *)

Section Runtime.

(** [Number::toString] and [StringToNumber] are the runtime's decimal
    printer and parser of binary64 values; the client relies on them
    only through the conversions below, and they stay parameters. *)
Variable NumberToString : number -> string.
Variable StringToNumber : string -> number.

(** An element inside [Array.prototype.join]: [undefined] and [null]
    give the empty string. *)
Definition join_element (conv : JsVal -> Result string) (v : JsVal)
  : Result string :=
  match v with
  | JUndefined | JNull => Ok EmptyString
  | _ => conv v
  end.

(** [ToString], as a template literal applies it.  An array goes
    through [join(",")].  A plain object gives ["[object Object]"]
    through [Object.prototype.toString], unless an own property
    [toString] shadows that method: a JSON value is not callable, then
    [valueOf] returns no primitive either and the conversion is a
    TypeError. *)
Fixpoint ToString (v : JsVal) : Result string :=
  match v with
  | JUndefined => Ok "undefined"
  | JNull => Ok "null"
  | JBool true => Ok "true"
  | JBool false => Ok "false"
  | JNum x => Ok (NumberToString x)
  | JStr s => Ok s
  | JArr items =>
      (strs <- (fix each (l : list JsVal) : Result (list string) :=
                  match l with
                  | [] => Ok []
                  | e :: r =>
                      a <- join_element ToString e ;;
                      b <- each r ;;
                      Ok (a :: b)
                  end) items ;;
       Ok (join "," strs))%result
  | JObj fields =>
      if has_key "toString" fields then Throw TypeError
      else Ok "[object Object]"
  end.

(** [ToNumber], through [ToPrimitive] with hint number for arrays and
    objects. *)
Definition ToNumber (v : JsVal) : Result number :=
  match v with
  | JUndefined => Ok S754_nan
  | JNull => Ok (S754_zero false)
  | JBool true => Ok (num 1)
  | JBool false => Ok (S754_zero false)
  | JNum x => Ok x
  | JStr s => Ok (StringToNumber s)
  | JArr _ | JObj _ =>
      (s <- ToString v ;;
       Ok (StringToNumber s))%result
  end.

(** [v < n] for a number literal [n]; a comparison with NaN is
    false. *)
Definition less_than_num (v : JsVal) (n : number) : Result bool :=
  (x <- ToNumber v ;;
   Ok (SFltb x n))%result.

(** [v.length < n] for a literal [n].  The length of an array or of a
    string is an integer below 2^32, which binary64 holds exactly, so
    the comparison is that of the integers; an object is compared
    through its own property [length], and a number or boolean has
    none ([undefined < n] is false). *)
Definition length_less_than (v : JsVal) (n : nat) : Result bool :=
  match v with
  | JUndefined | JNull => Throw TypeError
  | JArr items => Ok (List.length items <? n)%nat
  | JStr s => Ok (JsString.length s <? n)%nat
  | JObj fields => less_than_num (field "length" fields) (num (Z.of_nat n))
  | JBool _ | JNum _ => Ok false
  end.

(** [Error(v)]: the message is [ToString(v)], and the empty string
    inherited from [Error.prototype] when [v] is [undefined]. *)
Definition js_Error (v : JsVal) : Result Exn :=
  match v with
  | JUndefined => Ok (JsError EmptyString)
  | _ =>
      (message <- ToString v ;;
       Ok (JsError message))%result
  end.

(** [encodeURIComponent(v)]: [Encode] on [ToString(v)]. *)
Definition encodeURIComponent (v : JsVal) : Result string :=
  (s <- ToString v ;;
   Encode s)%result.

(** *** JSON.stringify *)

(** [UnicodeEscape]: a code unit as [\u] and four lower-case
    hexadecimal digits. *)
Definition unicode_escape (n : N) : string :=
  backslash ++ "u" ++ hex_lower (n / 4096) ++ hex_lower ((n / 256) mod 16) ++
  hex_lower ((n / 16) mod 16) ++ hex_lower (n mod 16).

(** A code point that is one code unit, inside [QuoteJSONString]: the
    short escapes, [UnicodeEscape] for the other control characters and
    for a surrogate without its other half, the code unit itself
    otherwise. *)
Definition quote_unit (c : unit16) : string :=
  let n := code c in
  if (n =? 8)%N then backslash ++ "b"
  else if (n =? 9)%N then backslash ++ "t"
  else if (n =? 10)%N then backslash ++ "n"
  else if (n =? 12)%N then backslash ++ "f"
  else if (n =? 13)%N then backslash ++ "r"
  else if (n =? 34)%N then backslash ++ quote
  else if (n =? 92)%N then backslash ++ backslash
  else if (n <? 32)%N || is_lead_surrogate c || is_trail_surrogate c
       then unicode_escape n
  else String c EmptyString.

(** The code points of the string in turn: a surrogate pair is kept as
    it is. *)
Fixpoint quote_units (s : string) : string :=
  match s with
  | EmptyString => EmptyString
  | String c r =>
      if is_lead_surrogate c then
        match r with
        | String c2 r2 =>
            if is_trail_surrogate c2 then String c (String c2 (quote_units r2))
            else quote_unit c ++ quote_units r
        | EmptyString => quote_unit c
        end
      else quote_unit c ++ quote_units r
  end.

Definition QuoteJSONString (s : string) : string :=
  quote ++ quote_units s ++ quote.

Definition is_finite (x : number) : bool :=
  match x with
  | S754_zero _ | S754_finite _ _ _ => true
  | _ => false
  end.

(** [SerializeJSONProperty]: [None] stands for [undefined], which an
    object leaves out with its key and an array writes as [null]. *)
Fixpoint SerializeJSON (v : JsVal) : option string :=
  match v with
  | JUndefined => None
  | JNull => Some "null"
  | JBool true => Some "true"
  | JBool false => Some "false"
  | JNum x => Some (if is_finite x then NumberToString x else "null")
  | JStr s => Some (QuoteJSONString s)
  | JArr items =>
      Some ("[" ++
            join "," ((fix each (l : list JsVal) : list string :=
                         match l with
                         | [] => []
                         | e :: r =>
                             match SerializeJSON e with
                             | Some t => t
                             | None => "null"
                             end :: each r
                         end) items) ++ "]")
  | JObj fields =>
      Some ("{" ++
            join "," ((fix each (l : list (string * JsVal)) : list string :=
                         match l with
                         | [] => []
                         | (k, e) :: r =>
                             match SerializeJSON e with
                             | Some t =>
                                 (QuoteJSONString k ++ ":" ++ t) :: each r
                             | None => each r
                             end
                         end) fields) ++ "}")
  end.

(** [JSON.stringify(v)]; [undefined] for [undefined]. *)
Definition JSON_stringify (v : JsVal) : option string := SerializeJSON v.

End Runtime.

(** ** Requests and promises *)

(** The options object handed to [fetch]; a field that is not set is
    [None]. *)
Record Options : Type := mkOptions {
  method : option string;
  headers : option (list (string * string));
  body : option string
}.

(** [{}] *)
Definition no_options : Options := mkOptions None None None.

Definition or_else {A} (o d : option A) : option A :=
  match o with
  | Some _ => o
  | None => d
  end.

(** [{ ...a, ...b }]: a field of [b] replaces that of [a] whole. *)
Definition spread (a b : Options) : Options :=
  mkOptions (or_else (method b) (method a))
            (or_else (headers b) (headers a))
            (or_else (body b) (body a)).

Record Request : Type := mkRequest {
  url : string;
  init : Options
}.

(** What comes back for a request: nothing ever, a network failure, or a
    response whose text parses as JSON ([Some]) or does not ([None]).
    A reply comes in a later turn of the event loop than the call:
    [t] counts the turns beyond the first, so that the promise of
    [fetch] settles at time [S t]. *)
Inductive Reply : Type :=
| NoReply
| Unreachable (t : nat)
| Answer (t : nat) (parsed : option JsVal).

(** A promise as its caller finds it: fulfilled or rejected at time [t]
    after the call, or never settled.  Time 0 is the turn of the call
    itself: what an [async] function does before its first [await] of a
    reply, a throw included, settles at time 0. *)
Inductive Promise (A : Type) : Type :=
| Fulfilled (t : nat) (a : A)
| Rejected (t : nat) (e : Exn)
| Pending.

Arguments Fulfilled {A} t a.
Arguments Rejected {A} t e.
Arguments Pending {A}.

(** An [async] function body: it extends the log of the requests issued
    so far and yields its promise. *)
Definition Async (A : Type) : Type :=
  list Request -> list Request * Promise A.

Definition later {A} (t : nat) (p : Promise A) : Promise A :=
  match p with
  | Fulfilled t' a => Fulfilled (t + t') a
  | Rejected t' e => Rejected (t + t') e
  | Pending => Pending
  end.

Definition ret {A} (a : A) : Async A := fun log => (log, Fulfilled 0 a).

Definition throw {A} (e : Exn) : Async A := fun log => (log, Rejected 0 e).

Definition never {A} : Async A := fun log => (log, Pending).

(** [await m], then [k]: the continuation runs once [m] is fulfilled, and
    issues its requests then. *)
Definition bind {A B} (m : Async A) (k : A -> Async B) : Async B :=
  fun log =>
    match m log with
    | (log1, Fulfilled t a) =>
        let (log2, p) := k a log1 in (log2, later t p)
    | (log1, Rejected t e) => (log1, Rejected t e)
    | (log1, Pending) => (log1, Pending)
    end.

(** Synchronous code inside an [async] function: a throw rejects the
    promise. *)
Definition lift {A} (r : Result A) : Async A :=
  match r with
  | Ok a => ret a
  | Throw e => throw e
  end.

Declare Scope async_scope.
Delimit Scope async_scope with async.
Notation "x <- m ;; k" := (bind m (fun x => k))
  (at level 61, m at next level, right associativity) : async_scope.

(** *** Promise.all *)

(** The array of promises is built first: each call runs up to its first
    [await] and issues its request, in array order.  (Every promise the
    client gathers issues one request at most.) *)
Fixpoint spawn {A} (calls : list (Async A)) (log : list Request)
  : list Request * list (Promise A) :=
  match calls with
  | [] => (log, [])
  | call :: rest =>
      let (log1, p) := call log in
      let (log2, ps) := spawn rest log1 in
      (log2, p :: ps)
  end.

(** The rejection that comes first in time, and of those of one time
    that of the earlier array index.  A call that throws before it
    sends anything is rejected at time 0, and so before any call that
    waits for a reply. *)
Fixpoint first_rejection {A} (ps : list (Promise A)) : option (nat * Exn) :=
  match ps with
  | [] => None
  | p :: rest =>
      match p, first_rejection rest with
      | Rejected t e, Some (t', e') =>
          if (t <=? t')%nat then Some (t, e) else Some (t', e')
      | Rejected t e, None => Some (t, e)
      | _, found => found
      end
  end.

(** The values in array order and the time of the last one, when every
    promise is fulfilled. *)
Fixpoint all_values {A} (ps : list (Promise A)) : option (nat * list A) :=
  match ps with
  | [] => Some (0, [])
  | Fulfilled t a :: rest =>
      match all_values rest with
      | Some (t', vs) => Some (Nat.max t t', a :: vs)
      | None => None
      end
  | _ :: _ => None
  end.

(** [Promise.all(ps)] rejects as soon as one promise rejects, is
    fulfilled with all values once all are, and stays pending
    otherwise. *)
Definition settle_all {A} (ps : list (Promise A)) : Promise (list A) :=
  match first_rejection ps with
  | Some (t, e) => Rejected t e
  | None =>
      match all_values ps with
      | Some (t, vs) => Fulfilled t vs
      | None => Pending
      end
  end.

Definition Promise_all {A} (calls : list (Async A)) : Async (list A) :=
  fun log =>
    let (log', ps) := spawn calls log in (log', settle_all ps).

(** *** Array methods on a parsed value *)

(** [v.filter(keep)]: a TypeError unless [v] is an array. *)
Definition js_filter (keep : JsVal -> bool) (v : JsVal) : Result (list JsVal) :=
  match v with
  | JArr items => Ok (filter keep items)
  | _ => Throw TypeError
  end.

Fixpoint some_loop (test : JsVal -> Result JsVal) (items : list JsVal)
  : Result bool :=
  match items with
  | [] => Ok false
  | item :: rest =>
      (hit <- test item ;;
       if truthy hit then Ok true else some_loop test rest)%result
  end.

(** [v.some(test)]: stops at the first element whose test is truthy. *)
Definition js_some (test : JsVal -> Result JsVal) (v : JsVal) : Result bool :=
  match v with
  | JArr items => some_loop test items
  | _ => Throw TypeError
  end.

Fixpoint forEach_loop {S} (step : JsVal -> S -> Result S)
  (items : list JsVal) (s : S) : Result S :=
  match items with
  | [] => Ok s
  | item :: rest =>
      (s' <- step item s ;;
       forEach_loop step rest s')%result
  end.

(** [v.forEach(step)], for a [step] that updates the variables [s] it
    closes over. *)
Definition js_forEach {S} (step : JsVal -> S -> Result S) (v : JsVal) (s : S)
  : Result S :=
  match v with
  | JArr items => forEach_loop step items s
  | _ => Throw TypeError
  end.

(** ** The client *)

Module OpenPlatform.

(** The variables of [orderMaterial] that [constructOrderParameter]
    updates: the URL parameters and the body object. *)
Record OrderData : Type := mkOrderData {
  parameters : list string;
  body_fields : list (string * JsVal)
}.

(** [parameters.push(p)] *)
Definition push_parameter (p : string) (d : OrderData) : OrderData :=
  mkOrderData (push (parameters d) p) (body_fields d).

(** [body.k = v] *)
Definition set_body (k : string) (v : JsVal) (d : OrderData) : OrderData :=
  mkOrderData (parameters d) (set_prop k v (body_fields d)).

Section Client.

Variable NumberToString : number -> string.
Variable StringToNumber : string -> number.

(** [getToken] of the module [./token]: the access token of an
    audience (["library"] or ["user"]). *)
Variable getToken : string -> string.

(** The network and the upstream behind [fetch]: the reply to a
    request, given the requests issued before it. *)
Variable upstream : list Request -> Request -> Reply.

Local Open Scope async_scope.

(** [formatUrlArray(items)]: every item percent-encoded, joined with
    commas, and a trailing comma in all cases. *)
Definition formatUrlArray (items : list JsVal) : Result string :=
  (encoded <- mapR (encodeURIComponent NumberToString) items ;;
   Ok (join "," encoded ++ ","))%result.

Definition baseUrl : string := "https://openplatform.dbc.dk/v3".

Definition pidLimit : nat := 20.

(** [fetch(url, init)]: the request goes out; the promise is rejected
    on a network failure and fulfilled with the raw response
    otherwise, in the turn the reply comes in. *)
Definition fetch (u : string) (o : Options) : Async (option JsVal) :=
  fun log =>
    let req := mkRequest u o in
    (push log req,
     match upstream log req with
     | NoReply => Pending
     | Unreachable t => Rejected (S t) NetworkError
     | Answer t raw => Fulfilled (S t) raw
     end).

(** [rawResponse.json()] *)
Definition json (rawResponse : option JsVal) : Async JsVal :=
  match rawResponse with
  | Some v => ret v
  | None => throw SyntaxError
  end.

Definition defaults : Options :=
  mkOptions None (Some [("Accept", "application/json")]) None.

Definition request (path : string) (options : Options) : Async JsVal :=
  rawResponse <- fetch (baseUrl ++ "/" ++ path) (spread defaults options) ;;
  response <- json rawResponse ;;
  statusCode <- lift (get_prop response "statusCode") ;;
  if negb (strict_eq_num statusCode (num 200)) then
    e <- lift (error <- get_prop response "error" ;;
               js_Error NumberToString error)%result ;;
    throw e
  else
    data <- lift (get_prop response "data") ;;
    if negb (truthy data) then throw (JsError "data not found")
    else ret data.

(** [fields.map(encodeURIComponent).join(",")] *)
Definition formatFields (fields : list JsVal) : Result string :=
  (encoded <- mapR (encodeURIComponent NumberToString) fields ;;
   Ok (join "," encoded))%result.

(** The part of [getWork] below the chunking branch: one request. *)
Definition getWork_request (pids fields : list JsVal) : Async (list JsVal) :=
  formattedPids <- lift (formatUrlArray pids) ;;
  formattedFields <- lift (formatFields fields) ;;
  let token := getToken "library" in
  works <- request ("work?access_token=" ++ token ++ "&fields=" ++
                    formattedFields ++ "&pids=" ++ formattedPids)
                   no_options ;;
  lift (js_filter (fun result => negb (isEmpty result)) works).

(** [getWork({ pids, fields })].  The method calls itself on every
    chunk; [fuel] bounds the depth of these calls, and a call without
    fuel never settles. *)
Fixpoint getWork_fuel (fuel : nat) (pids fields : list JsVal)
  : Async (list JsVal) :=
  match fuel with
  | O => never
  | S fuel' =>
      if (pidLimit <? List.length pids)%nat then
        let responses :=
          map (fun pidChunk => getWork_fuel fuel' pidChunk fields)
              (chunk pids pidLimit) in
        results <- Promise_all responses ;;
        ret (List.concat results)
      else getWork_request pids fields
  end.

(** Two levels are all a call uses: a chunk is never longer than
    [pidLimit] (see [getWork_fuel_enough]). *)
Definition getWork (pids fields : list JsVal) : Async (list JsVal) :=
  getWork_fuel 2 pids fields.

(** The defaults of [getWork]'s parameters. *)
Definition getWork_default_fields : list JsVal := [JStr "title"].

Definition getAvailability_default_fields : list JsVal :=
  [JStr "expectedDelivery"; JStr "orderPossible"; JStr "willLend"].

Definition getAvailability (pids fields : list JsVal) : Async JsVal :=
  formattedPids <- lift (formatUrlArray pids) ;;
  formattedFields <- lift (formatFields fields) ;;
  let token := getToken "library" in
  request ("availability?access_token=" ++ token ++ "&fields=" ++
           formattedFields ++ "&pids=" ++ formattedPids)
          no_options.

(** [orderStat.willLend && orderStat.orderPossible] *)
Definition illOrderable (orderStat : JsVal) : Result JsVal :=
  (willLend <- get_prop orderStat "willLend" ;;
   if truthy willLend then get_prop orderStat "orderPossible"
   else Ok willLend)%result.

Definition canBeOrdered (pids : list JsVal) : Async bool :=
  response <- getAvailability pids getAvailability_default_fields ;;
  lift (js_some illOrderable response).

Definition getUser : Async JsVal :=
  request ("user?access_token=" ++ getToken "user") no_options.

(** The [parameters] array of [getLibraries]. *)
Definition librariesParameters (agencyIds branchIds : list JsVal)
  : Result (list string) :=
  (let parameters := ["access_token=" ++ getToken "library"] in
   parameters <-
     (if (0 <? List.length agencyIds)%nat then
        formatted <- formatUrlArray agencyIds ;;
        Ok (push parameters ("agencyIds=" ++ formatted))
      else Ok parameters) ;;
   parameters <-
     (if (0 <? List.length branchIds)%nat then
        formatted <- formatUrlArray branchIds ;;
        Ok (push parameters ("branchIds=" ++ formatted))
      else Ok parameters) ;;
   Ok parameters)%result.

Definition getLibraries (agencyIds branchIds : list JsVal) : Async JsVal :=
  parameters <- lift (librariesParameters agencyIds branchIds) ;;
  request ("libraries?" ++ join "&" parameters) no_options.

Definition getBranch (branchId : JsVal) : Async JsVal :=
  branches <- getLibraries [] [branchId] ;;
  none <- lift (length_less_than NumberToString StringToNumber branches 1) ;;
  if (none : bool) then throw (JsError "branch not found")
  else lift (get_first branches).

(** The closure [constructOrderParameter] of [orderMaterial], as a
    step on the variables it updates. *)
Definition constructOrderParameter (user : JsVal) (parameter : JsVal)
  (d : OrderData) : Result OrderData :=
  (if strict_eq_str parameter "userId" || strict_eq_str parameter "pincode"
   then Ok d
   else if strict_eq_str parameter "name" then
     name <- get_prop user "name" ;;
     text <- ToString NumberToString name ;;
     Ok (set_body "name" name (push_parameter ("name=" ++ text) d))
   else if strict_eq_str parameter "address" then
     address <- get_prop user "address" ;;
     text <- ToString NumberToString address ;;
     Ok (set_body "address" address (push_parameter ("address=" ++ text) d))
   else if strict_eq_str parameter "email" then
     mail <- get_prop user "mail" ;;
     text <- ToString NumberToString mail ;;
     Ok (set_body "email" mail (push_parameter ("email=" ++ text) d))
   else if strict_eq_str parameter "phone" then
     Ok (set_body "phone" (JStr "12345678")
                  (push_parameter "phone=12345678" d))
   else Ok d)%result.

(** [parameters] and [body] of [orderMaterial] before the branch's own
    requirements are added.  The defaults of the parameter list come
    first: a [pickupBranch] or [expires] that is not given, or is
    [undefined], is [null].  (The pids are a list here: a call without
    [pids] is a call with the default, [[]].) *)
Definition orderData (pids : list JsVal) (pickupBranch expires : JsVal)
  : Result OrderData :=
  (let pickupBranch := or_default JNull pickupBranch in
   let expires := or_default JNull expires in
   let token := getToken "user" in
   expiresText <- ToString NumberToString expires ;;
   branchText <- ToString NumberToString pickupBranch ;;
   let parameters :=
     ["access_token=" ++ token;
      "orderType=normal";
      "expires=" ++ expiresText;
      "pickUpBranch=" ++ quote ++ branchText ++ quote] in
   let body :=
     [("orderType", JStr "normal");
      ("expires", expires);
      ("pickUpBranch", pickupBranch)] in
   formatted <- formatUrlArray pids ;;
   Ok (set_body "pids" (JArr pids)
                (push_parameter ("pids=" ++ formatted)
                                (mkOrderData parameters body))))%result.

(** [branch.orderParameters.forEach(constructOrderParameter)] *)
Definition addBranchParameters (user branch : JsVal) (d : OrderData)
  : Result OrderData :=
  (orderParameters <- get_prop branch "orderParameters" ;;
   js_forEach (constructOrderParameter user) orderParameters d)%result.

Definition orderOptions (d : OrderData) : Options :=
  mkOptions (Some "POST")
            (Some [("Accept", "application/json");
                   ("Content-Type", "application/json")])
            (JSON_stringify NumberToString (JObj (body_fields d))).

(** [orderMaterial({ pids, pickupBranch, expires })]; the branch that
    is looked up is [pickupBranch] after its default. *)
Definition orderMaterial (pids : list JsVal) (pickupBranch expires : JsVal)
  : Async JsVal :=
  d <- lift (orderData pids pickupBranch expires) ;;
  both <- Promise_all [getUser; getBranch (or_default JNull pickupBranch)] ;;
  let user := nth 0 both JUndefined in
  let branch := nth 1 both JUndefined in
  d <- lift (addBranchParameters user branch d) ;;
  request ("order?" ++ join "&" (parameters d)) (orderOptions d).

(** The options of [search]; an option that is not given is
    [undefined]. *)
Record SearchOptions : Type := mkSearchOptions {
  offset : JsVal;
  limit : JsVal;
  sort : JsVal;
  fields : JsVal
}.

(** [search(query)]: the second argument defaults to [{}]. *)
Definition no_search_options : SearchOptions :=
  mkSearchOptions JUndefined JUndefined JUndefined JUndefined.

(** The [parameters] array of [search]: an option is added when it is
    truthy.  [formatUrlArray(fields)] calls [fields.map], which only an
    array has. *)
Definition searchParameters (options : SearchOptions) : Result (list string) :=
  (let parameters := [] in
   parameters <-
     (if truthy (limit options) then
        text <- ToString NumberToString (limit options) ;;
        Ok (push parameters ("limit=" ++ text))
      else Ok parameters) ;;
   parameters <-
     (if truthy (sort options) then
        text <- ToString NumberToString (sort options) ;;
        Ok (push parameters ("sort=" ++ text))
      else Ok parameters) ;;
   parameters <-
     (if truthy (fields options) then
        formatted <- match fields options with
                     | JArr items => formatUrlArray items
                     | _ => Throw TypeError
                     end ;;
        Ok (push parameters ("fields=" ++ formatted))
      else Ok parameters) ;;
   Ok parameters)%result.

Definition search (query : JsVal) (options : SearchOptions) : Async JsVal :=
  let offset := or_default (JNum (num 0)) (offset options) in
  parameters <- lift (searchParameters options) ;;
  let token := getToken "library" in
  q <- lift (encodeURIComponent NumberToString query) ;;
  offsetText <- lift (ToString NumberToString offset) ;;
  request ("search?access_token=" ++ token ++ "&q=" ++ q ++
           "&offset=" ++ offsetText ++ "&" ++ join "&" parameters)
          no_options.

End Client.

End OpenPlatform.

(** ** A stand-in runtime and upstream for the examples *)

Module Demo.

(** The only number an example prints is [0]; none parses a number. *)
Definition NumberToString (x : number) : string := "0".
Definition StringToNumber (s : string) : number := S754_nan.

Definition getToken (audience : string) : string := "token-" ++ audience.

(** A response envelope [{ statusCode, data }]. *)
Definition envelope (statusCode : Z) (data : JsVal) : JsVal :=
  JObj [("statusCode", JNum (num statusCode)); ("data", data)].

(** An upstream that answers every request in the next turn with the
    same response. *)
Definition always (response : JsVal) : list Request -> Request -> Reply :=
  fun _ _ => Answer 0 (Some response).


(** An upstream with one user and one branch, which accepts every
    order. *)
Definition shop (user branch : JsVal) : list Request -> Request -> Reply :=
  fun _ req =>
    if JsString.prefix "https://openplatform.dbc.dk/v3/user?" (url req)
    then Answer 1 (Some (envelope 200 user))
    else if JsString.prefix "https://openplatform.dbc.dk/v3/libraries?"
                            (url req)
    then Answer 2 (Some (envelope 200 (JArr [branch])))
    else Answer 1 (Some (envelope 200 (JObj [("status", JStr "ok")]))).

Definition ann : JsVal :=
  JObj [("name", JStr "Ann"); ("address", JStr "Main Street 1");
        ("mail", JStr "ann@example.org")].

(** A branch and what it requires for an order. *)
Definition branch (orderParameters : list string) : JsVal :=
  JObj [("branchId", JStr "710100");
        ("orderParameters", JArr (map JStr orderParameters))].

Definition titleA : JsVal := JObj [("title", JStr "A")].

Definition pids45 : list string := repeat "870970-basis:1" 45.

(** A string that is one lead surrogate without its trail. *)
Definition lone_surrogate : string := String (unit 0xD800) EmptyString.

(** The euro sign, one code unit, and a musical G clef, a surrogate
    pair. *)
Definition euro : string := String (unit 0x20AC) EmptyString.

Definition clef : string :=
  String (unit 0xD834) (String (unit 0xDD1E) EmptyString).

End Demo.

(** ** Definitions used by the statements *)

(** A synchronous result as the promise settled at time [t]. *)
Definition settle {A} (t : nat) (r : Result A) : Promise A :=
  match r with
  | Ok a => Fulfilled t a
  | Throw e => Rejected t e
  end.

Definition is_rejected {A} (p : Promise A) : bool :=
  match p with
  | Rejected _ _ => true
  | _ => false
  end.

(** The name of a URL parameter ["name=value"]: the text before the first
    [=]. *)
Fixpoint param_name (p : string) : string :=
  match p with
  | EmptyString => EmptyString
  | String c r =>
      if unit_eqb c "="%char then EmptyString else String c (param_name r)
  end.

Fixpoint count_char (c : unit16) (s : string) : nat :=
  match s with
  | EmptyString => 0
  | String c' r => (if unit_eqb c c' then 1 else 0) + count_char c r
  end.

(** The synchronous tail of [request]: what becomes of a parsed
    response. *)
Definition unwrap (NumberToString : number -> string) (response : JsVal)
  : Result JsVal :=
  (statusCode <- get_prop response "statusCode" ;;
   if negb (strict_eq_num statusCode (num 200)) then
     error <- get_prop response "error" ;;
     e <- js_Error NumberToString error ;;
     Throw e
   else
     data <- get_prop response "data" ;;
     if negb (truthy data) then Throw (JsError "data not found")
     else Ok data)%result.

(** The request that [request(path, options)] sends. *)
Definition sent (path : string) (options : Options) : Request :=
  mkRequest (OpenPlatform.baseUrl ++ "/" ++ path)
            (spread OpenPlatform.defaults options).

(** *** Strings that can be percent-encoded *)

(** [String.prototype.isWellFormed]: every lead surrogate is followed
    by a trail surrogate, and no trail surrogate stands without its
    lead. *)
Fixpoint isWellFormed (s : string) : bool :=
  match s with
  | EmptyString => true
  | String c r =>
      if is_lead_surrogate c then
        match r with
        | String c2 r2 => is_trail_surrogate c2 && isWellFormed r2
        | EmptyString => false
        end
      else negb (is_trail_surrogate c) && isWellFormed r
  end.

(** The percent-encoded form of a well-formed string. *)
Definition encoded (s : string) : string :=
  match Encode s with
  | Ok text => text
  | Throw _ => EmptyString
  end.

(** [all_chars p s]: every character of [s] passes [p]. *)
Fixpoint all_chars (p : unit16 -> bool) (s : string) : bool :=
  match s with
  | EmptyString => true
  | String c r => p c && all_chars p r
  end.

(** The characters of a percent-encoded string: the unreserved ones and
    the percent sign. *)
Definition url_safe (c : unit16) : bool := unreserved c || unit_eqb c "%"%char.

(** *** Reading a percent-encoded text back

    As the receiver of a URL does: the text is turned into octets, an
    escape [%XX] giving the octet [XX] and any other character its own;
    the octets are read as UTF-8 into code points, each in its shortest
    form and none a surrogate or beyond U+10FFFF; and the code points
    are written as UTF-16. *)
Definition hex_value (c : unit16) : option N :=
  let n := code c in
  (if (48 <=? n) && (n <=? 57) then Some (n - 48)
   else if (65 <=? n) && (n <=? 70) then Some (n - 55)
   else None)%N.

Fixpoint unescape (s : string) : option (list N) :=
  match s with
  | EmptyString => Some []
  | String c r =>
      if unit_eqb c "%"%char then
        match r with
        | String h (String l r') =>
            match hex_value h, hex_value l, unescape r' with
            | Some a, Some b, Some octets => Some ((16 * a + b)%N :: octets)
            | _, _, _ => None
            end
        | _ => None
        end
      else if (code c <? 128)%N then option_map (cons (code c)) (unescape r)
      else None
  end.

(** An octet [10xxxxxx]. *)
Definition continuation (b : N) : bool := ((0x80 <=? b) && (b <? 0xC0))%N.

(** A code point between [low] and U+10FFFF that is no surrogate. *)
Definition scalar_from (low cp : N) : bool :=
  ((low <=? cp) && (cp <? 0x110000) &&
   negb ((0xD800 <=? cp) && (cp <=? 0xDFFF)))%N.

Fixpoint utf8_decode (octets : list N) : option (list N) :=
  match octets with
  | [] => Some []
  | b0 :: r0 =>
      if (b0 <? 0x80)%N then option_map (cons b0) (utf8_decode r0)
      else if (b0 <? 0xC0)%N then None
      else if (b0 <? 0xE0)%N then
        match r0 with
        | b1 :: r1 =>
            let cp := ((b0 - 0xC0) * 64 + (b1 - 0x80))%N in
            if continuation b1 && scalar_from 0x80 cp then
              option_map (cons cp) (utf8_decode r1)
            else None
        | _ => None
        end
      else if (b0 <? 0xF0)%N then
        match r0 with
        | b1 :: b2 :: r2 =>
            let cp :=
              ((b0 - 0xE0) * 4096 + (b1 - 0x80) * 64 + (b2 - 0x80))%N in
            if continuation b1 && continuation b2 && scalar_from 0x800 cp then
              option_map (cons cp) (utf8_decode r2)
            else None
        | _ => None
        end
      else
        match r0 with
        | b1 :: b2 :: b3 :: r3 =>
            let cp :=
              ((b0 - 0xF0) * 262144 + (b1 - 0x80) * 4096 +
               (b2 - 0x80) * 64 + (b3 - 0x80))%N in
            if continuation b1 && continuation b2 && continuation b3 &&
               scalar_from 0x10000 cp then
              option_map (cons cp) (utf8_decode r3)
            else None
        | _ => None
        end
  end.

(** A code point below 0x10000 is one code unit, any other a surrogate
    pair. *)
Fixpoint utf16 (cps : list N) : string :=
  match cps with
  | [] => EmptyString
  | cp :: r =>
      if (cp <? 0x10000)%N then String (unit cp) (utf16 r)
      else String (unit (0xD800 + (cp - 0x10000) / 0x400))
             (String (unit (0xDC00 + (cp - 0x10000) mod 0x400)) (utf16 r))
  end.

Definition percent_decode (text : string) : option string :=
  match unescape text with
  | Some octets =>
      match utf8_decode octets with
      | Some cps => Some (utf16 cps)
      | None => None
      end
  | None => None
  end.

(** [text] is a percent-encoding of [s]: it holds nothing but
    unreserved characters and percent signs, and reads back as [s]. *)
Definition percent_encoded (s text : string) : Prop :=
  all_chars url_safe text = true /\ percent_decode text = Some s.

(** *** Lists in a URL *)

(** Every item followed by [sep]. *)
Fixpoint terminated (sep : string) (items : list string) : string :=
  match items with
  | [] => EmptyString
  | item :: r => item ++ sep ++ terminated sep r
  end.

(** The first item, and every other item preceded by [sep]. *)
Definition separated (sep : string) (items : list string) : string :=
  match items with
  | [] => EmptyString
  | first :: others =>
      first ++ fold_right (fun item text => sep ++ item ++ text)
                          EmptyString others
  end.

(** An array parameter: every item percent-encoded and followed by a
    comma, and a single comma for no item. *)
Definition array_parameter (items : list string) : string :=
  match items with
  | [] => ","
  | _ => terminated "," (map encoded items)
  end.

(** The path of the request of [getWork] for a list of pids. *)
Definition workPath (getToken : string -> string) (fields pids : list string)
  : string :=
  "work?access_token=" ++ getToken "library" ++
  "&fields=" ++ separated "," (map encoded fields) ++
  "&pids=" ++ array_parameter pids.

(** The pieces of [s] between the occurrences of [c]. *)
Fixpoint split_on (c : unit16) (s : string) : list string :=
  match s with
  | EmptyString => [EmptyString]
  | String x r =>
      if unit_eqb x c then EmptyString :: split_on c r
      else match split_on c r with
           | piece :: pieces => String x piece :: pieces
           | [] => [String x EmptyString]
           end
  end.

(** *** The parameters of a URL

    As the receiver of a request reads them: the query is what stands
    between the first [?] and the first [#]; its parameters are the
    pieces between the [&] that are not empty; and the name of a
    parameter is what stands before its first [=]. *)
Fixpoint before (c : unit16) (s : string) : string :=
  match s with
  | EmptyString => EmptyString
  | String x r => if unit_eqb x c then EmptyString else String x (before c r)
  end.

Fixpoint after (c : unit16) (s : string) : string :=
  match s with
  | EmptyString => EmptyString
  | String x r => if unit_eqb x c then r else after c r
  end.

Definition url_query (u : string) : string :=
  after "?"%char (before "#"%char u).

Definition not_empty (s : string) : bool :=
  match s with
  | EmptyString => false
  | String _ _ => true
  end.

Definition url_parameters (u : string) : list string :=
  filter not_empty (split_on "&"%char (url_query u)).

Definition url_names (u : string) : list string :=
  map param_name (url_parameters u).

(** A text that can stand in a query without ending a parameter or the
    query: it holds no [&] and no [#]. *)
Definition plain (s : string) : bool :=
  ((count_char "&"%char s =? 0) && (count_char "#"%char s =? 0))%nat.

(** Whether the property [k] of an availability record is true. *)
Definition flag (k : string) (record : JsVal) : bool :=
  match get_prop record k with
  | Ok v => truthy v
  | Throw _ => false
  end.

(** A record that lends and can be ordered. *)
Definition orderable (record : JsVal) : bool :=
  flag "willLend" record && flag "orderPossible" record.

(** Anything but [null] and [undefined]: property reads succeed. *)
Definition is_record (v : JsVal) : bool :=
  match v with
  | JUndefined | JNull => false
  | _ => true
  end.

(** The names of the parameters that [orderMaterial] has gathered. *)
Definition parameter_names (d : OpenPlatform.OrderData) : list string :=
  map param_name (OpenPlatform.parameters d).

(** The text that the URL of an order carries for the body field [k] of
    value [v]: the pick-up branch as it prints, between quotes; the
    pids as an array parameter, every pid percent-encoded as it prints
    and followed by a comma, or one comma for no pid; any other field
    as it prints. *)
Definition url_value (NumberToString : number -> string) (k : string)
  (v : JsVal) (text : string) : Prop :=
  if JsString.eqb k "pickUpBranch" then
    exists printed,
      ToString NumberToString v = Ok printed /\
      text = quote ++ printed ++ quote
  else if JsString.eqb k "pids" then
    exists items printed pieces,
      v = JArr items /\
      mapR (ToString NumberToString) items = Ok printed /\
      Forall2 percent_encoded printed pieces /\
      text = match pieces with
             | [] => ","
             | _ => terminated "," pieces
             end
  else ToString NumberToString v = Ok text.

(** The order parameters that the client supplies itself. *)
Definition supplied : list string := ["name"; "address"; "email"; "phone"].

(** The fields of every order. *)
Definition fixed : list string :=
  ["orderType"; "expires"; "pickUpBranch"; "pids"].

(** The parameters [ps] of a URL and the fields of a body carry the
    same data: but for the access token, which only the URL has, a name
    is a URL parameter if and only if it is a key of the body; the URL
    parameter of a body field carries the value of that field; and the
    body has no field beyond the fixed and the supplied ones. *)
Definition same_fields (NumberToString : number -> string)
  (ps : list string) (fields : list (string * JsVal)) : Prop :=
  (forall k, k <> "access_token" ->
             (In k (map param_name ps) <-> has_key k fields = true)) /\
  (forall k v, lookup k fields = Some v ->
               exists text, url_value NumberToString k v text /\
                            In (k ++ "=" ++ text) ps) /\
  (forall k, has_key k fields = true -> In k (fixed ++ supplied)).

(** The two lookups of [orderMaterial]: the user, and the branch whose
    id prints as [branchText]. *)
Definition userRequest (getToken : string -> string) : Request :=
  sent ("user?access_token=" ++ getToken "user") no_options.

Definition branchRequest (getToken : string -> string) (branchText : string)
  : Request :=
  sent ("libraries?access_token=" ++ getToken "library" ++
        "&branchIds=" ++ array_parameter [branchText])
       no_options.

(** How many of the parameters [ps] are named [k]. *)
Definition count_named (k : string) (ps : list string) : nat :=
  List.length (filter (fun p => JsString.eqb (param_name p) k) ps).

(** How many times a branch lists the requirement [k]. *)
Definition count_required (k : string) (items : list JsVal) : nat :=
  List.length (filter (fun v => strict_eq_str v k) items).

(** The keys of an object, in order. *)
Definition keys (fields : list (string * JsVal)) : list string :=
  map fst fields.

(** [issues P m]: whatever the log, the calls of [m] add requests to
    its end, each of which satisfies [P], and change nothing before. *)
Definition issues {A} (P : Request -> Prop) (m : Async A) : Prop :=
  forall log, exists new, fst (m log) = (log ++ new)%list /\ Forall P new.

(** A request that asks for JSON. *)
Definition accepts_json (r : Request) : Prop :=
  exists hs, headers (init r) = Some hs /\ In ("Accept", "application/json") hs.

(** A request without method and body: a GET. *)
Definition is_get (r : Request) : Prop :=
  method (init r) = None /\ body (init r) = None.

(** A POST of a JSON text to the order endpoint. *)
Definition is_order_post (r : Request) : Prop :=
  method (init r) = Some "POST" /\
  (exists hs, headers (init r) = Some hs /\
              In ("Content-Type", "application/json") hs) /\
  (exists text, body (init r) = Some text) /\
  JsString.prefix (OpenPlatform.baseUrl ++ "/order?") (url r) = true.

Definition well_formed (r : Request) : Prop :=
  JsString.prefix (OpenPlatform.baseUrl ++ "/") (url r) = true /\
  accepts_json r /\
  (is_get r \/ is_order_post r).

(** A request to the endpoint [ep] whose first parameter is the access
    token of the audience [aud]. *)
Definition with_token (getToken : string -> string) (ep aud : string)
  (r : Request) : Prop :=
  exists rest,
    url r = OpenPlatform.baseUrl ++ "/" ++ (ep ++ "?access_token=") ++
            getToken aud ++ rest /\
    (rest = EmptyString \/ JsString.prefix "&" rest = true).

(** [ceil (n / d)] *)
Definition ceil_div (n d : nat) : nat := (n + d - 1) / d.

(** What [getWork] keeps of the works it receives. *)
Definition nonEmpty (result : JsVal) : bool := negb (isEmpty result).

(** The promise of a reply whose parsed response is handled by [f]. *)
Definition answered {A} (reply : Reply) (f : JsVal -> Result A) : Promise A :=
  match reply with
  | NoReply => Pending
  | Unreachable t => Rejected (S t) NetworkError
  | Answer t None => Rejected (S t) SyntaxError
  | Answer t (Some response) => settle (S t) (f response)
  end.

Definition fulfilled_with {A} (p : Promise A) (a : A) : Prop :=
  exists t, p = Fulfilled t a.

(** ** Code units and strings *)

(** Linear arithmetic with division and remainder by a constant. *)
Ltac nlia := zify; Z.to_euclidean_division_equations; lia.

Lemma code_bound (c : unit16) : (code c < 65536)%N.
Proof.
  unfold code. pose proof (N_ascii_bounded (high c)).
  pose proof (N_ascii_bounded (low c)). lia.
Qed.

Lemma code_unit (n : N) : (n < 65536)%N -> code (unit n) = n.
Proof.
  intros Hn. unfold code, unit. simpl high. simpl low.
  rewrite !N_ascii_embedding; nlia.
Qed.

Lemma unit_code (c : unit16) : unit (code c) = c.
Proof.
  destruct c as [h l]. unfold code, unit. simpl high. simpl low.
  pose proof (N_ascii_bounded h). pose proof (N_ascii_bounded l).
  replace ((256 * N_of_ascii h + N_of_ascii l) / 256)%N with (N_of_ascii h)
    by nlia.
  replace ((256 * N_of_ascii h + N_of_ascii l) mod 256)%N with (N_of_ascii l)
    by nlia.
  now rewrite !ascii_N_embedding.
Qed.

Lemma unit_eqb_spec (a b : unit16) : reflect (a = b) (unit_eqb a b).
Proof.
  destruct a as [h l], b as [h' l']. unfold unit_eqb. simpl.
  destruct (Ascii.eqb_spec h h') as [-> | Hh]; simpl.
  - destruct (Ascii.eqb_spec l l') as [-> | Hl]; constructor; congruence.
  - constructor. congruence.
Qed.

Lemma unit_eqb_refl (a : unit16) : unit_eqb a a = true.
Proof. now destruct (unit_eqb_spec a a). Qed.

Lemma unit_eqb_sym (a b : unit16) : unit_eqb a b = unit_eqb b a.
Proof.
  destruct (unit_eqb_spec a b) as [-> | Hne].
  - now rewrite unit_eqb_refl.
  - destruct (unit_eqb_spec b a); congruence.
Qed.

Lemma string_eqb_spec (a b : string) : reflect (a = b) (JsString.eqb a b).
Proof.
  revert b. induction a as [ | x a IH]; intros [ | y b]; simpl;
    try (constructor; congruence).
  destruct (unit_eqb_spec x y) as [-> | Hne]; simpl.
  - destruct (IH b) as [-> | Hne]; constructor; congruence.
  - constructor. congruence.
Qed.

Lemma string_eqb_refl (a : string) : JsString.eqb a a = true.
Proof. now destruct (string_eqb_spec a a). Qed.

Lemma string_eqb_eq (a b : string) : JsString.eqb a b = true <-> a = b.
Proof. destruct (string_eqb_spec a b); split; congruence. Qed.

Lemma string_app_assoc (a b c : string) : (a ++ b) ++ c = a ++ (b ++ c).
Proof. induction a as [ | x a IH]; simpl; [ reflexivity | now rewrite IH ]. Qed.

Lemma string_app_nil_r (a : string) : a ++ EmptyString = a.
Proof. induction a as [ | x a IH]; simpl; [ reflexivity | now rewrite IH ]. Qed.

Lemma prefix_app (a b : string) : JsString.prefix a (a ++ b) = true.
Proof.
  induction a as [ | x a IH]; simpl; [ reflexivity | ].
  now rewrite unit_eqb_refl.
Qed.

Lemma count_char_app (c : unit16) (a b : string) :
  count_char c (a ++ b) = count_char c a + count_char c b.
Proof. induction a as [ | c' a IH]; simpl; [ reflexivity | rewrite IH; lia ]. Qed.

Lemma all_chars_app (p : unit16 -> bool) (a b : string) :
  all_chars p (a ++ b) = all_chars p a && all_chars p b.
Proof.
  induction a as [ | x a IH]; simpl; [ reflexivity | ].
  now rewrite IH, andb_assoc.
Qed.

Lemma all_chars_weaken (p q : unit16 -> bool) (s : string) :
  (forall c, p c = true -> q c = true) ->
  all_chars p s = true -> all_chars q s = true.
Proof.
  intros Hpq. induction s as [ | c s IH]; simpl; [ reflexivity | ].
  rewrite !andb_true_iff. intros [Hc Hs].
  split; [ now apply Hpq | now apply IH ].
Qed.

Lemma all_chars_count (p : unit16 -> bool) (c : unit16) (s : string) :
  all_chars p s = true -> p c = false -> count_char c s = 0.
Proof.
  intros Hs Hc. induction s as [ | x s IH]; simpl in *; [ reflexivity | ].
  apply andb_true_iff in Hs as [Hx Hs].
  destruct (unit_eqb_spec c x) as [-> | _]; [ congruence | ].
  now apply IH.
Qed.

(** ** Joining *)

Lemma join_cons (sep s s' : string) (r : list string) :
  join sep (s :: s' :: r) = s ++ sep ++ join sep (s' :: r).
Proof. reflexivity. Qed.

(** [join] writes the first item, and every other item behind a
    separator. *)
Lemma join_separated (sep : string) (l : list string) :
  join sep l = separated sep l.
Proof.
  destruct l as [ | first others]; [ reflexivity | ].
  revert first. induction others as [ | s r IH]; intros first.
  - simpl. now rewrite string_app_nil_r.
  - rewrite join_cons, (IH s). reflexivity.
Qed.

(** A join with a separator behind it has every item followed by the
    separator; for no item, it is the separator alone. *)
Lemma join_terminated (sep : string) (l : list string) :
  join sep l ++ sep =
  match l with
  | [] => sep
  | _ => terminated sep l
  end.
Proof.
  destruct l as [ | first others]; [ reflexivity | ].
  revert first. induction others as [ | s r IH]; intros first.
  - simpl. now rewrite string_app_nil_r.
  - rewrite join_cons, !string_app_assoc, (IH s). reflexivity.
Qed.

Lemma join_head (sep x : string) (more : list string) :
  join sep (x :: more) =
  x ++ match more with
       | [] => EmptyString
       | _ => sep ++ join sep more
       end.
Proof.
  destruct more; [ | reflexivity ].
  simpl. now rewrite string_app_nil_r.
Qed.

Lemma count_char_terminated (c : unit16) (sep : string) (l : list string) :
  Forall (fun s => count_char c s = 0) l ->
  count_char c (terminated sep l) = List.length l * count_char c sep.
Proof.
  induction 1 as [ | s l Hs _ IH]; [ reflexivity | ].
  cbn [terminated List.length]. rewrite !count_char_app, Hs, IH. lia.
Qed.

Lemma count_char_join (c : unit16) (sep : string) (l : list string) :
  Forall (fun s => count_char c s = 0) l ->
  count_char c (join sep l) = (List.length l - 1) * count_char c sep.
Proof.
  induction 1 as [ | s l Hs Hl IH]; [ reflexivity | ].
  destruct l as [ | s' r].
  - simpl. lia.
  - rewrite join_cons, !count_char_app, Hs, IH. simpl List.length. lia.
Qed.

(** Splitting at a character that the pieces do not hold. *)
Lemma split_on_free (c : unit16) (s : string) :
  count_char c s = 0 -> split_on c s = [s].
Proof.
  induction s as [ | x s IH]; simpl; [ reflexivity | ].
  rewrite (unit_eqb_sym x c).
  destruct (unit_eqb c x); [ discriminate | ].
  intros H. now rewrite IH.
Qed.

Lemma split_on_app (c : unit16) (s rest : string) :
  count_char c s = 0 ->
  split_on c (s ++ String c rest) = s :: split_on c rest.
Proof.
  induction s as [ | x s IH]; simpl.
  - now rewrite unit_eqb_refl.
  - rewrite (unit_eqb_sym x c).
    destruct (unit_eqb c x); [ discriminate | ].
    intros H. now rewrite IH.
Qed.

(** Items that are each followed by a separator split back into the
    items and one empty piece behind the last separator. *)
Lemma split_on_terminated (c : unit16) (l : list string) :
  Forall (fun s => count_char c s = 0) l ->
  split_on c (terminated (String c EmptyString) l) = (l ++ [EmptyString])%list.
Proof.
  induction 1 as [ | s l Hs _ IH]; [ reflexivity | ].
  cbn [terminated]. cbn [JsString.append].
  rewrite split_on_app by exact Hs. now rewrite IH.
Qed.

(** Items joined by a separator split back into the items. *)
Lemma split_on_join (c : unit16) (l : list string) :
  l <> [] ->
  Forall (fun s => count_char c s = 0) l ->
  split_on c (join (String c EmptyString) l) = l.
Proof.
  intros Hne Hfree. induction Hfree as [ | s l Hs Hl IH]; [ congruence | ].
  destruct l as [ | s' r].
  - simpl. now apply split_on_free.
  - rewrite join_cons. cbn [JsString.append].
    rewrite split_on_app by exact Hs.
    now rewrite IH by discriminate.
Qed.

(** ** Percent-encoding *)

Lemma surrogate_bounds (c : unit16) :
  (is_lead_surrogate c = true <-> (0xD800 <= code c <= 0xDBFF)%N) /\
  (is_trail_surrogate c = true <-> (0xDC00 <= code c <= 0xDFFF)%N).
Proof.
  unfold is_lead_surrogate, is_trail_surrogate.
  rewrite !andb_true_iff, !N.leb_le. tauto.
Qed.

(** An unreserved character is an ASCII character other than the
    percent sign. *)
Lemma unreserved_ascii (c : unit16) :
  unreserved c = true -> (code c < 128)%N /\ unit_eqb c "%"%char = false.
Proof.
  unfold unreserved. intros H.
  assert (Hc : (code c < 128)%N /\ code c <> 37%N).
  { apply orb_true_iff in H as [H | H];
      [ apply orb_true_iff in H as [H | H];
        [ apply orb_true_iff in H as [H | H] | ] | ];
      try (apply andb_true_iff in H as [H1 H2];
           apply N.leb_le in H1, H2; lia).
    cbn [existsb] in H.
    repeat (apply orb_true_iff in H as [H | H];
            [ apply N.eqb_eq in H; lia | ]).
    discriminate. }
  split; [ apply Hc | ].
  destruct (unit_eqb_spec c "%"%char) as [-> | _]; [ | reflexivity ].
  now destruct Hc as [_ []].
Qed.

(** The cases of [Encode], as an induction principle. *)
Lemma Encode_ind (P : string -> string -> Prop) :
  P EmptyString EmptyString ->
  (forall c r R,
      unreserved c = true -> Encode r = Ok R -> P r R ->
      P (String c r) (String c R)) ->
  (forall c c2 r2 R,
      unreserved c = false -> is_lead_surrogate c = true ->
      is_trail_surrogate c2 = true -> Encode r2 = Ok R -> P r2 R ->
      P (String c (String c2 r2)) (escape (pair_code_point c c2) ++ R)) ->
  (forall c r R,
      unreserved c = false -> is_lead_surrogate c = false ->
      is_trail_surrogate c = false -> Encode r = Ok R -> P r R ->
      P (String c r) (escape (code c) ++ R)) ->
  forall s e, Encode s = Ok e -> P s e.
Proof.
  intros Hnil Hkeep Hpair Hone.
  assert (Hstep : forall c r,
             (forall e, Encode r = Ok e -> P r e) ->
             (forall c2 r2, r = String c2 r2 ->
                            forall e, Encode r2 = Ok e -> P r2 e) ->
             forall e, Encode (String c r) = Ok e -> P (String c r) e).
  { intros c r IHr IHr2 e. cbn [Encode].
    destruct (unreserved c) eqn:Hu.
    - destruct (Encode r) as [R | ] eqn:HR; [ | discriminate ].
      intros [= <-]. now apply Hkeep; [ | | apply IHr ].
    - destruct (is_lead_surrogate c) eqn:Hl.
      + destruct r as [ | c2 r2]; [ discriminate | ].
        destruct (is_trail_surrogate c2) eqn:Ht; [ | discriminate ].
        destruct (Encode r2) as [R | ] eqn:HR; [ | discriminate ].
        intros [= <-]. apply Hpair; try assumption.
        now apply (IHr2 c2 r2).
      + destruct (is_trail_surrogate c) eqn:Ht; [ discriminate | ].
        destruct (Encode r) as [R | ] eqn:HR; [ | discriminate ].
        intros [= <-]. now apply Hone; [ | | | | apply IHr ]. }
  assert (Hall : forall s,
             (forall e, Encode s = Ok e -> P s e) /\
             (forall c e, Encode (String c s) = Ok e -> P (String c s) e)).
  { induction s as [ | c s [IH1 IH2]].
    - assert (H0 : forall e, Encode EmptyString = Ok e -> P EmptyString e)
        by (intros e [= <-]; exact Hnil).
      split; [ exact H0 | ].
      intros c. apply Hstep; [ exact H0 | discriminate ].
    - split; [ apply IH2 | ].
      intros c'. apply Hstep; [ apply IH2 | ].
      intros c2 r2 [= -> ->]. exact IH1. }
  intros s. apply Hall.
Qed.

(** [Encode] fails exactly on the strings that are not well-formed, and
    with a URIError. *)
Lemma Encode_isWellFormed : forall s : string,
  match Encode s with
  | Ok _ => isWellFormed s = true
  | Throw e => e = URIError /\ isWellFormed s = false
  end.
Proof.
  assert (Hstep : forall c r,
             match Encode r with
             | Ok _ => isWellFormed r = true
             | Throw e => e = URIError /\ isWellFormed r = false
             end ->
             (forall c2 r2, r = String c2 r2 ->
                match Encode r2 with
                | Ok _ => isWellFormed r2 = true
                | Throw e => e = URIError /\ isWellFormed r2 = false
                end) ->
             match Encode (String c r) with
             | Ok _ => isWellFormed (String c r) = true
             | Throw e => e = URIError /\ isWellFormed (String c r) = false
             end).
  { intros c r IHr IHr2. cbn [Encode isWellFormed].
    destruct (unreserved c) eqn:Hu.
    - destruct (unreserved_ascii c Hu) as [Hlt _].
      assert (Hl : is_lead_surrogate c = false).
      { destruct (is_lead_surrogate c) eqn:Hl; [ | reflexivity ].
        apply surrogate_bounds in Hl. lia. }
      assert (Ht : is_trail_surrogate c = false).
      { destruct (is_trail_surrogate c) eqn:Ht; [ | reflexivity ].
        apply surrogate_bounds in Ht. lia. }
      rewrite Hl, Ht. cbn [negb andb].
      destruct (Encode r); [ exact IHr | exact IHr ].
    - destruct (is_lead_surrogate c) eqn:Hl.
      + destruct r as [ | c2 r2]; [ now split | ].
        specialize (IHr2 c2 r2 eq_refl).
        destruct (is_trail_surrogate c2); [ | now split ].
        cbn [andb]. destruct (Encode r2); exact IHr2.
      + destruct (is_trail_surrogate c); [ now split | ].
        cbn [negb andb]. destruct (Encode r); exact IHr. }
  assert (Hall : forall s,
             match Encode s with
             | Ok _ => isWellFormed s = true
             | Throw e => e = URIError /\ isWellFormed s = false
             end /\
             forall c,
               match Encode (String c s) with
               | Ok _ => isWellFormed (String c s) = true
               | Throw e => e = URIError /\ isWellFormed (String c s) = false
               end).
  { induction s as [ | c s [IH1 IH2]].
    - split; [ reflexivity | ].
      intros c. apply Hstep; [ reflexivity | discriminate ].
    - split; [ apply IH2 | ].
      intros c'. apply Hstep; [ apply IH2 | ].
      intros c2 r2 [= -> ->]. exact IH1. }
  intros s. exact (proj1 (Hall s)).
Qed.

Lemma Encode_encoded (s : string) :
  isWellFormed s = true -> Encode s = Ok (encoded s).
Proof.
  intros Hs. unfold encoded. pose proof (Encode_isWellFormed s) as H.
  destruct (Encode s) as [text | e]; [ reflexivity | ].
  destruct H as [_ H]. congruence.
Qed.

Lemma Encode_ill_formed (s : string) :
  isWellFormed s = false -> Encode s = Throw URIError.
Proof.
  intros Hs. pose proof (Encode_isWellFormed s) as H.
  destruct (Encode s) as [text | e]; [ congruence | ].
  now destruct H as [-> _].
Qed.

Lemma Encode_Ok_encoded (s text : string) :
  Encode s = Ok text -> isWellFormed s = true /\ text = encoded s.
Proof.
  intros H. pose proof (Encode_isWellFormed s) as Hs.
  unfold encoded. rewrite H in *. now split.
Qed.

(** *** What an encoded text is made of *)

Lemma hex_upper_safe (d : N) :
  (d < 16)%N -> all_chars unreserved (hex_upper d) = true.
Proof.
  intros Hd. unfold hex_upper, chr. cbn [all_chars]. rewrite andb_true_r.
  unfold unreserved. rewrite code_unit by (destruct (N.ltb_spec d 10); lia).
  destruct (N.ltb_spec d 10).
  - replace ((48 <=? 48 + d) && (48 + d <=? 57))%N with true
      by (symmetry; apply andb_true_iff; split; apply N.leb_le; lia).
    now rewrite orb_true_r.
  - replace ((65 <=? 55 + d) && (55 + d <=? 90))%N with true
      by (symmetry; apply andb_true_iff; split; apply N.leb_le; lia).
    reflexivity.
Qed.

Lemma percent_shape (octet : N) (rest : string) :
  percent octet ++ rest =
  String "%"%char
    (String (unit (if (octet / 16 <? 10)%N then 48 + octet / 16
                   else 55 + octet / 16)%N)
       (String (unit (if (octet mod 16 <? 10)%N then 48 + octet mod 16
                      else 55 + octet mod 16)%N) rest)).
Proof. reflexivity. Qed.

Lemma percent_url_safe (octet : N) :
  (octet < 256)%N -> all_chars url_safe (percent octet) = true.
Proof.
  intros Ho. unfold percent.
  change ("%" ++ hex_upper (octet / 16) ++ hex_upper (octet mod 16))
    with (String "%"%char (hex_upper (octet / 16) ++ hex_upper (octet mod 16))).
  cbn [all_chars]. change (url_safe "%"%char) with true. cbn [andb].
  rewrite all_chars_app.
  apply andb_true_iff; split;
    (apply (all_chars_weaken unreserved);
     [ intros c Hc; unfold url_safe; now rewrite Hc
     | apply hex_upper_safe; nlia ]).
Qed.

Lemma utf8_octets (cp : N) :
  (cp < 0x110000)%N -> Forall (fun octet => (octet < 256)%N) (utf8 cp).
Proof.
  intros Hcp. unfold utf8.
  destruct (N.ltb_spec cp 0x80); [ repeat constructor; nlia | ].
  destruct (N.ltb_spec cp 0x800); [ repeat constructor; nlia | ].
  destruct (N.ltb_spec cp 0x10000); repeat constructor; nlia.
Qed.

Lemma escape_octets_url_safe (octets : list N) :
  Forall (fun octet => (octet < 256)%N) octets ->
  all_chars url_safe (escape_octets octets) = true.
Proof.
  induction 1 as [ | o os Ho _ IH]; cbn [escape_octets]; [ reflexivity | ].
  now rewrite all_chars_app, percent_url_safe, IH.
Qed.

Lemma pair_code_point_bound (c c2 : unit16) :
  is_lead_surrogate c = true -> is_trail_surrogate c2 = true ->
  (0x10000 <= pair_code_point c c2 < 0x110000)%N.
Proof.
  intros Hl Ht. apply surrogate_bounds in Hl, Ht.
  unfold pair_code_point. lia.
Qed.

Lemma Encode_url_safe (s text : string) :
  Encode s = Ok text -> all_chars url_safe text = true.
Proof.
  revert s text. apply Encode_ind.
  - reflexivity.
  - intros c r R Hu _ IH. cbn [all_chars]. unfold url_safe at 1.
    now rewrite Hu, IH.
  - intros c c2 r2 R _ Hl Ht _ IH. rewrite all_chars_app, IH, andb_true_r.
    apply escape_octets_url_safe, utf8_octets.
    apply (pair_code_point_bound c c2 Hl Ht).
  - intros c r R _ _ _ _ IH. rewrite all_chars_app, IH, andb_true_r.
    apply escape_octets_url_safe, utf8_octets.
    pose proof (code_bound c). lia.
Qed.

Lemma encoded_url_safe (s : string) : all_chars url_safe (encoded s) = true.
Proof.
  unfold encoded. destruct (Encode s) as [text | e] eqn:H; [ | reflexivity ].
  exact (Encode_url_safe s text H).
Qed.

(** An encoded text holds no character that is neither unreserved nor
    the percent sign: no comma, no [&], no [=], no [#]. *)
Lemma encoded_free (c : unit16) (s : string) :
  url_safe c = false -> count_char c (encoded s) = 0.
Proof.
  intros Hc.
  apply (all_chars_count url_safe); [ apply encoded_url_safe | exact Hc ].
Qed.

Lemma encoded_items_free (c : unit16) (items : list string) :
  url_safe c = false ->
  Forall (fun s => count_char c s = 0) (map encoded items).
Proof.
  intros Hc. apply Forall_forall. intros s Hs.
  apply in_map_iff in Hs as [x [<- _]]. now apply encoded_free.
Qed.

(** Only the empty string has an empty encoding. *)
Lemma Encode_empty (s : string) : Encode s = Ok EmptyString -> s = EmptyString.
Proof.
  destruct s as [ | c r]; [ reflexivity | ]. cbn [Encode].
  destruct (unreserved c).
  - destruct (Encode r); discriminate.
  - destruct (is_lead_surrogate c).
    + destruct r as [ | c2 r2]; [ discriminate | ].
      destruct (is_trail_surrogate c2); [ | discriminate ].
      destruct (Encode r2) as [R | ]; [ | discriminate ].
      unfold escape, utf8, pair_code_point.
      destruct (_ <? 0x80)%N; [ discriminate | ].
      destruct (_ <? 0x800)%N; [ discriminate | ].
      destruct (_ <? 0x10000)%N; discriminate.
    + destruct (is_trail_surrogate c); [ discriminate | ].
      destruct (Encode r) as [R | ]; [ | discriminate ].
      unfold escape, utf8.
      destruct (_ <? 0x80)%N; [ discriminate | ].
      destruct (_ <? 0x800)%N; [ discriminate | ].
      destruct (_ <? 0x10000)%N; discriminate.
Qed.

(** *** Reading an encoded text back *)

Lemma hex_value_upper (d : N) :
  (d < 16)%N ->
  hex_value (unit (if (d <? 10)%N then 48 + d else 55 + d)%N) = Some d.
Proof.
  intros Hd. unfold hex_value.
  rewrite code_unit by (destruct (N.ltb_spec d 10); lia).
  destruct (N.ltb_spec d 10).
  - replace ((48 <=? 48 + d) && (48 + d <=? 57))%N with true
      by (symmetry; apply andb_true_iff; split; apply N.leb_le; lia).
    f_equal. lia.
  - replace ((48 <=? 55 + d) && (55 + d <=? 57))%N with false
      by (symmetry; apply andb_false_iff; right; apply N.leb_gt; lia).
    replace ((65 <=? 55 + d) && (55 + d <=? 70))%N with true
      by (symmetry; apply andb_true_iff; split; apply N.leb_le; lia).
    f_equal. lia.
Qed.

Lemma unescape_triple (h l : unit16) (rest : string) :
  unescape (String "%"%char (String h (String l rest))) =
  match hex_value h, hex_value l, unescape rest with
  | Some a, Some b, Some octets => Some ((16 * a + b)%N :: octets)
  | _, _, _ => None
  end.
Proof. reflexivity. Qed.

Lemma unescape_percent (octet : N) (rest : string) :
  (octet < 256)%N ->
  unescape (percent octet ++ rest) = option_map (cons octet) (unescape rest).
Proof.
  intros Ho. rewrite percent_shape, unescape_triple.
  rewrite (hex_value_upper (octet / 16)) by nlia.
  rewrite (hex_value_upper (octet mod 16)) by nlia.
  destruct (unescape rest) as [os | ]; [ | reflexivity ].
  cbn [option_map]. do 2 f_equal. nlia.
Qed.

Lemma unescape_octets (octets : list N) (rest : string) :
  Forall (fun octet => (octet < 256)%N) octets ->
  unescape (escape_octets octets ++ rest) =
  option_map (app octets) (unescape rest).
Proof.
  induction 1 as [ | o os Ho _ IH]; cbn [escape_octets JsString.append].
  - now destruct (unescape rest).
  - rewrite string_app_assoc, unescape_percent, IH by exact Ho.
    now destruct (unescape rest).
Qed.

Lemma unescape_keep (c : unit16) (rest : string) :
  unreserved c = true ->
  unescape (String c rest) = option_map (cons (code c)) (unescape rest).
Proof.
  intros Hu. destruct (unreserved_ascii c Hu) as [Hlt Hne].
  cbn [unescape]. rewrite Hne.
  destruct (N.ltb_spec (code c) 128); [ reflexivity | lia ].
Qed.

Lemma scalar_from_intro (low cp : N) :
  (low <= cp)%N -> scalar_from 0 cp = true -> scalar_from low cp = true.
Proof.
  unfold scalar_from. intros Hlow.
  destruct (N.leb_spec low cp); [ | lia ].
  now destruct (N.leb_spec 0 cp); [ | lia ].
Qed.

Lemma utf8_decode_utf8 (cp : N) (rest : list N) :
  scalar_from 0 cp = true ->
  utf8_decode (utf8 cp ++ rest) = option_map (cons cp) (utf8_decode rest).
Proof.
  intros Hscalar.
  assert (Hcp : (cp < 0x110000)%N).
  { unfold scalar_from in Hscalar.
    destruct (N.ltb_spec cp 0x110000); [ assumption | ].
    now rewrite andb_false_r in Hscalar. }
  unfold utf8.
  destruct (N.ltb_spec cp 0x80) as [H1 | H1].
  { simpl. destruct (N.ltb_spec cp 0x80); [ reflexivity | lia ]. }
  destruct (N.ltb_spec cp 0x800) as [H2 | H2].
  { cbn [app utf8_decode].
    destruct (N.ltb_spec (0xC0 + cp / 64) 0x80); [ nlia | ].
    destruct (N.ltb_spec (0xC0 + cp / 64) 0xC0); [ nlia | ].
    destruct (N.ltb_spec (0xC0 + cp / 64) 0xE0); [ | nlia ].
    replace ((0xC0 + cp / 64 - 0xC0) * 64 + (0x80 + cp mod 64 - 0x80))%N
      with cp by nlia.
    unfold continuation.
    destruct (N.leb_spec 0x80 (0x80 + cp mod 64)); [ | nlia ].
    destruct (N.ltb_spec (0x80 + cp mod 64) 0xC0); [ | nlia ].
    now rewrite (scalar_from_intro 0x80 cp H1 Hscalar). }
  destruct (N.ltb_spec cp 0x10000) as [H3 | H3].
  { cbn [app utf8_decode].
    destruct (N.ltb_spec (0xE0 + cp / 4096) 0x80); [ nlia | ].
    destruct (N.ltb_spec (0xE0 + cp / 4096) 0xC0); [ nlia | ].
    destruct (N.ltb_spec (0xE0 + cp / 4096) 0xE0); [ nlia | ].
    destruct (N.ltb_spec (0xE0 + cp / 4096) 0xF0); [ | nlia ].
    replace ((0xE0 + cp / 4096 - 0xE0) * 4096 +
             (0x80 + (cp / 64) mod 64 - 0x80) * 64 +
             (0x80 + cp mod 64 - 0x80))%N with cp by nlia.
    unfold continuation.
    destruct (N.leb_spec 0x80 (0x80 + (cp / 64) mod 64)); [ | nlia ].
    destruct (N.ltb_spec (0x80 + (cp / 64) mod 64) 0xC0); [ | nlia ].
    destruct (N.leb_spec 0x80 (0x80 + cp mod 64)); [ | nlia ].
    destruct (N.ltb_spec (0x80 + cp mod 64) 0xC0); [ | nlia ].
    now rewrite (scalar_from_intro 0x800 cp H2 Hscalar). }
  cbn [app utf8_decode].
  destruct (N.ltb_spec (0xF0 + cp / 262144) 0x80); [ nlia | ].
  destruct (N.ltb_spec (0xF0 + cp / 262144) 0xC0); [ nlia | ].
  destruct (N.ltb_spec (0xF0 + cp / 262144) 0xE0); [ nlia | ].
  destruct (N.ltb_spec (0xF0 + cp / 262144) 0xF0); [ nlia | ].
  replace ((0xF0 + cp / 262144 - 0xF0) * 262144 +
           (0x80 + (cp / 4096) mod 64 - 0x80) * 4096 +
           (0x80 + (cp / 64) mod 64 - 0x80) * 64 +
           (0x80 + cp mod 64 - 0x80))%N with cp by nlia.
  unfold continuation.
  destruct (N.leb_spec 0x80 (0x80 + (cp / 4096) mod 64)); [ | nlia ].
  destruct (N.ltb_spec (0x80 + (cp / 4096) mod 64) 0xC0); [ | nlia ].
  destruct (N.leb_spec 0x80 (0x80 + (cp / 64) mod 64)); [ | nlia ].
  destruct (N.ltb_spec (0x80 + (cp / 64) mod 64) 0xC0); [ | nlia ].
  destruct (N.leb_spec 0x80 (0x80 + cp mod 64)); [ | nlia ].
  destruct (N.ltb_spec (0x80 + cp mod 64) 0xC0); [ | nlia ].
  now rewrite (scalar_from_intro 0x10000 cp H3 Hscalar).
Qed.

Lemma utf8_decode_flat_map (cps : list N) :
  Forall (fun cp => scalar_from 0 cp = true) cps ->
  utf8_decode (flat_map utf8 cps) = Some cps.
Proof.
  induction 1 as [ | cp cps Hcp _ IH]; [ reflexivity | ].
  cbn [flat_map]. now rewrite utf8_decode_utf8, IH.
Qed.

Lemma scalar_from_pair (c c2 : unit16) :
  is_lead_surrogate c = true -> is_trail_surrogate c2 = true ->
  scalar_from 0 (pair_code_point c c2) = true.
Proof.
  intros Hl Ht. pose proof (pair_code_point_bound c c2 Hl Ht) as Hb.
  unfold scalar_from.
  destruct (N.leb_spec 0 (pair_code_point c c2)); [ | lia ].
  destruct (N.ltb_spec (pair_code_point c c2) 0x110000); [ | lia ].
  destruct (N.leb_spec (pair_code_point c c2) 0xDFFF); [ lia | ].
  now rewrite andb_false_r.
Qed.

Lemma scalar_from_unit (c : unit16) :
  is_lead_surrogate c = false -> is_trail_surrogate c = false ->
  scalar_from 0 (code c) = true.
Proof.
  unfold is_lead_surrogate, is_trail_surrogate, scalar_from.
  pose proof (code_bound c) as Hb. intros Hl Ht.
  destruct (N.leb_spec 0 (code c)); [ | lia ].
  destruct (N.ltb_spec (code c) 0x110000); [ | lia ].
  destruct (N.leb_spec 0xD800 (code c)); [ | reflexivity ].
  destruct (N.leb_spec (code c) 0xDFFF); [ | reflexivity ].
  destruct (N.leb_spec (code c) 0xDBFF); [ discriminate Hl | ].
  destruct (N.leb_spec 0xDC00 (code c)); [ discriminate Ht | lia ].
Qed.

Lemma utf16_pair (c c2 : unit16) (cps : list N) :
  is_lead_surrogate c = true -> is_trail_surrogate c2 = true ->
  utf16 (pair_code_point c c2 :: cps) = String c (String c2 (utf16 cps)).
Proof.
  intros Hl Ht. pose proof (pair_code_point_bound c c2 Hl Ht) as Hb.
  apply surrogate_bounds in Hl, Ht. cbn [utf16].
  destruct (N.ltb_spec (pair_code_point c c2) 0x10000); [ lia | ].
  unfold pair_code_point in *.
  replace (0xD800 + (0x10000 + (code c - 0xD800) * 0x400 +
                     (code c2 - 0xDC00) - 0x10000) / 0x400)%N
    with (code c) by nlia.
  replace (0xDC00 + (0x10000 + (code c - 0xD800) * 0x400 +
                     (code c2 - 0xDC00) - 0x10000) mod 0x400)%N
    with (code c2) by nlia.
  now rewrite !unit_code.
Qed.

Lemma utf16_one (c : unit16) (cps : list N) :
  utf16 (code c :: cps) = String c (utf16 cps).
Proof.
  cbn [utf16]. pose proof (code_bound c).
  destruct (N.ltb_spec (code c) 0x10000); [ | lia ].
  now rewrite unit_code.
Qed.

(** The octets of an encoded text are the UTF-8 forms of the code
    points of the string. *)
Lemma Encode_octets (s text : string) :
  Encode s = Ok text ->
  exists cps,
    unescape text = Some (flat_map utf8 cps) /\
    Forall (fun cp => scalar_from 0 cp = true) cps /\
    utf16 cps = s.
Proof.
  revert s text. apply Encode_ind.
  - exists []. repeat split. constructor.
  - intros c r R Hu _ [cps [Hos [Hcps Hs]]].
    exists (code c :: cps). rewrite (unescape_keep c R Hu), Hos.
    destruct (unreserved_ascii c Hu) as [Hlt _].
    split; [ | split ].
    + cbn [flat_map option_map]. unfold utf8.
      destruct (N.ltb_spec (code c) 0x80); [ reflexivity | lia ].
    + constructor; [ | exact Hcps ].
      unfold scalar_from.
      destruct (N.leb_spec 0 (code c)); [ | lia ].
      destruct (N.ltb_spec (code c) 0x110000); [ | lia ].
      destruct (N.leb_spec 0xD800 (code c)); [ lia | reflexivity ].
    + now rewrite utf16_one, Hs.
  - intros c c2 r2 R _ Hl Ht _ [cps [Hos [Hcps Hs]]].
    pose proof (pair_code_point_bound c c2 Hl Ht) as Hb.
    exists (pair_code_point c c2 :: cps). split; [ | split ].
    + unfold escape. rewrite unescape_octets, Hos
        by (apply utf8_octets; lia).
      reflexivity.
    + constructor; [ now apply scalar_from_pair | exact Hcps ].
    + now rewrite utf16_pair, Hs.
  - intros c r R _ Hl Ht _ [cps [Hos [Hcps Hs]]].
    pose proof (code_bound c) as Hb.
    exists (code c :: cps). split; [ | split ].
    + unfold escape. rewrite unescape_octets, Hos
        by (apply utf8_octets; lia).
      reflexivity.
    + constructor; [ now apply scalar_from_unit | exact Hcps ].
    + now rewrite utf16_one, Hs.
Qed.

Lemma percent_decode_Encode (s text : string) :
  Encode s = Ok text -> percent_decode text = Some s.
Proof.
  intros He. destruct (Encode_octets s text He) as [cps [Hos [Hcps Hs]]].
  unfold percent_decode. now rewrite Hos, utf8_decode_flat_map, Hs.
Qed.

Lemma Encode_inj (a b text : string) :
  Encode a = Ok text -> Encode b = Ok text -> a = b.
Proof.
  intros Ha Hb. apply percent_decode_Encode in Ha, Hb. congruence.
Qed.

Lemma encoded_percent_encoded (s : string) :
  isWellFormed s = true -> percent_encoded s (encoded s).
Proof.
  intros Hs. split; [ apply encoded_url_safe | ].
  now apply percent_decode_Encode, Encode_encoded.
Qed.

Lemma encoded_inj (a b : string) :
  isWellFormed a = true -> isWellFormed b = true ->
  encoded a = encoded b -> a = b.
Proof.
  intros Ha Hb Heq. apply (Encode_inj a b (encoded a)).
  - now apply Encode_encoded.
  - rewrite Heq. now apply Encode_encoded.
Qed.

Lemma map_encoded_inj (a b : list string) :
  forallb isWellFormed a = true -> forallb isWellFormed b = true ->
  map encoded a = map encoded b -> a = b.
Proof.
  revert b. induction a as [ | x a IH]; intros [ | y b]; simpl;
    try discriminate; [ reflexivity | ].
  rewrite !andb_true_iff. intros [Hx Ha] [Hy Hb] [= Hxy Hrest].
  f_equal; [ now apply encoded_inj | now apply IH ].
Qed.

(** *** Lists of strings *)

Lemma mapR_encode_strings (NumberToString : number -> string)
  (items : list string) :
  forallb isWellFormed items = true ->
  mapR (encodeURIComponent NumberToString) (map JStr items) =
  Ok (map encoded items).
Proof.
  induction items as [ | s items IH]; [ reflexivity | ].
  cbn [forallb map mapR]. rewrite andb_true_iff. intros [Hs Hitems].
  unfold encodeURIComponent at 1. cbn [ToString rbind].
  now rewrite (Encode_encoded s Hs), (IH Hitems).
Qed.

Lemma mapR_encode_ill_formed (NumberToString : number -> string)
  (items : list string) :
  forallb isWellFormed items = false ->
  mapR (encodeURIComponent NumberToString) (map JStr items) = Throw URIError.
Proof.
  induction items as [ | s items IH]; [ discriminate | ].
  cbn [forallb map mapR]. unfold encodeURIComponent at 1.
  cbn [ToString rbind].
  destruct (isWellFormed s) eqn:Hs; cbn [andb].
  - intros Hitems. now rewrite (Encode_encoded s Hs), (IH Hitems).
  - intros _. now rewrite (Encode_ill_formed s Hs).
Qed.

Lemma Encode_percent_encoded (s text : string) :
  Encode s = Ok text -> percent_encoded s text.
Proof.
  intros Henc. split.
  - exact (Encode_url_safe s text Henc).
  - exact (percent_decode_Encode s text Henc).
Qed.

(** What [items.map(encodeURIComponent)] returns: percent-encodings of
    the items as they print. *)
Lemma mapR_encode_values (NumberToString : number -> string)
  (items : list JsVal) :
  forall pieces,
  mapR (encodeURIComponent NumberToString) items = Ok pieces ->
  exists printed,
    mapR (ToString NumberToString) items = Ok printed /\
    Forall2 percent_encoded printed pieces.
Proof.
  induction items as [ | v items IH]; intros pieces; cbn [mapR].
  - intros [= <-]. exists []. split; [ reflexivity | constructor ].
  - unfold encodeURIComponent at 1.
    destruct (ToString NumberToString v) as [s | ] eqn:Hs; cbn [rbind];
      [ | discriminate ].
    destruct (Encode s) as [e | ] eqn:He; cbn [rbind]; [ | discriminate ].
    destruct (mapR (encodeURIComponent NumberToString) items) as [es | ];
      cbn [rbind]; [ | discriminate ].
    intros [= <-]. destruct (IH es eq_refl) as [printed [Hp Hall]].
    exists (s :: printed). rewrite Hp. cbn [rbind].
    split; [ reflexivity | ].
    constructor; [ now apply Encode_percent_encoded | exact Hall ].
Qed.


(** ** The parameters of a URL *)

Lemma before_free (c : unit16) (s : string) :
  count_char c s = 0 -> before c s = s.
Proof.
  induction s as [ | x s IH]; simpl; [ reflexivity | ].
  rewrite (unit_eqb_sym x c).
  destruct (unit_eqb c x); [ discriminate | ].
  intros H. now rewrite IH.
Qed.

Lemma after_app (c : unit16) (s rest : string) :
  count_char c s = 0 -> after c (s ++ String c rest) = rest.
Proof.
  induction s as [ | x s IH]; simpl.
  - now rewrite unit_eqb_refl.
  - rewrite (unit_eqb_sym x c).
    destruct (unit_eqb c x); [ discriminate | ].
    intros H. now rewrite IH.
Qed.

Lemma plain_counts (s : string) :
  plain s = true <->
  count_char "&"%char s = 0 /\ count_char "#"%char s = 0.
Proof.
  unfold plain. now rewrite andb_true_iff, !Nat.eqb_eq.
Qed.

Lemma plain_app (a b : string) :
  plain (a ++ b) = plain a && plain b.
Proof.
  unfold plain. rewrite !count_char_app.
  destruct (count_char "&"%char a), (count_char "#"%char a),
    (count_char "&"%char b), (count_char "#"%char b); reflexivity.
Qed.

Lemma plain_encoded (s : string) : plain (encoded s) = true.
Proof. apply plain_counts. split; now apply encoded_free. Qed.

(** The query of the URL of a request to [endpoint?query]. *)
Lemma url_query_sent (endpoint query : string) (options : Options) :
  count_char "?"%char endpoint = 0 ->
  count_char "#"%char endpoint = 0 ->
  count_char "#"%char query = 0 ->
  url_query (url (sent (endpoint ++ "?" ++ query) options)) = query.
Proof.
  intros Hq Hh Hhq. unfold url_query, sent. cbn [url].
  rewrite before_free.
  - rewrite <- (string_app_assoc "/"), <- string_app_assoc.
    change ("?" ++ query) with (String "?"%char query).
    apply after_app. rewrite !count_char_app, Hq. reflexivity.
  - rewrite !count_char_app, Hh, Hhq. reflexivity.
Qed.

(** Parameters that hold no [&] and no [#] are the parameters of the
    URL they are joined into, but for the empty ones. *)
Lemma url_parameters_sent (endpoint : string) (ps : list string)
  (options : Options) :
  count_char "?"%char endpoint = 0 ->
  count_char "#"%char endpoint = 0 ->
  ps <> [] ->
  forallb plain ps = true ->
  url_parameters (url (sent (endpoint ++ "?" ++ join "&" ps) options)) =
  filter not_empty ps.
Proof.
  intros Hq Hh Hne Hplain. unfold url_parameters.
  assert (Hamp : Forall (fun s => count_char "&"%char s = 0) ps).
  { apply Forall_forall. intros p Hp.
    rewrite forallb_forall in Hplain. now apply plain_counts, Hplain. }
  assert (Hhash : Forall (fun s => count_char "#"%char s = 0) ps).
  { apply Forall_forall. intros p Hp.
    rewrite forallb_forall in Hplain. now apply plain_counts, Hplain. }
  rewrite url_query_sent; try assumption.
  - change (join "&" ps) with (join (String "&"%char EmptyString) ps).
    now rewrite (split_on_join "&"%char ps Hne Hamp).
  - now rewrite (count_char_join "#"%char "&" ps Hhash), Nat.mul_0_r.
Qed.

Lemma filter_not_empty (ps : list string) :
  forallb not_empty ps = true -> filter not_empty ps = ps.
Proof.
  induction ps as [ | p ps IH]; [ reflexivity | ].
  simpl. rewrite andb_true_iff. intros [Hp Hps]. now rewrite Hp, IH.
Qed.

(** ** Promises: basic facts *)

Lemma later_0 {A} (p : Promise A) : later 0 p = p.
Proof. destruct p; reflexivity. Qed.

Lemma later_later {A} (s t : nat) (p : Promise A) :
  later s (later t p) = later (s + t) p.
Proof. destruct p; simpl; f_equal; lia. Qed.

Lemma later_settle {A} (s t : nat) (r : Result A) :
  later s (settle t r) = settle (s + t) r.
Proof. destruct r; reflexivity. Qed.

Lemma lift_run {A} (r : Result A) (log : list Request) :
  lift r log = (log, settle 0 r).
Proof. destruct r; reflexivity. Qed.

Lemma bind_lift {A B} (r : Result A) (k : A -> Async B) (log : list Request) :
  bind (lift r) k log =
  match r with
  | Ok a => k a log
  | Throw e => (log, Rejected 0 e)
  end.
Proof.
  destruct r as [a | e]; unfold bind; simpl; [ | reflexivity ].
  destruct (k a log) as [log' p]. now rewrite later_0.
Qed.

(** A chain of synchronous steps is one synchronous step. *)
Lemma bind_lift_lift {A B} (r : Result A) (f : A -> Result B)
  (log : list Request) :
  bind (lift r) (fun a => lift (f a)) log = lift (rbind r f) log.
Proof. rewrite bind_lift. destruct r; reflexivity. Qed.

Lemma bind_ret {A B} (a : A) (k : A -> Async B) (log : list Request) :
  bind (ret a) k log = k a log.
Proof. exact (bind_lift (Ok a) k log). Qed.

Lemma bind_run {A B} (m : Async A) (k : A -> Async B)
  (log log1 : list Request) (t : nat) (a : A) :
  m log = (log1, Fulfilled t a) ->
  bind m k log = (fst (k a log1), later t (snd (k a log1))).
Proof. intros H. unfold bind. rewrite H. now destruct (k a log1). Qed.

Lemma bind_rejected {A B} (m : Async A) (k : A -> Async B)
  (log log1 : list Request) (t : nat) (e : Exn) :
  m log = (log1, Rejected t e) ->
  bind m k log = (log1, Rejected t e).
Proof. intros H. unfold bind. now rewrite H. Qed.

Lemma bind_pending {A B} (m : Async A) (k : A -> Async B)
  (log log1 : list Request) :
  m log = (log1, Pending) ->
  bind m k log = (log1, Pending).
Proof. intros H. unfold bind. now rewrite H. Qed.

(** ** Chunks *)

Section Chunks.

Context {A : Type}.
Variable size : nat.
Hypothesis size_positive : 1 <= size.

Lemma chunk_loop_nil (fuel : nat) : chunk_loop fuel size (@nil A) = [].
Proof. destruct fuel; reflexivity. Qed.

Lemma chunk_loop_cons (fuel : nat) (a : A) (l : list A) :
  chunk_loop (S fuel) size (a :: l) =
  firstn size (a :: l) :: chunk_loop fuel size (skipn size (a :: l)).
Proof. reflexivity. Qed.

Lemma skipn_shorter (a : A) (l : list A) :
  List.length (skipn size (a :: l)) <= List.length l.
Proof.
  rewrite length_skipn.
  change (List.length (a :: l)) with (S (List.length l)). lia.
Qed.

(** The chunks, one after the other, are the array. *)
Lemma chunk_loop_concat (fuel : nat) : forall l : list A,
  List.length l <= fuel -> List.concat (chunk_loop fuel size l) = l.
Proof.
  induction fuel as [ | fuel IH]; intros [ | a l] Hlen; try reflexivity.
  - simpl in Hlen. lia.
  - rewrite chunk_loop_cons. simpl List.concat. rewrite IH.
    + apply firstn_skipn.
    + pose proof (skipn_shorter a l). simpl in Hlen. lia.
Qed.

(** No chunk is empty and none is longer than [size]. *)
Lemma chunk_loop_sizes (fuel : nat) : forall l : list A,
  Forall (fun c => 1 <= List.length c <= size) (chunk_loop fuel size l).
Proof.
  induction fuel as [ | fuel IH]; intros [ | a l]; try constructor.
  - rewrite length_firstn.
    change (List.length (a :: l)) with (S (List.length l)). lia.
  - apply IH.
Qed.

(** There are [ceil (length l / size)] chunks. *)
Lemma chunk_loop_count (fuel : nat) : forall l : list A,
  List.length l <= fuel ->
  List.length (chunk_loop fuel size l) = (List.length l + size - 1) / size.
Proof.
  induction fuel as [ | fuel IH]; intros [ | a l] Hlen.
  - simpl. symmetry. apply Nat.div_small. lia.
  - simpl in Hlen. lia.
  - simpl. symmetry. apply Nat.div_small. lia.
  - rewrite chunk_loop_cons. simpl List.length at 1.
    rewrite IH by (pose proof (skipn_shorter a l); simpl in Hlen; lia).
    rewrite length_skipn. set (n := List.length (a :: l)).
    assert (Hn : 1 <= n) by (unfold n; simpl; lia).
    replace (n + size - 1) with (1 * size + (n - 1)) by lia.
    rewrite Nat.div_add_l by lia.
    destruct (Nat.le_gt_cases size n) as [Hbig | Hsmall].
    + replace (n - size + size - 1) with (n - 1) by lia. lia.
    + replace (n - size + size - 1) with (size - 1) by lia.
      rewrite (Nat.div_small (size - 1)), (Nat.div_small (n - 1)) by lia.
      reflexivity.
Qed.

End Chunks.

Lemma chunk_concat {A} (l : list A) (size : nat) :
  1 <= size -> List.concat (chunk l size) = l.
Proof.
  intros Hs. unfold chunk.
  destruct (Nat.ltb_spec size 1); [ lia | ].
  now apply chunk_loop_concat.
Qed.

Lemma chunk_sizes {A} (l : list A) (size : nat) :
  1 <= size -> Forall (fun c => 1 <= List.length c <= size) (chunk l size).
Proof.
  intros Hs. unfold chunk.
  destruct (Nat.ltb_spec size 1); [ lia | ].
  now apply chunk_loop_sizes.
Qed.

Lemma chunk_count {A} (l : list A) (size : nat) :
  1 <= size ->
  List.length (chunk l size) = (List.length l + size - 1) / size.
Proof.
  intros Hs. unfold chunk.
  destruct (Nat.ltb_spec size 1); [ lia | ].
  now apply chunk_loop_count.
Qed.

Lemma chunk_loop_map {A B} (f : A -> B) (fuel size : nat) : forall l : list A,
  chunk_loop fuel size (map f l) = map (map f) (chunk_loop fuel size l).
Proof.
  induction fuel as [ | fuel IH]; intros [ | a l]; try reflexivity.
  change (map f (a :: l)) with (f a :: map f l) at 1.
  rewrite !chunk_loop_cons. simpl map at 3.
  change (f a :: map f l) with (map f (a :: l)).
  now rewrite firstn_map, skipn_map, IH.
Qed.

Lemma chunk_map {A B} (f : A -> B) (l : list A) (size : nat) :
  chunk (map f l) size = map (map f) (chunk l size).
Proof.
  unfold chunk. destruct (size <? 1)%nat; [ reflexivity | ].
  rewrite length_map. apply chunk_loop_map.
Qed.

Lemma ceil_div_spec (n d : nat) :
  1 <= d -> 1 <= n -> d * (ceil_div n d - 1) < n <= d * ceil_div n d.
Proof.
  intros Hd Hn. unfold ceil_div.
  pose proof (Nat.div_mod_eq (n + d - 1) d) as Heq.
  pose proof (Nat.mod_upper_bound (n + d - 1) d ltac:(lia)) as Hlt.
  assert (1 <= (n + d - 1) / d).
  { apply Nat.div_le_lower_bound; lia. }
  nia.
Qed.

(** ** Promise.all *)

Section PromiseAll.

Context {A : Type}.


Lemma first_rejection_none_in (ps : list (Promise A)) (t : nat) (e : Exn) :
  first_rejection ps = None -> ~ In (Rejected t e) ps.
Proof.
  induction ps as [ | p ps IH]; simpl; [ tauto | ].
  destruct p as [t1 a | t1 e1 | ].
  - intros H [Hin | Hin]; [ discriminate | tauto ].
  - destruct (first_rejection ps) as [[t2 e2] | ]; [ | discriminate ].
    destruct (t1 <=? t2)%nat; discriminate.
  - intros H [Hin | Hin]; [ discriminate | tauto ].
Qed.

(** [Promise.all] rejects with the earliest rejection. *)
Lemma first_rejection_earliest (ps : list (Promise A)) (t : nat) (e : Exn) :
  first_rejection ps = Some (t, e) ->
  forall t' e', In (Rejected t' e') ps -> t <= t'.
Proof.
  revert t e. induction ps as [ | p ps IH]; intros t e; simpl; [ discriminate | ].
  destruct p as [t1 a | t1 e1 | ].
  - intros H t' e' [Hin | Hin]; [ discriminate | ]. eapply IH; eauto.
  - destruct (first_rejection ps) as [[t2 e2] | ] eqn:Hrest.
    + destruct (Nat.leb_spec t1 t2); intros [= <- <-] t' e' [Hin | Hin].
      * injection Hin as <- <-. lia.
      * specialize (IH _ _ eq_refl _ _ Hin). lia.
      * injection Hin as <- <-. lia.
      * eapply IH; eauto.
    + intros [= <- <-] t' e' [Hin | Hin].
      * injection Hin as <- <-. lia.
      * apply first_rejection_none_in in Hin; [ contradiction | exact Hrest ].
  - intros H t' e' [Hin | Hin]; [ discriminate | ]. eapply IH; eauto.
Qed.



Lemma all_values_inv (ps : list (Promise A)) : forall (t : nat) (rs : list A),
  all_values ps = Some (t, rs) -> Forall2 fulfilled_with ps rs.
Proof.
  induction ps as [ | p ps IH]; simpl; intros t rs.
  - intros [= <- <-]. constructor.
  - destruct p as [t1 a | | ]; try discriminate.
    destruct (all_values ps) as [[t2 vs] | ]; [ | discriminate ].
    intros [= <- <-]. constructor; [ now exists t1 | eapply IH; eauto ].
Qed.



Lemma settle_all_inv (ps : list (Promise A)) (t : nat) (rs : list A) :
  settle_all ps = Fulfilled t rs -> Forall2 fulfilled_with ps rs.
Proof.
  unfold settle_all.
  destruct (first_rejection ps) as [[t1 e1] | ]; [ discriminate | ].
  destruct (all_values ps) as [[t2 vs] | ] eqn:Hv; [ | discriminate ].
  intros [= <- <-]. eapply all_values_inv; eauto.
Qed.

Lemma Promise_all_run (calls : list (Async A)) (log : list Request) :
  Promise_all calls log =
  (fst (spawn calls log), settle_all (snd (spawn calls log))).
Proof. unfold Promise_all. now destruct (spawn calls log). Qed.

End PromiseAll.

Lemma spawn_forall {A} (P : Promise A -> Prop) (calls : list (Async A)) :
  (forall call log, In call calls -> P (snd (call log))) ->
  forall log, Forall P (snd (spawn calls log)).
Proof.
  induction calls as [ | call calls IH]; intros Hcalls log; simpl.
  - constructor.
  - pose proof (Hcalls call log (or_introl eq_refl)) as Hp.
    destruct (call log) as [log1 p].
    assert (Hrest : Forall P (snd (spawn calls log1)))
      by (apply IH; intros; apply Hcalls; now right).
    destruct (spawn calls log1) as [log2 ps]. now constructor.
Qed.

(** The promise of a reply, when more synchronous code follows. *)
Lemma answered_then {A B} (reply : Reply) (f : JsVal -> Result A)
  (g : A -> Result B) (t : nat) (a : A) :
  answered reply f = Fulfilled t a ->
  answered reply (fun response => rbind (f response) g) = settle t (g a).
Proof.
  destruct reply as [ | t' | t' [response | ]]; simpl; try discriminate.
  destruct (f response); simpl; [ | discriminate ].
  now intros [= -> ->].
Qed.

Lemma falsy_isEmpty (v : JsVal) : truthy v = false -> isEmpty v = true.
Proof.
  destruct v as [ | | b | x | s | items | fields]; simpl; try reflexivity;
    try discriminate.
  destruct s; [ reflexivity | discriminate ].
Qed.
(** ** Objects *)

Lemma has_key_set_prop (k k' : string) (v : JsVal)
  (fields : list (string * JsVal)) :
  has_key k (set_prop k' v fields) = JsString.eqb k k' || has_key k fields.
Proof.
  unfold has_key.
  induction fields as [ | [k0 v0] fields IH]; simpl.
  - now destruct (JsString.eqb k k').
  - destruct (string_eqb_spec k' k0) as [-> | Hne]; simpl.
    + destruct (JsString.eqb k k0); reflexivity.
    + destruct (string_eqb_spec k k0) as [-> | Hne'].
      * now rewrite orb_true_r.
      * exact IH.
Qed.

Lemma lookup_set_prop (k k' : string) (v : JsVal)
  (fields : list (string * JsVal)) :
  lookup k (set_prop k' v fields) =
  if JsString.eqb k k' then Some v else lookup k fields.
Proof.
  induction fields as [ | [k0 v0] fields IH]; simpl.
  - now destruct (JsString.eqb k k').
  - destruct (string_eqb_spec k' k0) as [-> | Hne]; simpl.
    + destruct (JsString.eqb k k0); reflexivity.
    + destruct (string_eqb_spec k k0) as [-> | Hne'].
      * destruct (string_eqb_spec k0 k'); congruence.
      * exact IH.
Qed.

Lemma has_key_lookup (k : string) (fields : list (string * JsVal)) :
  has_key k fields = true <-> exists v, lookup k fields = Some v.
Proof.
  unfold has_key. destruct (lookup k fields) as [v | ].
  - split; eauto.
  - split; [ discriminate | intros [v Hv]; discriminate ].
Qed.

Lemma strict_eq_str_true (v : JsVal) (s : string) :
  strict_eq_str v s = true -> v = JStr s.
Proof.
  destruct v; simpl; try discriminate.
  intros H. apply string_eqb_eq in H. now subst.
Qed.

Lemma param_name_supplied (k text : string) :
  In k supplied -> param_name (k ++ "=" ++ text) = k.
Proof.
  unfold supplied. simpl.
  intros [<- | [<- | [<- | [<- | []]]]]; reflexivity.
Qed.

(** ** What a computation sends *)

Section Issues.

Context {A B : Type}.
Variable P : Request -> Prop.

Lemma issues_lift (r : Result A) : issues P (lift r).
Proof.
  intros log. exists []. rewrite lift_run, app_nil_r. now split.
Qed.

Lemma issues_throw (e : Exn) : issues P (@throw A e).
Proof. intros log. exists []. simpl. rewrite app_nil_r. now split. Qed.

Lemma issues_ret (a : A) : issues P (ret a).
Proof. intros log. exists []. simpl. rewrite app_nil_r. now split. Qed.

Lemma issues_never : issues P (@never A).
Proof. intros log. exists []. simpl. rewrite app_nil_r. now split. Qed.

Lemma issues_bind (m : Async A) (k : A -> Async B) :
  issues P m -> (forall a, issues P (k a)) -> issues P (bind m k).
Proof.
  intros Hm Hk log. destruct (Hm log) as [new1 [Hlog1 Hnew1]].
  unfold bind. destruct (m log) as [log1 [t a | t e | ]]; simpl in *;
    try (exists new1; now split).
  destruct (Hk a log1) as [new2 [Hlog2 Hnew2]].
  destruct (k a log1) as [log2 p]. simpl in *.
  exists (new1 ++ new2)%list. split.
  - now rewrite Hlog2, Hlog1, app_assoc.
  - apply Forall_app. now split.
Qed.

(** After synchronous code, with what it returned. *)
Lemma issues_bind_lift (r : Result A) (k : A -> Async B) :
  (forall a, r = Ok a -> issues P (k a)) -> issues P (bind (lift r) k).
Proof.
  intros Hk log. rewrite bind_lift. destruct r as [a | e].
  - now apply Hk.
  - exists []. simpl. rewrite app_nil_r. now split.
Qed.

Lemma issues_Promise_all (calls : list (Async A)) :
  Forall (issues P) calls -> issues P (Promise_all calls).
Proof.
  intros Hcalls log. rewrite Promise_all_run. simpl fst.
  revert log. induction Hcalls as [ | call calls Hcall _ IH]; intros log.
  - exists []. simpl. rewrite app_nil_r. now split.
  - simpl. destruct (Hcall log) as [new1 [Hlog1 Hnew1]].
    destruct (call log) as [log1 p]. simpl in *.
    destruct (IH log1) as [new2 [Hlog2 Hnew2]].
    destruct (spawn calls log1) as [log2 ps]. simpl in *.
    exists (new1 ++ new2)%list. split.
    + now rewrite Hlog2, Hlog1, app_assoc.
    + apply Forall_app. now split.
Qed.

End Issues.

(** Closes a goal that two settled promises agree, up to [t + 0]. *)
Ltac settled := simpl; rewrite ?Nat.add_0_r; reflexivity.

(** ** The client: properties *)

Section Properties.

Variable NumberToString : number -> string.
Variable StringToNumber : string -> number.
Variable getToken : string -> string.
Variable upstream : list Request -> Request -> Reply.

#[local] Abbreviation request := (OpenPlatform.request NumberToString upstream).
#[local] Abbreviation formatUrlArray := (OpenPlatform.formatUrlArray NumberToString).
#[local] Abbreviation librariesParameters :=
  (OpenPlatform.librariesParameters NumberToString getToken).
#[local] Abbreviation getLibraries :=
  (OpenPlatform.getLibraries NumberToString getToken upstream).
#[local] Abbreviation getWork :=
  (OpenPlatform.getWork NumberToString getToken upstream).
#[local] Abbreviation getWork_fuel :=
  (OpenPlatform.getWork_fuel NumberToString getToken upstream).
#[local] Abbreviation getWork_request :=
  (OpenPlatform.getWork_request NumberToString getToken upstream).
#[local] Abbreviation getAvailability :=
  (OpenPlatform.getAvailability NumberToString getToken upstream).
#[local] Abbreviation canBeOrdered :=
  (OpenPlatform.canBeOrdered NumberToString getToken upstream).
#[local] Abbreviation constructOrderParameter :=
  (OpenPlatform.constructOrderParameter NumberToString).
#[local] Abbreviation addBranchParameters :=
  (OpenPlatform.addBranchParameters NumberToString).
#[local] Abbreviation orderData :=
  (OpenPlatform.orderData NumberToString getToken).
#[local] Abbreviation orderOptions :=
  (OpenPlatform.orderOptions NumberToString).
#[local] Abbreviation orderMaterial :=
  (OpenPlatform.orderMaterial NumberToString StringToNumber getToken upstream).
#[local] Abbreviation getUser :=
  (OpenPlatform.getUser NumberToString getToken upstream).
#[local] Abbreviation getBranch :=
  (OpenPlatform.getBranch NumberToString StringToNumber getToken upstream).
#[local] Abbreviation formatFields :=
  (OpenPlatform.formatFields NumberToString).

(** [request] sends one request and settles with the reply. *)
Lemma request_run (path : string) (options : Options) (log : list Request) :
  request path options log =
  (push log (sent path options),
   answered (upstream log (sent path options)) (unwrap NumberToString)).
Proof.
  unfold OpenPlatform.request, sent, answered.
  unfold bind at 1. unfold OpenPlatform.fetch at 1.
  set (req := mkRequest _ _).
  destruct (upstream log req) as [ | t | t [response | ]]; try reflexivity.
  - simpl OpenPlatform.json. rewrite bind_ret, bind_lift. unfold unwrap.
    destruct (get_prop response "statusCode") as [statusCode | e];
      simpl rbind; [ | settled ].
    destruct (negb (strict_eq_num statusCode (num 200))).
    + rewrite bind_lift.
      destruct (get_prop response "error") as [err | e];
        simpl rbind; [ | settled ].
      destruct (js_Error NumberToString err) as [e | e]; settled.
    + rewrite bind_lift.
      destruct (get_prop response "data") as [data | e];
        simpl rbind; [ | settled ].
      destruct (negb (truthy data)); settled.
  - settled.
Qed.

(** [request] followed by synchronous code. *)
Lemma bind_request_lift {A} (path : string) (options : Options)
  (f : JsVal -> Result A) (log : list Request) :
  bind (request path options) (fun data => lift (f data)) log =
  (push log (sent path options),
   answered (upstream log (sent path options))
            (fun response => rbind (unwrap NumberToString response) f)).
Proof.
  unfold bind. rewrite request_run. unfold answered.
  destruct (upstream log (sent path options)) as [ | t | t [response | ]];
    try reflexivity.
  destruct (unwrap NumberToString response) as [data | e];
    [ | reflexivity ].
  simpl settle. cbv iota beta.
  rewrite lift_run, later_settle. now rewrite Nat.add_0_r.
Qed.

(** *** The response envelope *)

Lemma request_object (path : string) (options : Options)
  (log : list Request) (t : nat) (fields : list (string * JsVal)) :
  upstream log (sent path options) = Answer t (Some (JObj fields)) ->
  snd (request path options log) =
  settle (S t)
    (if negb (strict_eq_num (field "statusCode" fields) (num 200)) then
       rbind (js_Error NumberToString (field "error" fields)) Throw
     else if negb (truthy (field "data" fields)) then
       Throw (JsError "data not found")
     else Ok (field "data" fields)).
Proof.
  intros Hreply. rewrite request_run, Hreply. reflexivity.
Qed.

(** C1 (amended): for a response envelope, [request] fails with an
    error carrying the upstream [error] message whenever
    [statusCode !== 200]; fails with "data not found" whenever
    [statusCode === 200] and [data] is absent or falsy; and returns
    [data] unchanged, with no other validation, whenever
    [statusCode === 200] and [data] is truthy. *)
Theorem request_envelope (path : string) (options : Options)
  (log : list Request) (t : nat) (fields : list (string * JsVal)) :
  upstream log (sent path options) = Answer t (Some (JObj fields)) ->
  let statusCode := field "statusCode" fields in
  let error := field "error" fields in
  let data := field "data" fields in
  let outcome := snd (request path options log) in
  (strict_eq_num statusCode (num 200) = false ->
   is_rejected outcome = true /\
   (forall message, error = JStr message ->
                    outcome = Rejected (S t) (JsError message))) /\
  (strict_eq_num statusCode (num 200) = true ->
   (lookup "data" fields = None \/ truthy data = false) ->
   outcome = Rejected (S t) (JsError "data not found")) /\
  (strict_eq_num statusCode (num 200) = true -> truthy data = true ->
   outcome = Fulfilled (S t) data).
Proof.
  intros Hreply statusCode error data outcome.
  subst outcome. rewrite (request_object _ _ _ _ _ Hreply).
  fold statusCode error data.
  split; [ | split ].
  - intros Hs. rewrite Hs. simpl. split.
    + destruct (js_Error NumberToString error); reflexivity.
    + intros message He. rewrite He. reflexivity.
  - intros Hs [Habsent | Hfalsy]; rewrite Hs; simpl.
    + unfold data, field. rewrite Habsent. reflexivity.
    + rewrite Hfalsy. reflexivity.
  - intros Hs Htruthy. rewrite Hs. simpl. rewrite Htruthy. reflexivity.
Qed.

(** C10: [request] rejects with "data not found" for every response
    with [statusCode] 200 whose [data] is present but falsy ([0], the
    empty string, [false], [null]), not only when [data] is absent; the
    empty array is truthy, and is accepted and returned. *)
Theorem request_falsy_data (path : string) (options : Options)
  (log : list Request) (t : nat) (fields : list (string * JsVal))
  (data : JsVal) :
  upstream log (sent path options) = Answer t (Some (JObj fields)) ->
  strict_eq_num (field "statusCode" fields) (num 200) = true ->
  lookup "data" fields = Some data ->
  let outcome := snd (request path options log) in
  (truthy data = false -> outcome = Rejected (S t) (JsError "data not found")) /\
  (In data [JNum (num 0); JNum (S754_zero true); JNum S754_nan;
            JStr EmptyString; JBool false; JNull] ->
   outcome = Rejected (S t) (JsError "data not found")) /\
  (data = JArr [] -> outcome = Fulfilled (S t) (JArr [])).
Proof.
  intros Hreply Hs Hdata outcome.
  assert (Hfield : field "data" fields = data)
    by (unfold field; now rewrite Hdata).
  assert (Hrun : outcome =
                 settle (S t) (if negb (truthy data)
                           then Throw (JsError "data not found")
                           else Ok data)).
  { subst outcome. rewrite (request_object _ _ _ _ _ Hreply).
    now rewrite Hs, Hfield. }
  assert (Hfalsy : truthy data = false ->
                   outcome = Rejected (S t) (JsError "data not found")).
  { intros Hf. now rewrite Hrun, Hf. }
  split; [ exact Hfalsy | split ].
  - intros Hin. apply Hfalsy. simpl in Hin.
    repeat (destruct Hin as [<- | Hin]; [ reflexivity | ]). contradiction.
  - intros ->. now rewrite Hrun.
Qed.

(** *** Array parameters *)

Lemma formatUrlArray_strings (items : list string) :
  forallb isWellFormed items = true ->
  formatUrlArray (map JStr items) = Ok (array_parameter items).
Proof.
  intros Hitems. unfold OpenPlatform.formatUrlArray.
  rewrite mapR_encode_strings by exact Hitems. cbn [rbind].
  rewrite join_terminated. unfold array_parameter.
  now destruct items.
Qed.

Lemma formatUrlArray_ill_formed (items : list string) :
  forallb isWellFormed items = false ->
  formatUrlArray (map JStr items) = Throw URIError.
Proof.
  intros Hitems. unfold OpenPlatform.formatUrlArray.
  now rewrite mapR_encode_ill_formed.
Qed.

Lemma formatFields_strings (fields : list string) :
  forallb isWellFormed fields = true ->
  formatFields (map JStr fields) = Ok (separated "," (map encoded fields)).
Proof.
  intros Hfields. unfold OpenPlatform.formatFields.
  rewrite mapR_encode_strings by exact Hfields. cbn [rbind].
  now rewrite join_separated.
Qed.

Lemma formatFields_ill_formed (fields : list string) :
  forallb isWellFormed fields = false ->
  formatFields (map JStr fields) = Throw URIError.
Proof.
  intros Hfields. unfold OpenPlatform.formatFields.
  now rewrite mapR_encode_ill_formed.
Qed.

Lemma all_percent_encoded (items : list string) :
  forallb isWellFormed items = true ->
  Forall2 percent_encoded items (map encoded items).
Proof.
  induction items as [ | s items IH]; simpl; [ constructor | ].
  rewrite andb_true_iff. intros [Hs Hitems].
  constructor; [ now apply encoded_percent_encoded | now apply IH ].
Qed.

Lemma count_commas_array_parameter (items : list string) :
  count_char ","%char (array_parameter items) = Nat.max 1 (List.length items).
Proof.
  unfold array_parameter. destruct items as [ | s items]; [ reflexivity | ].
  rewrite count_char_terminated by now apply encoded_items_free.
  rewrite length_map. change (count_char ","%char ",") with 1. simpl. lia.
Qed.


(** C3 (amended): for every list of strings that are well-formed
    UTF-16, [formatUrlArray] returns the elements percent-encoded, each
    followed by a comma, so that they are joined with commas and one
    trailing comma follows; for the empty list it returns [","].  The
    commas of the result are these alone.  For a list with a string
    that holds a lone surrogate it throws a URIError.  In particular
    [formatUrlArray([])] is [","] and [formatUrlArray(["a","b"])] is
    ["a,b,"]. *)
Theorem formatUrlArray_trailing_comma (items : list string) :
  (forallb isWellFormed items = true ->
   exists texts,
     Forall2 percent_encoded items texts /\
     formatUrlArray (map JStr items) =
       Ok (match items with
           | [] => ","
           | _ => terminated "," texts
           end) /\
     count_char ","%char (match items with
                          | [] => ","
                          | _ => terminated "," texts
                          end) = Nat.max 1 (List.length items)) /\
  (forallb isWellFormed items = false ->
   formatUrlArray (map JStr items) = Throw URIError) /\
  formatUrlArray [] = Ok "," /\
  formatUrlArray [JStr "a"; JStr "b"] = Ok "a,b,".
Proof.
  split; [ | split; [ apply formatUrlArray_ill_formed | split; reflexivity ] ].
  intros Hitems. exists (map encoded items).
  split; [ now apply all_percent_encoded | ].
  split; [ now apply formatUrlArray_strings | ].
  apply count_commas_array_parameter.
Qed.

(** *** Libraries and branches *)



(** C7: when the lookup of the one branch id returns a list,
    [getBranch] fails with the message "branch not found" if and only
    if that list is empty, and otherwise returns its first element. *)
Theorem getBranch_first_or_not_found (branchId : JsVal)
  (log log' : list Request) (t : nat) (branches : list JsVal) :
  getLibraries [] [branchId] log = (log', Fulfilled t (JArr branches)) ->
  (getBranch branchId log = (log', Rejected t (JsError "branch not found"))
   <-> branches = []) /\
  (forall first rest, branches = first :: rest ->
                      getBranch branchId log = (log', Fulfilled t first)).
Proof.
  intros Hlibraries.
  assert (Hrun : getBranch branchId log =
                 (log', match branches with
                        | [] => Rejected t (JsError "branch not found")
                        | first :: _ => Fulfilled t first
                        end)).
  { unfold OpenPlatform.getBranch.
    rewrite (bind_run _ _ _ _ _ _ Hlibraries).
    rewrite bind_lift. simpl length_less_than.
    destruct branches as [ | first rest]; settled. }
  rewrite Hrun. split.
  - destruct branches; split; congruence.
  - now intros first rest ->.
Qed.

(** A failed lookup is the failure of [getBranch], as it is. *)
Lemma getBranch_lookup_failed (branchId : JsVal) (log log' : list Request)
  (t : nat) (e : Exn) :
  getLibraries [] [branchId] log = (log', Rejected t e) ->
  getBranch branchId log = (log', Rejected t e).
Proof.
  intros Hlibraries. unfold OpenPlatform.getBranch.
  now rewrite (bind_rejected _ _ _ _ _ _ Hlibraries).
Qed.

(** *** Works *)

(** Up to [pidLimit] pids: one request, and the works that are not
    empty. *)
Lemma getWork_request_run (pids fields : list string) (log : list Request) :
  forallb isWellFormed pids = true ->
  forallb isWellFormed fields = true ->
  getWork_request (map JStr pids) (map JStr fields) log =
  (push log (sent (workPath getToken fields pids) no_options),
   answered (upstream log (sent (workPath getToken fields pids) no_options))
            (fun response =>
               rbind (unwrap NumberToString response) (js_filter nonEmpty))).
Proof.
  intros Hpids Hfields. unfold OpenPlatform.getWork_request.
  rewrite bind_lift, formatUrlArray_strings by exact Hpids.
  rewrite bind_lift, formatFields_strings by exact Hfields.
  cbv zeta. rewrite bind_request_lift. reflexivity.
Qed.

(** A pid or a field that cannot be encoded: nothing is sent. *)
Lemma getWork_request_ill_formed (pids fields : list string)
  (log : list Request) :
  forallb isWellFormed (pids ++ fields)%list = false ->
  getWork_request (map JStr pids) (map JStr fields) log =
  (log, Rejected 0 URIError).
Proof.
  intros Hill. rewrite forallb_app in Hill.
  unfold OpenPlatform.getWork_request. rewrite bind_lift.
  destruct (forallb isWellFormed pids) eqn:Hpids.
  - rewrite formatUrlArray_strings by exact Hpids.
    rewrite bind_lift, formatFields_ill_formed by exact Hill. reflexivity.
  - now rewrite formatUrlArray_ill_formed.
Qed.

Lemma getWork_fuel_short (fuel : nat) (pids fields : list JsVal) :
  List.length pids <= OpenPlatform.pidLimit ->
  getWork_fuel (S fuel) pids fields = getWork_request pids fields.
Proof.
  intros Hlen. simpl.
  destruct (Nat.ltb_spec OpenPlatform.pidLimit (List.length pids));
    [ lia | reflexivity ].
Qed.

Lemma getWork_fuel_long (fuel : nat) (pids fields : list JsVal) :
  OpenPlatform.pidLimit < List.length pids ->
  getWork_fuel (S (S fuel)) pids fields =
  bind (Promise_all (map (fun pidChunk => getWork_request pidChunk fields)
                         (chunk pids OpenPlatform.pidLimit)))
       (fun results => ret (List.concat results)).
Proof.
  intros Hlen.
  change (getWork_fuel (S (S fuel)) pids fields)
    with (if (OpenPlatform.pidLimit <? List.length pids)%nat then
            bind (Promise_all
                    (map (fun pidChunk => getWork_fuel (S fuel) pidChunk fields)
                         (chunk pids OpenPlatform.pidLimit)))
                 (fun results => ret (List.concat results))
          else getWork_request pids fields).
  destruct (Nat.ltb_spec OpenPlatform.pidLimit (List.length pids));
    [ | lia ].
  f_equal. f_equal. apply map_ext_in. intros c Hc.
  apply getWork_fuel_short.
  pose proof (chunk_sizes pids OpenPlatform.pidLimit) as Hsizes.
  rewrite Forall_forall in Hsizes.
  apply Hsizes in Hc; [ lia | unfold OpenPlatform.pidLimit; lia ].
Qed.

(** Two levels of calls are all [getWork] ever makes: more fuel changes
    nothing. *)
Lemma getWork_fuel_enough (fuel : nat) (pids fields : list JsVal) :
  2 <= fuel -> getWork_fuel fuel pids fields = getWork pids fields.
Proof.
  intros Hfuel. unfold OpenPlatform.getWork.
  destruct fuel as [ | [ | fuel]]; try lia.
  destruct (Nat.le_gt_cases (List.length pids) OpenPlatform.pidLimit).
  - now rewrite !getWork_fuel_short.
  - now rewrite (getWork_fuel_long fuel), (getWork_fuel_long 0).
Qed.

(** Calls that send one request each, whatever the log: the requests
    go out in the order of the calls, and the promise of a call is that
    of the call made after the requests of the calls before it. *)
Lemma spawn_one_each {A} (calls : list (Async A)) (requests : list Request) :
  Forall2 (fun call req => forall log, fst (call log) = push log req)
          calls requests ->
  forall log,
    fst (spawn calls log) = (log ++ requests)%list /\
    List.length (snd (spawn calls log)) = List.length calls /\
    forall i, i < List.length calls ->
      nth i (snd (spawn calls log)) Pending =
      snd (nth i calls never (log ++ firstn i requests)%list).
Proof.
  induction 1 as [ | call req calls requests Hcall _ IH]; intros log.
  - simpl. rewrite app_nil_r. repeat split. intros i Hi. lia.
  - cbn [spawn]. specialize (Hcall log).
    destruct (call log) as [log1 p] eqn:Hrun. simpl in Hcall. subst log1.
    destruct (IH (push log req)) as [Hlog [Hlen Hnth]].
    destruct (spawn calls (push log req)) as [log2 ps]. simpl in *.
    split; [ | split ].
    + rewrite Hlog. unfold push. now rewrite <- app_assoc.
    + now rewrite Hlen.
    + intros [ | i] Hi.
      * simpl. now rewrite app_nil_r, Hrun.
      * simpl. rewrite Hnth by lia. unfold push.
        now rewrite <- app_assoc.
Qed.


Lemma chunks_well_formed (pids : list string) (size : nat) :
  1 <= size ->
  forallb isWellFormed pids = true ->
  Forall (fun c => forallb isWellFormed c = true) (chunk pids size).
Proof.
  intros Hsize Hpids. apply Forall_forall. intros c Hc.
  apply forallb_forall. intros pid Hpid.
  rewrite forallb_forall in Hpids. apply Hpids.
  rewrite <- (chunk_concat pids size Hsize).
  apply in_concat. eauto.
Qed.

(** More than [pidLimit] pids: the calls on the chunks, gathered. *)
Lemma getWork_long_run (pids fields : list JsVal) (log : list Request) :
  OpenPlatform.pidLimit < List.length pids ->
  let calls :=
    map (fun pidChunk => getWork_request pidChunk fields)
        (chunk pids OpenPlatform.pidLimit) in
  getWork pids fields log =
  (fst (spawn calls log),
   match settle_all (snd (spawn calls log)) with
   | Fulfilled t results => Fulfilled t (List.concat results)
   | Rejected t e => Rejected t e
   | Pending => Pending
   end).
Proof.
  intros Hlen calls. unfold OpenPlatform.getWork.
  rewrite getWork_fuel_long by exact Hlen. fold calls.
  unfold bind. rewrite Promise_all_run.
  destruct (settle_all (snd (spawn calls log))); try reflexivity.
  settled.
Qed.


(** C6: from the list that the underlying request returns,
    [getWork] removes every empty or falsy entry before it returns, and
    keeps the others in their order.  The pids and the fields are
    well-formed strings, as they are whenever there is an underlying
    request: with a lone surrogate among them [getWork] fails before it
    sends one. *)
Theorem getWork_removes_empty (pids fields : list string)
  (log : list Request) (t : nat) (works : list JsVal) :
  List.length pids <= OpenPlatform.pidLimit ->
  forallb isWellFormed pids = true ->
  forallb isWellFormed fields = true ->
  snd (request (workPath getToken fields pids) no_options log) =
    Fulfilled t (JArr works) ->
  let kept := filter nonEmpty works in
  snd (getWork (map JStr pids) (map JStr fields) log) = Fulfilled t kept /\
  (forall w, In w kept <-> In w works /\ isEmpty w = false) /\
  (forall w, In w kept ->
             truthy w = true /\ w <> JObj [] /\ w <> JArr [] /\
             w <> JStr EmptyString).
Proof.
  intros Hlen Hpids Hfields Hrequest kept. rewrite request_run in Hrequest.
  simpl snd in Hrequest.
  assert (Hkept : forall w, In w kept <-> In w works /\ isEmpty w = false).
  { intros w. unfold kept. rewrite filter_In. unfold nonEmpty.
    now rewrite negb_true_iff. }
  split; [ | split; [ exact Hkept | ] ].
  - unfold OpenPlatform.getWork.
    rewrite getWork_fuel_short by now rewrite length_map.
    rewrite getWork_request_run by assumption. simpl snd.
    now rewrite (answered_then _ _ _ _ _ Hrequest).
  - intros w Hw. apply Hkept in Hw as [_ Hw].
    split; [ | repeat split; intros ->; discriminate ].
    destruct (truthy w) eqn:Htruthy; [ reflexivity | ].
    apply falsy_isEmpty in Htruthy. congruence.
Qed.

Lemma getWork_request_kept (pids fields : list JsVal) (log : list Request)
  (t : nat) (ws : list JsVal) :
  snd (getWork_request pids fields log) = Fulfilled t ws ->
  Forall (fun w => nonEmpty w = true) ws.
Proof.
  unfold OpenPlatform.getWork_request. rewrite bind_lift.
  destruct (formatUrlArray pids); [ | discriminate ].
  rewrite bind_lift.
  destruct (OpenPlatform.formatFields NumberToString fields);
    [ | discriminate ].
  cbv zeta. rewrite bind_request_lift. simpl snd. unfold answered.
  destruct (upstream _ _) as [ | t' | t' [response | ]]; try discriminate.
  destruct (unwrap NumberToString response) as [data | e];
    [ | discriminate ].
  destruct data; try discriminate. simpl.
  intros [= _ <-]. apply Forall_forall. intros w Hw.
  now apply filter_In in Hw.
Qed.

(** The same holds of the gathered chunks: no work that [getWork]
    returns is empty. *)
Lemma getWork_never_returns_empty (pids fields : list JsVal)
  (log : list Request) (t : nat) (ws : list JsVal) :
  snd (getWork pids fields log) = Fulfilled t ws ->
  Forall (fun w => nonEmpty w = true) ws.
Proof.
  unfold OpenPlatform.getWork.
  destruct (Nat.le_gt_cases (List.length pids) OpenPlatform.pidLimit)
    as [Hshort | Hlong].
  - rewrite getWork_fuel_short by exact Hshort. apply getWork_request_kept.
  - rewrite getWork_fuel_long by exact Hlong.
    set (calls := map _ _). unfold bind. rewrite Promise_all_run.
    destruct (settle_all (snd (spawn calls log))) as [t' results | | ] eqn:Hall;
      try discriminate.
    simpl. intros [= _ <-].
    apply settle_all_inv in Hall.
    assert (Hcalls : Forall (fun p => forall t1 r, p = Fulfilled t1 r ->
                               Forall (fun w => nonEmpty w = true) r)
                            (snd (spawn calls log))).
    { apply spawn_forall. intros call log1 Hcall t1 r.
      apply in_map_iff in Hcall as [c [<- _]].
      apply getWork_request_kept. }
    apply Forall_concat.
    induction Hall as [ | p r ps rs [t1 Hp] _ IH]; [ constructor | ].
    inversion Hcalls as [ | ? ? Hhead Htail]; subst.
    constructor; [ eapply Hhead; reflexivity | now apply IH ].
Qed.

(** *** Availability *)

Lemma some_illOrderable (records : list JsVal) :
  Forall (fun r => is_record r = true) records ->
  some_loop OpenPlatform.illOrderable records = Ok (existsb orderable records).
Proof.
  induction 1 as [ | r records Hr _ IH]; [ reflexivity | ].
  simpl. rewrite IH. unfold OpenPlatform.illOrderable, orderable, flag.
  destruct r as [ | | b | x | s | items | fields]; try discriminate;
    simpl; try reflexivity.
  destruct (truthy (field "willLend" fields)) eqn:Hw; simpl.
  - now destruct (truthy (field "orderPossible" fields)).
  - now rewrite Hw.
Qed.

(** C4: for every availability list, [canBeOrdered] returns true if and
    only if at least one record of the list has both [willLend] and
    [orderPossible] true; for an empty list it returns false. *)
Theorem canBeOrdered_some (pids : list JsVal) (log log' : list Request)
  (t : nat) (records : list JsVal) :
  getAvailability pids OpenPlatform.getAvailability_default_fields log =
    (log', Fulfilled t (JArr records)) ->
  Forall (fun r => is_record r = true) records ->
  exists answer : bool,
    canBeOrdered pids log = (log', Fulfilled t answer) /\
    (answer = true <->
     exists r, In r records /\
               flag "willLend" r = true /\ flag "orderPossible" r = true) /\
    (records = [] -> answer = false) /\
    (forall r fields (willLend orderPossible : bool),
        r = JObj fields ->
        field "willLend" fields = JBool willLend ->
        field "orderPossible" fields = JBool orderPossible ->
        flag "willLend" r = willLend /\ flag "orderPossible" r = orderPossible).
Proof.
  intros Havailable Hrecords. exists (existsb orderable records).
  split; [ | split; [ | split ] ].
  - unfold OpenPlatform.canBeOrdered.
    rewrite (bind_run _ _ _ _ _ _ Havailable), lift_run. simpl.
    rewrite (some_illOrderable records Hrecords). simpl.
    now rewrite Nat.add_0_r.
  - rewrite existsb_exists. unfold orderable.
    split; intros [r [Hin Hr]]; exists r; split; try exact Hin.
    + now apply andb_true_iff.
    + now apply andb_true_iff.
  - now intros ->.
  - intros r fields willLend orderPossible -> Hw Ho.
    unfold flag. simpl. now rewrite Hw, Ho.
Qed.

(** *** Orders *)

(** A step of [constructOrderParameter] leaves the order as it is, or
    adds one of the supplied parameters to the URL and to the body. *)
Lemma constructOrderParameter_cases (user parameter : JsVal)
  (d d' : OpenPlatform.OrderData) :
  constructOrderParameter user parameter d = Ok d' ->
  (d' = d /\ forall k, In k supplied -> parameter <> JStr k) \/
  exists k v text,
    In k supplied /\ parameter = JStr k /\
    ToString NumberToString v = Ok text /\
    d' = OpenPlatform.set_body k v
           (OpenPlatform.push_parameter (k ++ "=" ++ text) d).
Proof.
  unfold OpenPlatform.constructOrderParameter, supplied.
  destruct (strict_eq_str parameter "userId") eqn:HuserId.
  { apply strict_eq_str_true in HuserId. subst parameter.
    intros [= <-]. left. split; [ reflexivity | ].
    simpl. intros k [<- | [<- | [<- | [<- | []]]]]; discriminate. }
  destruct (strict_eq_str parameter "pincode") eqn:Hpincode.
  { apply strict_eq_str_true in Hpincode. subst parameter.
    intros [= <-]. left. split; [ reflexivity | ].
    simpl. intros k [<- | [<- | [<- | [<- | []]]]]; discriminate. }
  simpl orb. cbv iota.
  destruct (strict_eq_str parameter "name") eqn:Hname.
  { apply strict_eq_str_true in Hname.
    destruct (get_prop user "name") as [v | ]; [ | discriminate ].
    simpl rbind.
    destruct (ToString NumberToString v) as [text | ] eqn:Htext;
      [ | discriminate ].
    intros [= <-]. right. exists "name", v, text. simpl. auto. }
  destruct (strict_eq_str parameter "address") eqn:Haddress.
  { apply strict_eq_str_true in Haddress.
    destruct (get_prop user "address") as [v | ]; [ | discriminate ].
    simpl rbind.
    destruct (ToString NumberToString v) as [text | ] eqn:Htext;
      [ | discriminate ].
    intros [= <-]. right. exists "address", v, text. simpl. auto. }
  destruct (strict_eq_str parameter "email") eqn:Hemail.
  { apply strict_eq_str_true in Hemail.
    destruct (get_prop user "mail") as [v | ]; [ | discriminate ].
    simpl rbind.
    destruct (ToString NumberToString v) as [text | ] eqn:Htext;
      [ | discriminate ].
    intros [= <-]. right. exists "email", v, text. simpl. auto. }
  destruct (strict_eq_str parameter "phone") eqn:Hphone.
  { apply strict_eq_str_true in Hphone.
    intros [= <-]. right. exists "phone", (JStr "12345678"), "12345678".
    simpl. auto 7. }
  intros [= <-]. left. split; [ reflexivity | ].
  simpl. intros k [<- | [<- | [<- | [<- | []]]]] ->; discriminate.
Qed.

(** What [orderData] builds. *)
Lemma orderData_ok (pids : list JsVal) (pickupBranch expires : JsVal)
  (d : OpenPlatform.OrderData) :
  orderData pids pickupBranch expires = Ok d ->
  exists expiresText branchText formatted,
    ToString NumberToString (or_default JNull expires) = Ok expiresText /\
    ToString NumberToString (or_default JNull pickupBranch) = Ok branchText /\
    formatUrlArray pids = Ok formatted /\
    d = OpenPlatform.mkOrderData
          ["access_token=" ++ getToken "user";
           "orderType=normal";
           "expires=" ++ expiresText;
           "pickUpBranch=" ++ quote ++ branchText ++ quote;
           "pids=" ++ formatted]
          [("orderType", JStr "normal");
           ("expires", or_default JNull expires);
           ("pickUpBranch", or_default JNull pickupBranch);
           ("pids", JArr pids)].
Proof.
  unfold OpenPlatform.orderData. cbv zeta.
  destruct (ToString NumberToString (or_default JNull expires))
    as [expiresText | ]; [ | discriminate ].
  destruct (ToString NumberToString (or_default JNull pickupBranch))
    as [branchText | ]; [ | discriminate ].
  simpl rbind.
  destruct (formatUrlArray pids) as [formatted | ]; [ | discriminate ].
  intros [= <-]. exists expiresText, branchText, formatted.
  repeat split; reflexivity.
Qed.

Lemma orderData_same_fields (pids : list JsVal) (pickupBranch expires : JsVal)
  (d : OpenPlatform.OrderData) :
  orderData pids pickupBranch expires = Ok d ->
  same_fields NumberToString (OpenPlatform.parameters d)
              (OpenPlatform.body_fields d).
Proof.
  intros Hd.
  destruct (orderData_ok _ _ _ _ Hd)
    as [expiresText [branchText [formatted [He [Hb [Hf ->]]]]]].
  unfold same_fields, has_key, fixed, supplied.
  simpl OpenPlatform.parameters. simpl OpenPlatform.body_fields.
  simpl map. simpl lookup.
  split; [ | split ].
  - intros k Hk.
    destruct (string_eqb_spec k "orderType") as [-> | H1];
      [ split; simpl; auto | ].
    destruct (string_eqb_spec k "expires") as [-> | H2];
      [ split; simpl; auto | ].
    destruct (string_eqb_spec k "pickUpBranch") as [-> | H3];
      [ split; simpl; auto | ].
    destruct (string_eqb_spec k "pids") as [-> | H4];
      [ split; simpl; auto 6 | ].
    split; [ | discriminate ].
    simpl. intros [H | [H | [H | [H | [H | []]]]]]; congruence.
  - intros k v.
    destruct (string_eqb_spec k "orderType") as [-> | H1].
    { intros [= <-]. exists "normal". split; [ reflexivity | simpl; auto ]. }
    destruct (string_eqb_spec k "expires") as [-> | H2].
    { intros [= <-]. exists expiresText. split; [ exact He | simpl; auto ]. }
    destruct (string_eqb_spec k "pickUpBranch") as [-> | H3].
    { intros [= <-]. exists (quote ++ branchText ++ quote).
      split; [ exists branchText; now split | simpl; auto 6 ]. }
    destruct (string_eqb_spec k "pids") as [-> | H4].
    { intros [= <-]. exists formatted. split; [ | simpl; auto 7 ].
      unfold OpenPlatform.formatUrlArray in Hf.
      destruct (mapR (encodeURIComponent NumberToString) pids)
        as [pieces | ] eqn:Hpieces; [ | discriminate ].
      cbn [rbind] in Hf. injection Hf as <-.
      destruct (mapR_encode_values _ _ _ Hpieces) as [printed [Hp Hall]].
      exists pids, printed, pieces.
      rewrite join_terminated. repeat split; assumption. }
    discriminate.
  - intros k.
    destruct (string_eqb_spec k "orderType") as [-> | H1];
      [ simpl; auto | ].
    destruct (string_eqb_spec k "expires") as [-> | H2];
      [ simpl; auto | ].
    destruct (string_eqb_spec k "pickUpBranch") as [-> | H3];
      [ simpl; auto | ].
    destruct (string_eqb_spec k "pids") as [-> | H4];
      [ simpl; auto 6 | ].
    discriminate.
Qed.

Lemma url_value_supplied (k : string) (v : JsVal) (text : string) :
  In k supplied ->
  url_value NumberToString k v text = (ToString NumberToString v = Ok text).
Proof.
  unfold supplied. simpl.
  intros [<- | [<- | [<- | [<- | []]]]]; reflexivity.
Qed.

(** Adding a supplied parameter to both keeps them alike. *)
Lemma same_fields_add (k : string) (v : JsVal) (text : string)
  (d : OpenPlatform.OrderData) :
  In k supplied -> ToString NumberToString v = Ok text ->
  same_fields NumberToString (OpenPlatform.parameters d)
              (OpenPlatform.body_fields d) ->
  same_fields NumberToString
    (OpenPlatform.parameters
       (OpenPlatform.set_body k v
          (OpenPlatform.push_parameter (k ++ "=" ++ text) d)))
    (OpenPlatform.body_fields
       (OpenPlatform.set_body k v
          (OpenPlatform.push_parameter (k ++ "=" ++ text) d))).
Proof.
  intros Hk Htext [Hnames [Hvalues Hkeys]].
  unfold same_fields in *.
  unfold OpenPlatform.set_body, OpenPlatform.push_parameter.
  cbn [OpenPlatform.parameters OpenPlatform.body_fields].
  unfold push. rewrite map_app. cbn [map].
  rewrite (param_name_supplied k text Hk).
  split; [ | split ].
  - intros j Hj. rewrite in_app_iff, has_key_set_prop, orb_true_iff.
    rewrite (Hnames j Hj), string_eqb_eq. simpl In.
    intuition congruence.
  - intros j w. rewrite lookup_set_prop.
    destruct (string_eqb_spec j k) as [-> | Hne].
    + intros [= <-]. exists text.
      rewrite (url_value_supplied k v text Hk). split; [ exact Htext | ].
      apply in_app_iff. right. now left.
    + intros Hw. destruct (Hvalues j w Hw) as [t [Ht Hin]].
      exists t. split; [ exact Ht | ]. apply in_app_iff. now left.
  - intros j. rewrite has_key_set_prop, orb_true_iff.
    intros [Hj | Hj]; [ | now apply Hkeys ].
    apply string_eqb_eq in Hj. subst j. apply in_app_iff. now right.
Qed.

(** The steps of [forEach] keep the URL and the body alike, keep what
    the body has, and give it every supplied parameter listed. *)
Lemma forEach_same_fields (user : JsVal) (items : list JsVal) :
  forall d d' : OpenPlatform.OrderData,
  forEach_loop (constructOrderParameter user) items d = Ok d' ->
  same_fields NumberToString (OpenPlatform.parameters d)
              (OpenPlatform.body_fields d) ->
  same_fields NumberToString (OpenPlatform.parameters d')
              (OpenPlatform.body_fields d') /\
  (forall k, has_key k (OpenPlatform.body_fields d) = true ->
             has_key k (OpenPlatform.body_fields d') = true) /\
  (forall k, In k supplied -> In (JStr k) items ->
             has_key k (OpenPlatform.body_fields d') = true) /\
  (forall k, In k (parameter_names d) -> In k (parameter_names d')) /\
  (forallb not_empty (OpenPlatform.parameters d) = true ->
   forallb not_empty (OpenPlatform.parameters d') = true).
Proof.
  induction items as [ | item items IH]; intros d d'; simpl.
  - intros [= <-] Hd.
    split; [ exact Hd | split; [ auto | split; [ | auto ] ] ].
    intros k _ [].
  - destruct (constructOrderParameter user item d) as [d1 | ] eqn:Hstep;
      [ | discriminate ].
    simpl rbind. intros Hrest Hd.
    assert (H1 : same_fields NumberToString (OpenPlatform.parameters d1)
                             (OpenPlatform.body_fields d1) /\
                 (forall k, has_key k (OpenPlatform.body_fields d) = true ->
                            has_key k (OpenPlatform.body_fields d1) = true) /\
                 (forall k, In k supplied -> item = JStr k ->
                            has_key k (OpenPlatform.body_fields d1) = true) /\
                 (forall k, In k (parameter_names d) ->
                            In k (parameter_names d1)) /\
                 (forallb not_empty (OpenPlatform.parameters d) = true ->
                  forallb not_empty (OpenPlatform.parameters d1) = true)).
    { destruct (constructOrderParameter_cases _ _ _ _ Hstep)
        as [[-> Hother] | [k [v [text [Hk [Hitem [Htext ->]]]]]]].
      - split; [ exact Hd | split; [ auto | split; [ | auto ] ] ].
        intros k Hk Hitem. now apply Hother in Hitem.
      - split; [ now apply same_fields_add | ].
        unfold parameter_names.
        unfold OpenPlatform.set_body, OpenPlatform.push_parameter.
        cbn [OpenPlatform.body_fields OpenPlatform.parameters].
        split; [ | split; [ | split ] ].
        + intros j Hj. rewrite has_key_set_prop, Hj. apply orb_true_r.
        + intros j Hj Hjk. rewrite Hitem in Hjk. injection Hjk as ->.
          now rewrite has_key_set_prop, string_eqb_refl.
        + intros j Hj. unfold push. rewrite map_app. apply in_app_iff.
          now left.
        + intros Hfull. unfold push. rewrite forallb_app, Hfull.
          cbn [forallb andb].
          unfold supplied in Hk. simpl in Hk.
          destruct Hk as [<- | [<- | [<- | [<- | []]]]]; reflexivity. }
    destruct H1 as [Hsame1 [Hmono1 [Hadd1 [Hnames1 Hfull1]]]].
    destruct (IH d1 d' Hrest Hsame1) as [Hsame [Hmono [Hadd [Hnames Hfull]]]].
    split; [ exact Hsame | split; [ | split; [ | split ] ] ].
    + intros k Hk. apply Hmono, Hmono1, Hk.
    + intros k Hk [Hitem | Hin]; [ | now apply Hadd ].
      apply Hmono. apply Hadd1; [ exact Hk | now symmetry ].
    + intros k Hk. apply Hnames, Hnames1, Hk.
    + intros Hd0. apply Hfull, Hfull1, Hd0.
Qed.

(** [orderMaterial], once the order is built and the user and the
    branch are there: the order request goes out last. *)
Lemma orderMaterial_run (pids : list JsVal) (pickupBranch expires : JsVal)
  (log log1 : list Request) (t : nat) (user branch : JsVal)
  (d0 d : OpenPlatform.OrderData) :
  orderData pids pickupBranch expires = Ok d0 ->
  Promise_all [getUser; getBranch (or_default JNull pickupBranch)] log =
    (log1, Fulfilled t [user; branch]) ->
  addBranchParameters user branch d0 = Ok d ->
  let order :=
    sent ("order?" ++ join "&" (OpenPlatform.parameters d)) (orderOptions d) in
  orderMaterial pids pickupBranch expires log =
  (push log1 order,
   later t (answered (upstream log1 order) (unwrap NumberToString))).
Proof.
  intros Hd0 Hboth Hd order. unfold OpenPlatform.orderMaterial.
  rewrite bind_lift, Hd0.
  rewrite (bind_run _ _ _ _ _ _ Hboth). cbv zeta. cbn [nth].
  rewrite bind_lift, Hd, request_run. reflexivity.
Qed.


(** The parameters of an order, as they are read from its URL: when
    none of them holds an [&] or a [#] of its own, they are the
    parameters that [orderMaterial] has gathered. *)
Lemma order_url_parameters (pids : list JsVal)
  (pickupBranch expires user : JsVal) (orderParameters : list JsVal)
  (d0 d : OpenPlatform.OrderData) :
  orderData pids pickupBranch expires = Ok d0 ->
  forEach_loop (constructOrderParameter user) orderParameters d0 = Ok d ->
  forallb plain (OpenPlatform.parameters d) = true ->
  url_parameters
    (url (sent ("order?" ++ join "&" (OpenPlatform.parameters d))
               (orderOptions d))) =
  OpenPlatform.parameters d.
Proof.
  intros Hd0 Hloop Hplain.
  pose proof (orderData_same_fields _ _ _ _ Hd0) as Hsame0.
  destruct (forEach_same_fields user orderParameters d0 d Hloop Hsame0)
    as [_ [_ [_ [Hnames Hfull]]]].
  destruct (orderData_ok _ _ _ _ Hd0) as [et [bt [fmt [_ [_ [_ Hd0eq]]]]]].
  change ("order?" ++ join "&" (OpenPlatform.parameters d))
    with ("order" ++ "?" ++ join "&" (OpenPlatform.parameters d)).
  rewrite url_parameters_sent; try reflexivity; try assumption.
  - apply filter_not_empty, Hfull. rewrite Hd0eq. reflexivity.
  - assert (Hin : In "access_token" (parameter_names d))
      by (apply Hnames; rewrite Hd0eq; now left).
    unfold parameter_names in Hin.
    destruct (OpenPlatform.parameters d); [ destruct Hin | discriminate ].
Qed.

(** C8 (amended): in every order that [orderMaterial] sends, the
    parameters of the URL and the body object carry the same fields,
    provided that no value put into the URL holds an [&] or a [#]
    (the values are not encoded): [orderType], [expires],
    [pickUpBranch] and [pids] always, and of the parameters that the
    branch requires those that the client supplies ([name], [address],
    [email], [phone]); each is in both places, with the same value.
    The URL alone has the access token, and a required [userId],
    [pincode] or unknown name is in neither. *)
Theorem orderMaterial_same_fields (pids : list JsVal)
  (pickupBranch expires : JsVal) (log log1 : list Request) (t : nat)
  (user branch : JsVal) (orderParameters : list JsVal)
  (d0 d : OpenPlatform.OrderData) :
  orderData pids pickupBranch expires = Ok d0 ->
  Promise_all [getUser; getBranch (or_default JNull pickupBranch)] log =
    (log1, Fulfilled t [user; branch]) ->
  get_prop branch "orderParameters" = Ok (JArr orderParameters) ->
  addBranchParameters user branch d0 = Ok d ->
  forallb plain (OpenPlatform.parameters d) = true ->
  let order :=
    sent ("order?" ++ join "&" (OpenPlatform.parameters d)) (orderOptions d) in
  let names := url_names (url order) in
  let body_has k := has_key k (OpenPlatform.body_fields d) in
  (fst (orderMaterial pids pickupBranch expires log) = push log1 order /\
   body (init order) =
     JSON_stringify NumberToString (JObj (OpenPlatform.body_fields d))) /\
  url_parameters (url order) = OpenPlatform.parameters d /\
  same_fields NumberToString (url_parameters (url order))
              (OpenPlatform.body_fields d) /\
  (forall k, In k fixed -> In k names /\ body_has k = true) /\
  (forall k, In k supplied -> In (JStr k) orderParameters ->
             In k names /\ body_has k = true) /\
  (forall k, ~ In k (fixed ++ supplied) -> k <> "access_token" ->
             ~ In k names /\ body_has k = false) /\
  (In "access_token" names /\ body_has "access_token" = false).
Proof.
  intros Hd0 Hboth Hrequired Hd Hplain order names body_has.
  assert (Hloop : forEach_loop (constructOrderParameter user)
                               orderParameters d0 = Ok d).
  { unfold OpenPlatform.addBranchParameters in Hd.
    now rewrite Hrequired in Hd. }
  pose proof (orderData_same_fields _ _ _ _ Hd0) as Hsame0.
  destruct (forEach_same_fields user orderParameters d0 d Hloop Hsame0)
    as [Hsame [Hmono [Hadd [Hnames _]]]].
  assert (Hparse : url_parameters (url order) = OpenPlatform.parameters d)
    by exact (order_url_parameters _ _ _ _ _ _ _ Hd0 Hloop Hplain).
  assert (Hnames' : names = parameter_names d)
    by (unfold names, url_names; now rewrite Hparse).
  assert (Hsame' := Hsame). destruct Hsame' as [Hiff [_ Hkeys]].
  fold (parameter_names d) in Hiff.
  assert (Hnone : forall k, ~ In k (fixed ++ supplied) -> body_has k = false).
  { intros k Hk. unfold body_has.
    destruct (has_key k (OpenPlatform.body_fields d)) eqn:Hhas;
      [ | reflexivity ].
    now apply Hkeys in Hhas. }
  destruct (orderData_ok _ _ _ _ Hd0) as [et [bt [fmt [_ [_ [_ Hd0eq]]]]]].
  rewrite Hnames', Hparse.
  split; [ split | split; [ reflexivity | split;
    [ exact Hsame | split; [ | split; [ | split ] ] ] ] ].
  - subst order.
    now rewrite (orderMaterial_run _ _ _ _ _ _ _ _ _ _ Hd0 Hboth Hd).
  - reflexivity.
  - intros k Hk.
    assert (Hhas : body_has k = true).
    { apply Hmono. rewrite Hd0eq. unfold fixed in Hk. simpl in Hk.
      destruct Hk as [<- | [<- | [<- | [<- | []]]]]; reflexivity. }
    split; [ | exact Hhas ].
    apply Hiff; [ | exact Hhas ].
    unfold fixed in Hk. simpl in Hk.
    destruct Hk as [<- | [<- | [<- | [<- | []]]]]; discriminate.
  - intros k Hk Hin.
    assert (Hhas : body_has k = true) by now apply Hadd.
    split; [ | exact Hhas ].
    apply Hiff; [ | exact Hhas ].
    unfold supplied in Hk. simpl in Hk.
    destruct Hk as [<- | [<- | [<- | [<- | []]]]]; discriminate.
  - intros k Hk Htoken.
    split; [ | now apply Hnone ].
    intros Hin. apply (Hiff k Htoken) in Hin.
    fold (body_has k) in Hin. rewrite (Hnone k Hk) in Hin. discriminate.
  - split.
    + apply Hnames. rewrite Hd0eq. now left.
    + apply Hnone. unfold fixed, supplied. simpl.
      intros H. repeat (destruct H as [H | H]; [ discriminate | ]). exact H.
Qed.

End Properties.
(** ** Further properties *)

(** *** Percent-encoding *)

Lemma Encode_unreserved (s : string) :
  all_chars unreserved s = true -> Encode s = Ok s.
Proof.
  induction s as [ | c s IH]; [ reflexivity | ].
  cbn [all_chars]. rewrite andb_true_iff. intros [Hc Hs].
  cbn [Encode]. rewrite Hc, (IH Hs). reflexivity.
Qed.

(** What [encodeURIComponent] returns holds only unreserved characters
    and percent signs, so nothing that separates URL parameters or array
    items; a string of unreserved characters is returned as it is. *)
Theorem Encode_text_url_safe (s text : string) :
  Encode s = Ok text ->
  all_chars url_safe text = true /\
  Forall (fun c : ascii => count_char c text = 0)
         ["&"; "="; ","; "?"; "#"; "/"; "+"; " "; ":"; ";"]%char /\
  (all_chars unreserved s = true -> text = s).
Proof.
  intros Henc.
  assert (Hsafe : all_chars url_safe text = true)
    by exact (Encode_url_safe s text Henc).
  split; [ exact Hsafe | split ].
  - repeat constructor; now apply (all_chars_count url_safe).
  - intros Hs. rewrite (Encode_unreserved s Hs) in Henc. now injection Henc.
Qed.

(** [encodeURIComponent] loses nothing: the text it returns decodes to
    the string it was given, so two strings with the same encoding are
    the same string; it returns for the well-formed strings, and throws
    a URIError for the others. *)
Theorem Encode_reads_back :
  (forall s text, Encode s = Ok text -> percent_decode text = Some s) /\
  (forall a b text, Encode a = Ok text -> Encode b = Ok text -> a = b) /\
  (forall s, isWellFormed s = true <-> exists text, Encode s = Ok text) /\
  (forall s, isWellFormed s = false <-> Encode s = Throw URIError).
Proof.
  split; [ | split; [ | split ] ].
  - exact percent_decode_Encode.
  - exact Encode_inj.
  - intros s. split.
    + intros Hwf. exists (encoded s). now apply Encode_encoded.
    + intros [text Henc]. destruct (isWellFormed s) eqn:Hwf; [ reflexivity | ].
      rewrite (Encode_ill_formed s Hwf) in Henc. discriminate.
  - intros s. split.
    + apply Encode_ill_formed.
    + intros Henc. destruct (isWellFormed s) eqn:Hwf; [ | reflexivity ].
      rewrite (Encode_encoded s Hwf) in Henc. discriminate.
Qed.

Section Further.

#[local] Set Default Proof Using "Type".

Variable NumberToString : number -> string.
Variable StringToNumber : string -> number.
Variable getToken : string -> string.
Variable upstream : list Request -> Request -> Reply.

#[local] Abbreviation request := (OpenPlatform.request NumberToString upstream).
#[local] Abbreviation formatUrlArray := (OpenPlatform.formatUrlArray NumberToString).
#[local] Abbreviation formatFields := (OpenPlatform.formatFields NumberToString).
#[local] Abbreviation getLibraries :=
  (OpenPlatform.getLibraries NumberToString getToken upstream).
#[local] Abbreviation getWork :=
  (OpenPlatform.getWork NumberToString getToken upstream).
#[local] Abbreviation getWork_fuel :=
  (OpenPlatform.getWork_fuel NumberToString getToken upstream).
#[local] Abbreviation getWork_request :=
  (OpenPlatform.getWork_request NumberToString getToken upstream).
#[local] Abbreviation getAvailability :=
  (OpenPlatform.getAvailability NumberToString getToken upstream).
#[local] Abbreviation canBeOrdered :=
  (OpenPlatform.canBeOrdered NumberToString getToken upstream).
#[local] Abbreviation constructOrderParameter :=
  (OpenPlatform.constructOrderParameter NumberToString).
#[local] Abbreviation addBranchParameters :=
  (OpenPlatform.addBranchParameters NumberToString).
#[local] Abbreviation orderData :=
  (OpenPlatform.orderData NumberToString getToken).
#[local] Abbreviation orderOptions :=
  (OpenPlatform.orderOptions NumberToString).
#[local] Abbreviation orderMaterial :=
  (OpenPlatform.orderMaterial NumberToString StringToNumber getToken upstream).
#[local] Abbreviation getUser :=
  (OpenPlatform.getUser NumberToString getToken upstream).
#[local] Abbreviation getBranch :=
  (OpenPlatform.getBranch NumberToString StringToNumber getToken upstream).
#[local] Abbreviation searchParameters :=
  (OpenPlatform.searchParameters NumberToString).
#[local] Abbreviation search :=
  (OpenPlatform.search NumberToString getToken upstream).

(** *** Array parameters *)

Lemma formatUrlArray_well_formed (items : list string) (out : string) :
  formatUrlArray (map JStr items) = Ok out ->
  forallb isWellFormed items = true.
Proof.
  intros Hout. destruct (forallb isWellFormed items) eqn:Hwf;
    [ reflexivity | ].
  rewrite (formatUrlArray_ill_formed _ items Hwf) in Hout. discriminate.
Qed.

(** The array parameter of a list of well-formed strings that is not
    empty reads back: its pieces between the commas decode to the
    items, in order, and one empty piece is behind the trailing comma.
    A list with a string that is not well-formed has no array
    parameter. *)
Theorem formatUrlArray_splits_back (items : list string) :
  items <> [] ->
  (forallb isWellFormed items = true ->
   exists out texts,
     formatUrlArray (map JStr items) = Ok out /\
     split_on ","%char out = (texts ++ [EmptyString])%list /\
     map percent_decode texts = map Some items) /\
  (forallb isWellFormed items = false ->
   formatUrlArray (map JStr items) = Throw URIError).
Proof.
  intros Hne. split.
  - intros Hwf. exists (array_parameter items), (map encoded items).
    split; [ | split ].
    + exact (formatUrlArray_strings _ items Hwf).
    + unfold array_parameter. destruct items as [ | x items]; [ congruence | ].
      apply (split_on_terminated ","%char). apply encoded_items_free.
      reflexivity.
    + clear Hne. induction items as [ | s items IH]; [ reflexivity | ].
      cbn [forallb] in Hwf. apply andb_true_iff in Hwf as [Hs Hitems].
      cbn [map]. rewrite (IH Hitems).
      now rewrite (percent_decode_Encode s _ (Encode_encoded s Hs)).
  - apply formatUrlArray_ill_formed.
Qed.

(** Two lists of strings have the same array parameter only if they are
    the same list, with one exception: the empty list and the list of
    the one empty string both give [","]. *)
Theorem formatUrlArray_injective (a b : list string) (out : string) :
  formatUrlArray (map JStr a) = Ok out ->
  formatUrlArray (map JStr b) = Ok out ->
  a = b \/
  (a = [] /\ b = [EmptyString]) \/ (a = [EmptyString] /\ b = []).
Proof.
  intros Ha Hb.
  pose proof (formatUrlArray_well_formed a out Ha) as Hwa.
  pose proof (formatUrlArray_well_formed b out Hb) as Hwb.
  rewrite (formatUrlArray_strings _ a Hwa) in Ha.
  rewrite (formatUrlArray_strings _ b Hwb) in Hb.
  injection Ha as Ha. injection Hb as Hb.
  assert (Hsplit : forall x l,
             split_on ","%char (array_parameter (x :: l)) =
             (map encoded (x :: l) ++ [EmptyString])%list).
  { intros x l. unfold array_parameter.
    apply (split_on_terminated ","%char), encoded_items_free. reflexivity. }
  assert (Hempty : forall l : list string,
             forallb isWellFormed l = true ->
             l <> [] -> array_parameter l = "," ->
             l = [EmptyString]).
  { intros l Hwl Hl Heq.
    destruct l as [ | x l]; [ congruence | ].
    pose proof (Hsplit x l) as Hs. rewrite Heq in Hs. cbn in Hs.
    destruct l as [ | y l].
    - injection Hs as Hx.
      f_equal. cbn [forallb] in Hwl. rewrite andb_true_r in Hwl.
      apply (encoded_inj x EmptyString Hwl eq_refl).
      now rewrite <- Hx.
    - injection Hs as _ _ Hrest.
      destruct (map encoded l); discriminate. }
  destruct a as [ | x a]; destruct b as [ | y b].
  - now left.
  - right. left. split; [ reflexivity | ].
    apply Hempty; [ exact Hwb | discriminate | ]. now rewrite Hb, <- Ha.
  - right. right. split; [ | reflexivity ].
    apply Hempty; [ exact Hwa | discriminate | ]. now rewrite Ha, <- Hb.
  - left.
    pose proof (Hsplit x a) as Hsa. pose proof (Hsplit y b) as Hsb.
    rewrite Ha in Hsa. rewrite Hb, Hsa in Hsb. apply app_inv_tail in Hsb.
    now apply map_encoded_inj.
Qed.

(** *** The reply to a request *)

(** [request] sends one request whatever comes back, and sends it once:
    a network failure and a response that is not JSON reject the call as
    they are, and a request without a reply leaves it pending. *)
Theorem request_sends_once (path : string) (options : Options)
  (log : list Request) :
  let reply := upstream log (sent path options) in
  fst (request path options log) = push log (sent path options) /\
  (reply = NoReply -> snd (request path options log) = Pending) /\
  (forall t, reply = Unreachable t ->
             snd (request path options log) = Rejected (S t) NetworkError) /\
  (forall t, reply = Answer t None ->
             snd (request path options log) = Rejected (S t) SyntaxError).
Proof.
  intros reply. rewrite request_run. fold reply. simpl.
  split; [ reflexivity | ].
  split; [ | split ]; intros; subst reply;
    match goal with H : upstream _ _ = _ |- _ => rewrite H end; reflexivity.
Qed.

(** A response that is no object: [null] is a TypeError, since
    [statusCode] is read from it; a number, string, boolean or array has
    no [statusCode] and no [error], and is rejected with an empty
    message. *)
Theorem request_response_not_an_object (path : string) (options : Options)
  (log : list Request) (t : nat) (response : JsVal) :
  upstream log (sent path options) = Answer t (Some response) ->
  (forall fields, response <> JObj fields) ->
  snd (request path options log) =
  Rejected (S t) (match response with
                  | JNull | JUndefined => TypeError
                  | _ => JsError EmptyString
                  end).
Proof.
  intros Hreply Hshape. rewrite request_run, Hreply. simpl.
  destruct response; try reflexivity.
  now destruct (Hshape fields).
Qed.

(** The only way [request] returns: the response is an object whose
    [statusCode] is the number 200 and whose [data] is truthy, and what
    is returned is that [data]. *)
Theorem request_fulfilled_only_if (path : string) (options : Options)
  (log : list Request) (t : nat) (data : JsVal) :
  snd (request path options log) = Fulfilled t data ->
  exists t' fields,
    t = S t' /\
    upstream log (sent path options) = Answer t' (Some (JObj fields)) /\
    strict_eq_num (field "statusCode" fields) (num 200) = true /\
    (exists x, field "statusCode" fields = JNum x) /\
    field "data" fields = data /\
    truthy data = true.
Proof.
  rewrite request_run. simpl snd. unfold answered.
  destruct (upstream log (sent path options)) as [ | t' | t' [response | ]];
    try discriminate.
  unfold unwrap.
  destruct response as [ | | b | x | s | items | fields];
    try discriminate.
  simpl get_prop. simpl rbind.
  destruct (strict_eq_num (field "statusCode" fields) (num 200)) eqn:Hs;
    simpl negb; cbv iota.
  - destruct (truthy (field "data" fields)) eqn:Hd; simpl; [ | discriminate ].
    intros [= <- <-]. exists t', fields.
    repeat split; try assumption; try reflexivity.
    destruct (field "statusCode" fields); try discriminate. eauto.
  - destruct (js_Error NumberToString (field "error" fields)); discriminate.
Qed.

(** The message of the error for a status other than 200, by what the
    envelope holds as [error]: empty when there is none, ["null"] for
    [null], ["[object Object]"] for an object; an object with an own
    [toString] property cannot be printed, and the call fails with a
    TypeError instead. *)
Theorem request_error_message (path : string) (options : Options)
  (log : list Request) (t : nat) (fields : list (string * JsVal)) :
  upstream log (sent path options) = Answer t (Some (JObj fields)) ->
  strict_eq_num (field "statusCode" fields) (num 200) = false ->
  let outcome := snd (request path options log) in
  (lookup "error" fields = None ->
   outcome = Rejected (S t) (JsError EmptyString)) /\
  (field "error" fields = JNull -> outcome = Rejected (S t) (JsError "null")) /\
  (forall o, field "error" fields = JObj o ->
             outcome = Rejected (S t) (if has_key "toString" o then TypeError
                                       else JsError "[object Object]")).
Proof.
  intros Hreply Hs outcome. subst outcome.
  rewrite (request_object _ _ _ _ _ _ _ Hreply), Hs. simpl negb. cbv iota.
  split; [ | split ].
  - intros Hnone. unfold field. now rewrite Hnone.
  - now intros ->.
  - intros o ->. simpl. now destruct (has_key "toString" o).
Qed.
(** *** Works and availability *)

Lemma ceil_div_small (n d : nat) : n <= d -> 1 <= d -> ceil_div n d <= 1.
Proof.
  intros Hn Hd. unfold ceil_div.
  apply Nat.lt_succ_r. apply Nat.Div0.div_lt_upper_bound. lia.
Qed.

(** More than [pidLimit] well-formed pids: one request for each chunk,
    in the order of the chunks. *)
Lemma getWork_long_log (pids fields : list string) (log : list Request) :
  OpenPlatform.pidLimit < List.length pids ->
  forallb isWellFormed pids = true ->
  forallb isWellFormed fields = true ->
  fst (getWork (map JStr pids) (map JStr fields) log) =
  (log ++ map (fun c => sent (workPath getToken fields c) no_options)
              (chunk pids OpenPlatform.pidLimit))%list.
Proof.
  intros Hlong Hpids Hfields.
  rewrite getWork_long_run by now rewrite length_map.
  cbv zeta. simpl fst. rewrite chunk_map, map_map.
  pose proof (chunks_well_formed pids OpenPlatform.pidLimit
                ltac:(unfold OpenPlatform.pidLimit; lia) Hpids) as Hwf.
  apply spawn_one_each.
  induction Hwf as [ | c cs Hc _ IH]; simpl; constructor; [ | exact IH ].
  intros log0.
  now rewrite (getWork_request_run _ _ _ c fields log0 Hc Hfields).
Qed.

(** The number of requests of [getWork] for well-formed pids and
    fields: one for up to 20 pids, also for no pid at all, and
    [ceil (n / 20)] beyond.  Up to 20 pids, a pid or a field that is
    not well-formed fails the call with a URIError before anything is
    sent. *)
Theorem getWork_request_count (pids fields : list string)
  (log : list Request) :
  (forallb isWellFormed pids = true ->
   forallb isWellFormed fields = true ->
   List.length (fst (getWork (map JStr pids) (map JStr fields) log)) =
   List.length log + Nat.max 1 (ceil_div (List.length pids) 20)) /\
  (forallb isWellFormed fields = true ->
   fst (getWork [] (map JStr fields) log) =
   push log (sent ("work?access_token=" ++ getToken "library" ++
                   "&fields=" ++ separated "," (map encoded fields) ++
                   "&pids=,") no_options) /\
   Forall2 percent_encoded fields (map encoded fields)) /\
  (List.length pids <= OpenPlatform.pidLimit ->
   forallb isWellFormed (pids ++ fields)%list = false ->
   getWork (map JStr pids) (map JStr fields) log =
   (log, Rejected 0 URIError)).
Proof.
  split; [ | split ].
  - intros Hpids Hfields.
    destruct (Nat.le_gt_cases (List.length pids) OpenPlatform.pidLimit)
      as [Hshort | Hlong].
    + unfold OpenPlatform.getWork.
      rewrite getWork_fuel_short by now rewrite length_map.
      rewrite getWork_request_run by assumption. simpl fst. unfold push.
      rewrite length_app. simpl List.length.
      pose proof (ceil_div_small (List.length pids) 20 Hshort). lia.
    + rewrite (getWork_long_log pids fields log Hlong Hpids Hfields).
      rewrite length_app, length_map.
      rewrite chunk_count by (unfold OpenPlatform.pidLimit; lia).
      change ((List.length pids + OpenPlatform.pidLimit - 1) /
              OpenPlatform.pidLimit) with (ceil_div (List.length pids) 20).
      pose proof (ceil_div_spec (List.length pids) 20).
      unfold OpenPlatform.pidLimit in Hlong. lia.
  - intros Hfields. split; [ | now apply all_percent_encoded ].
    unfold OpenPlatform.getWork.
    rewrite getWork_fuel_short by (simpl; unfold OpenPlatform.pidLimit; lia).
    now rewrite (getWork_request_run _ _ _ [] fields log eq_refl Hfields).
  - intros Hshort Hill. unfold OpenPlatform.getWork.
    rewrite getWork_fuel_short by now rewrite length_map.
    now apply getWork_request_ill_formed.
Qed.

(** When the data of the work request is no list, [getWork] fails with a
    TypeError: [works.filter] is not a function.  (The pids and the
    fields are well-formed strings, as they are whenever a work request
    is made.) *)
Theorem getWork_data_not_a_list (pids fields : list string)
  (log : list Request) (t : nat) (data : JsVal) :
  List.length pids <= OpenPlatform.pidLimit ->
  forallb isWellFormed pids = true ->
  forallb isWellFormed fields = true ->
  snd (request (workPath getToken fields pids) no_options log) =
    Fulfilled t data ->
  (forall works, data <> JArr works) ->
  snd (getWork (map JStr pids) (map JStr fields) log) = Rejected t TypeError.
Proof.
  intros Hlen Hpids Hfields Hrequest Hshape. rewrite request_run in Hrequest.
  simpl snd in Hrequest.
  unfold OpenPlatform.getWork.
  rewrite getWork_fuel_short by now rewrite length_map.
  rewrite getWork_request_run by assumption. simpl snd.
  rewrite (answered_then _ _ _ _ _ Hrequest).
  destruct data; try reflexivity. now destruct (Hshape items).
Qed.

(** [getAvailability] does not chunk: for well-formed pids and fields
    it sends one request with all the pids, however many; a pid or a
    field that is not well-formed fails the call with a URIError before
    anything is sent. *)
Theorem getAvailability_one_request (pids fields : list string)
  (log : list Request) :
  (forallb isWellFormed pids = true ->
   forallb isWellFormed fields = true ->
   fst (getAvailability (map JStr pids) (map JStr fields) log) =
   push log (sent ("availability?access_token=" ++ getToken "library" ++
                   "&fields=" ++ separated "," (map encoded fields) ++
                   "&pids=" ++ array_parameter pids)
                  no_options) /\
   Forall2 percent_encoded (pids ++ fields)%list
           (map encoded (pids ++ fields)%list) /\
   count_char ","%char (array_parameter pids) = Nat.max 1 (List.length pids)) /\
  (forallb isWellFormed (pids ++ fields)%list = false ->
   getAvailability (map JStr pids) (map JStr fields) log =
   (log, Rejected 0 URIError)).
Proof.
  split.
  - intros Hpids Hfields. split; [ | split ].
    + unfold OpenPlatform.getAvailability.
      rewrite bind_lift, formatUrlArray_strings by exact Hpids.
      rewrite bind_lift, formatFields_strings by exact Hfields.
      cbv zeta. now rewrite request_run.
    + apply all_percent_encoded. now rewrite forallb_app, Hpids, Hfields.
    + apply count_commas_array_parameter.
  - intros Hill. rewrite forallb_app in Hill.
    unfold OpenPlatform.getAvailability. rewrite bind_lift.
    destruct (forallb isWellFormed pids) eqn:Hpids.
    + rewrite formatUrlArray_strings by exact Hpids.
      rewrite bind_lift, formatFields_ill_formed by exact Hill. reflexivity.
    + now rewrite formatUrlArray_ill_formed.
Qed.

(** [some] stops at the first record that lends and can be ordered: what
    follows it is not looked at, not even a [null].  A [null] that comes
    before any such record is a TypeError, and so is data that is no
    list. *)
Theorem canBeOrdered_stops_at_first (pids : list JsVal)
  (log log' : list Request) (t : nat) (data : JsVal) :
  getAvailability pids OpenPlatform.getAvailability_default_fields log =
    (log', Fulfilled t data) ->
  (forall before hit after,
      data = JArr (before ++ hit :: after) ->
      Forall (fun r => is_record r = true) before ->
      orderable hit = true ->
      canBeOrdered pids log = (log', Fulfilled t true)) /\
  (forall before after,
      data = JArr (before ++ JNull :: after) ->
      Forall (fun r => is_record r = true) before ->
      existsb orderable before = false ->
      canBeOrdered pids log = (log', Rejected t TypeError)) /\
  ((forall records, data <> JArr records) ->
   canBeOrdered pids log = (log', Rejected t TypeError)).
Proof.
  intros Havailable.
  assert (Hrun : canBeOrdered pids log =
                 (log', settle t (js_some OpenPlatform.illOrderable data))).
  { unfold OpenPlatform.canBeOrdered.
    rewrite (bind_run _ _ _ _ _ _ Havailable), lift_run. simpl.
    now rewrite later_settle, Nat.add_0_r. }
  assert (Hloop : forall before rest,
             Forall (fun r => is_record r = true) before ->
             some_loop OpenPlatform.illOrderable (before ++ rest) =
             if existsb orderable before then Ok true
             else some_loop OpenPlatform.illOrderable rest).
  { intros before rest. induction 1 as [ | r before Hr _ IH];
      [ reflexivity | ].
    simpl. rewrite IH. unfold OpenPlatform.illOrderable, orderable, flag.
    destruct r as [ | | b | x | s | items | fields]; try discriminate;
      simpl; try reflexivity.
    destruct (truthy (field "willLend" fields)) eqn:Hw; simpl.
    - now destruct (truthy (field "orderPossible" fields)).
    - now rewrite Hw. }
  rewrite Hrun. split; [ | split ].
  - intros before hit after -> Hbefore Hhit. simpl js_some.
    rewrite (Hloop before (hit :: after) Hbefore).
    destruct (existsb orderable before); [ reflexivity | ].
    simpl. unfold orderable, flag in Hhit.
    unfold OpenPlatform.illOrderable.
    apply andb_true_iff in Hhit as [Hw Ho].
    destruct (get_prop hit "willLend") as [w | ]; [ | discriminate ].
    simpl. rewrite Hw.
    destruct (get_prop hit "orderPossible") as [o | ]; [ | discriminate ].
    simpl. now rewrite Ho.
  - intros before after -> Hbefore Hnone. simpl js_some.
    now rewrite (Hloop before (JNull :: after) Hbefore), Hnone.
  - intros Hshape. destruct data; try reflexivity.
    now destruct (Hshape items).
Qed.

(** *** Orders: the lookups *)

Lemma getBranch_log (branchId : JsVal) (log : list Request) :
  fst (getBranch branchId log) = fst (getLibraries [] [branchId] log).
Proof.
  unfold OpenPlatform.getBranch. unfold bind at 1.
  destruct (getLibraries [] [branchId] log) as [log1 [t branches | t e | ]];
    try reflexivity.
  rewrite bind_lift.
  destruct (length_less_than NumberToString StringToNumber branches 1)
    as [[ | ] | e]; try reflexivity.
  now rewrite lift_run.
Qed.

Lemma getLibraries_branch_log (branchId : JsVal) (branchText : string)
  (log : list Request) :
  ToString NumberToString branchId = Ok branchText ->
  isWellFormed branchText = true ->
  fst (getLibraries [] [branchId] log) =
  push log (branchRequest getToken branchText).
Proof.
  intros Htext Hwf. unfold OpenPlatform.getLibraries.
  rewrite bind_lift.
  unfold OpenPlatform.librariesParameters, OpenPlatform.formatUrlArray.
  cbn [List.length Nat.ltb Nat.leb mapR rbind].
  unfold encodeURIComponent. rewrite Htext. cbn [rbind].
  rewrite (Encode_encoded _ Hwf). cbn [rbind push app join].
  rewrite request_run. reflexivity.
Qed.

(** A branch whose id cannot be encoded is not looked up. *)
Lemma getBranch_ill_formed (branchId : JsVal) (branchText : string)
  (log : list Request) :
  ToString NumberToString branchId = Ok branchText ->
  isWellFormed branchText = false ->
  getBranch branchId log = (log, Rejected 0 URIError).
Proof.
  intros Htext Hill. unfold OpenPlatform.getBranch, OpenPlatform.getLibraries.
  unfold bind at 1. rewrite bind_lift.
  unfold OpenPlatform.librariesParameters, OpenPlatform.formatUrlArray.
  cbn [List.length Nat.ltb Nat.leb mapR rbind].
  unfold encodeURIComponent. rewrite Htext. cbn [rbind].
  rewrite (Encode_ill_formed _ Hill). reflexivity.
Qed.

Lemma lookups_log (pickupBranch : JsVal) (branchText : string)
  (log : list Request) :
  ToString NumberToString pickupBranch = Ok branchText ->
  isWellFormed branchText = true ->
  fst (Promise_all [getUser; getBranch pickupBranch] log) =
  (log ++ [userRequest getToken; branchRequest getToken branchText])%list.
Proof.
  intros Htext Hwf. rewrite Promise_all_run. simpl fst. simpl spawn.
  unfold OpenPlatform.getUser at 1. rewrite request_run.
  pose proof (getBranch_log pickupBranch
                (push log (sent ("user?access_token=" ++ getToken "user")
                                no_options))) as Hlog.
  rewrite (getLibraries_branch_log _ _ _ Htext Hwf) in Hlog.
  destruct (getBranch pickupBranch _) as [log2 p]. simpl in *.
  rewrite Hlog. unfold push, userRequest. now rewrite <- app_assoc.
Qed.

(** The lookups for a branch whose id cannot be encoded: the user is
    asked for, and the call fails at once. *)
Lemma lookups_ill_formed (pickupBranch : JsVal) (branchText : string)
  (log : list Request) :
  ToString NumberToString pickupBranch = Ok branchText ->
  isWellFormed branchText = false ->
  Promise_all [getUser; getBranch pickupBranch] log =
  ((log ++ [userRequest getToken])%list, Rejected 0 URIError).
Proof.
  intros Htext Hill. unfold Promise_all. cbn [spawn].
  unfold OpenPlatform.getUser. rewrite request_run.
  rewrite (getBranch_ill_formed _ _ _ Htext Hill).
  fold (userRequest getToken). unfold push.
  f_equal. unfold settle_all. cbn [first_rejection].
  destruct (upstream log (userRequest getToken)) as [ | t | t [response | ]];
    cbn [answered]; try reflexivity.
  destruct (unwrap NumberToString response); reflexivity.
Qed.

(** [orderMaterial] looks up the user and the branch first, and sends
    the order only when it has both and could add what the branch
    requires: when a lookup fails (no such branch, say), or never
    answers, or the requirements of the branch cannot be read, the two
    lookups are all that was sent.  The branch that is looked up is
    [null] when none is given.  When the id of the branch is not a
    well-formed string, only the user is looked up and the call fails
    with a URIError.  When the order itself cannot be built, nothing is
    sent. *)
Theorem orderMaterial_orders_last (pids : list JsVal)
  (pickupBranch expires : JsVal) (log : list Request) :
  let branchId := or_default JNull pickupBranch in
  let both := Promise_all [getUser; getBranch branchId] log in
  let result := orderMaterial pids pickupBranch expires log in
  (forall e, orderData pids pickupBranch expires = Throw e ->
             result = (log, Rejected 0 e)) /\
  (forall d0 branchText,
      orderData pids pickupBranch expires = Ok d0 ->
      ToString NumberToString branchId = Ok branchText ->
      isWellFormed branchText = false ->
      result = ((log ++ [userRequest getToken])%list, Rejected 0 URIError)) /\
  (forall d0 branchText,
      orderData pids pickupBranch expires = Ok d0 ->
      ToString NumberToString branchId = Ok branchText ->
      isWellFormed branchText = true ->
      let lookups :=
        (log ++ [userRequest getToken; branchRequest getToken branchText])%list in
      percent_encoded branchText (encoded branchText) /\
      fst both = lookups /\
      (forall t e, snd both = Rejected t e -> result = (lookups, Rejected t e)) /\
      (snd both = Pending -> result = (lookups, Pending)) /\
      (forall t answers e,
          snd both = Fulfilled t answers ->
          addBranchParameters (nth 0 answers JUndefined)
                              (nth 1 answers JUndefined) d0 = Throw e ->
          result = (lookups, Rejected t e)) /\
      (forall t answers d,
          snd both = Fulfilled t answers ->
          addBranchParameters (nth 0 answers JUndefined)
                              (nth 1 answers JUndefined) d0 = Ok d ->
          fst result =
          push lookups (sent ("order?" ++ join "&" (OpenPlatform.parameters d))
                             (orderOptions d)))).
Proof.
  intros branchId both result. subst result.
  unfold OpenPlatform.orderMaterial. rewrite bind_lift.
  split; [ | split ].
  - intros e ->. reflexivity.
  - intros d0 branchText Hd0 Htext Hill. rewrite Hd0.
    fold branchId.
    pose proof (lookups_ill_formed branchId branchText log Htext Hill)
      as Hboth.
    now rewrite (bind_rejected _ _ _ _ _ _ Hboth).
  - intros d0 branchText Hd0 Htext Hwf. rewrite Hd0.
    fold branchId.
    set (lookups := (log ++ _)%list).
    pose proof (lookups_log branchId branchText log Htext Hwf) as Hlog.
    fold lookups in Hlog. subst both.
    destruct (Promise_all [getUser; getBranch branchId] log)
      as [log1 p] eqn:Hboth.
    simpl in Hlog. subst log1. simpl snd. simpl fst.
    split; [ now apply encoded_percent_encoded | ].
    split; [ reflexivity | ].
    split; [ | split; [ | split ] ].
    + intros t e Hp. rewrite Hp in Hboth.
      now rewrite (bind_rejected _ _ _ _ _ _ Hboth).
    + intros Hp. rewrite Hp in Hboth.
      now rewrite (bind_pending _ _ _ _ Hboth).
    + intros t answers e Hp Hthrow. rewrite Hp in Hboth.
      rewrite (bind_run _ _ _ _ _ _ Hboth).
      rewrite bind_lift, Hthrow. simpl. now rewrite Nat.add_0_r.
    + intros t answers d Hp Hd. rewrite Hp in Hboth.
      rewrite (bind_run _ _ _ _ _ _ Hboth).
      rewrite bind_lift, Hd, request_run. reflexivity.
Qed.

(** *** Orders: repeated requirements *)

Lemma has_key_keys (k : string) (fs : list (string * JsVal)) :
  has_key k fs = true <-> In k (keys fs).
Proof.
  clear getToken StringToNumber NumberToString.
  unfold has_key, keys.
  induction fs as [ | [k0 v0] fs IH]; simpl.
  - split; [ discriminate | tauto ].
  - destruct (string_eqb_spec k k0) as [-> | Hne].
    + split; auto.
    + rewrite IH. split; [ auto | ]. intros [H | H]; [ congruence | exact H ].
Qed.

Lemma keys_set_prop (k : string) (v : JsVal) (fs : list (string * JsVal)) :
  keys (set_prop k v fs) =
  if has_key k fs then keys fs else (keys fs ++ [k])%list.
Proof.
  unfold keys, has_key.
  induction fs as [ | [k0 v0] fs IH]; simpl; [ reflexivity | ].
  destruct (string_eqb_spec k k0) as [-> | Hne]; simpl; [ reflexivity | ].
  rewrite IH. now destruct (lookup k fs).
Qed.

(** Setting a property never makes a key appear twice. *)
Lemma NoDup_set_prop (k : string) (v : JsVal) (fs : list (string * JsVal)) :
  NoDup (keys fs) -> NoDup (keys (set_prop k v fs)).
Proof.
  clear getToken StringToNumber NumberToString.
  intros Hfs. rewrite keys_set_prop.
  destruct (has_key k fs) eqn:Hk; [ exact Hfs | ].
  apply NoDup_app; [ exact Hfs | repeat constructor; tauto | ].
  intros x Hx [<- | []]. apply has_key_keys in Hx. congruence.
Qed.

Lemma count_named_push (k p : string) (ps : list string) :
  count_named k (push ps p) =
  count_named k ps + (if JsString.eqb (param_name p) k then 1 else 0).
Proof.
  unfold count_named, push. rewrite filter_app, length_app. simpl.
  now destruct (JsString.eqb (param_name p) k).
Qed.

Lemma forEach_counts (user : JsVal) (items : list JsVal) :
  forall d d' : OpenPlatform.OrderData,
  forEach_loop (constructOrderParameter user) items d = Ok d' ->
  (NoDup (keys (OpenPlatform.body_fields d)) ->
   NoDup (keys (OpenPlatform.body_fields d'))) /\
  (forall k, In k supplied ->
             count_named k (OpenPlatform.parameters d') =
             count_named k (OpenPlatform.parameters d) +
             count_required k items) /\
  (forall k, ~ In k supplied ->
             count_named k (OpenPlatform.parameters d') =
             count_named k (OpenPlatform.parameters d)).
Proof.
  induction items as [ | item items IH]; intros d d'; simpl.
  - intros [= <-]. unfold count_required. simpl.
    split; [ auto | split; intros; lia ].
  - destruct (constructOrderParameter user item d) as [d1 | ] eqn:Hstep;
      [ | discriminate ].
    simpl rbind. intros Hrest.
    destruct (IH d1 d' Hrest) as [Hdup [Hsupplied Hother]].
    unfold count_required in *. simpl filter.
    destruct (constructOrderParameter_cases _ _ _ _ _ Hstep)
      as [[-> Hnot] | [k' [v [text [Hk' [Hitem [Htext ->]]]]]]].
    + split; [ exact Hdup | split; [ | exact Hother ] ].
      intros k Hk. rewrite (Hsupplied k Hk).
      destruct (strict_eq_str item k) eqn:Heq; [ | reflexivity ].
      apply strict_eq_str_true in Heq. now apply Hnot in Heq.
    + unfold OpenPlatform.set_body, OpenPlatform.push_parameter in *.
      cbn [OpenPlatform.body_fields OpenPlatform.parameters] in *.
      split; [ | split ].
      * intros Hd. apply Hdup. now apply NoDup_set_prop.
      * intros k Hk. rewrite (Hsupplied k Hk), count_named_push.
        rewrite (param_name_supplied k' text Hk'). subst item. simpl.
        destruct (JsString.eqb k' k); simpl; lia.
      * intros k Hk. rewrite (Hother k Hk), count_named_push.
        rewrite (param_name_supplied k' text Hk').
        destruct (string_eqb_spec k' k) as [-> | _]; [ contradiction | lia ].
Qed.

(** A requirement that a branch lists twice is sent twice in the URL and
    once in the body: when no value put into the URL holds an [&] or a
    [#], the URL of the order that [orderMaterial] sends has one
    parameter for every time a supplied name is listed, and one of each
    fixed name and of the access token, while no key of the body object
    is there twice. *)
Theorem orderMaterial_repeated_requirements (pids : list JsVal)
  (pickupBranch expires : JsVal) (log log1 : list Request) (t : nat)
  (user branch : JsVal) (orderParameters : list JsVal)
  (d0 d : OpenPlatform.OrderData) :
  orderData pids pickupBranch expires = Ok d0 ->
  Promise_all [getUser; getBranch (or_default JNull pickupBranch)] log =
    (log1, Fulfilled t [user; branch]) ->
  get_prop branch "orderParameters" = Ok (JArr orderParameters) ->
  addBranchParameters user branch d0 = Ok d ->
  forallb plain (OpenPlatform.parameters d) = true ->
  exists order,
    fst (orderMaterial pids pickupBranch expires log) = push log1 order /\
    body (init order) =
      JSON_stringify NumberToString (JObj (OpenPlatform.body_fields d)) /\
    NoDup (keys (OpenPlatform.body_fields d)) /\
    (forall k, In k supplied ->
               count_named k (url_parameters (url order)) =
               count_required k orderParameters) /\
    (forall k, In k ("access_token" :: fixed) ->
               count_named k (url_parameters (url order)) = 1).
Proof.
  intros Hd0 Hboth Hrequired Hd Hplain.
  assert (Hloop : forEach_loop (constructOrderParameter user)
                               orderParameters d0 = Ok d).
  { unfold OpenPlatform.addBranchParameters in Hd.
    now rewrite Hrequired in Hd. }
  exists (sent ("order?" ++ join "&" (OpenPlatform.parameters d))
               (orderOptions d)).
  rewrite (orderMaterial_run _ _ _ _ _ _ _ _ _ _ _ _ _ _ Hd0 Hboth Hd).
  rewrite (order_url_parameters _ StringToNumber _ _ _ _ _ _ _ _ Hd0 Hloop Hplain).
  split; [ reflexivity | split; [ reflexivity | ] ].
  destruct (forEach_counts user orderParameters d0 d Hloop)
    as [Hdup [Hsupplied Hother]].
  destruct (orderData_ok _ _ _ _ _ _ Hd0) as [et [bt [fmt [_ [_ [_ Hd0eq]]]]]].
  rewrite Hd0eq in Hdup, Hsupplied, Hother.
  cbn [OpenPlatform.body_fields OpenPlatform.parameters] in *.
  split; [ | split ].
  - apply Hdup. unfold keys. simpl.
    repeat constructor; simpl; intuition discriminate.
  - intros k Hk. rewrite (Hsupplied k Hk).
    unfold supplied in Hk. simpl in Hk.
    destruct Hk as [<- | [<- | [<- | [<- | []]]]]; reflexivity.
  - intros k Hk. rewrite Hother.
    + unfold fixed in Hk. simpl in Hk.
      destruct Hk as [<- | [<- | [<- | [<- | [<- | []]]]]]; reflexivity.
    + unfold fixed, supplied in *. simpl in *.
      intros H. intuition (subst; discriminate).
Qed.

(** *** What the client sends *)

Lemma issues_request (P : Request -> Prop) (path : string)
  (options : Options) :
  P (sent path options) -> issues P (request path options).
Proof.
  intros HP log. exists [sent path options].
  rewrite request_run. split; [ reflexivity | now repeat constructor ].
Qed.

Lemma well_formed_get (path : string) : well_formed (sent path no_options).
Proof.
  unfold well_formed, sent. cbn [url init].
  split; [ | split ].
  - exact (prefix_app (OpenPlatform.baseUrl ++ "/") path).
  - eexists. split; [ reflexivity | now left ].
  - left. split; reflexivity.
Qed.

Lemma well_formed_order (rest : string) (d : OpenPlatform.OrderData) :
  well_formed (sent ("order?" ++ rest) (orderOptions d)).
Proof.
  unfold well_formed, sent. cbn [url init].
  split; [ | split ].
  - exact (prefix_app (OpenPlatform.baseUrl ++ "/") ("order?" ++ rest)).
  - eexists. split; [ reflexivity | now left ].
  - right. unfold is_order_post. cbn [url init].
    split; [ reflexivity | split; [ | split ] ].
    + eexists. split; [ reflexivity | right; now left ].
    + eexists. reflexivity.
    + exact (prefix_app (OpenPlatform.baseUrl ++ "/order?") rest).
Qed.

(** Closes [issues] goals along the structure of a method. *)
Ltac sends :=
  repeat first
    [ apply issues_request
    | apply issues_lift | apply issues_throw | apply issues_ret
    | apply issues_never
    | apply issues_bind; [ | intros ? ] ].

Lemma getWork_request_issues (P : Request -> Prop)
  (pids fields : list JsVal) :
  (forall f p, P (sent ("work?access_token=" ++ getToken "library" ++
                        "&fields=" ++ f ++ "&pids=" ++ p) no_options)) ->
  issues P (getWork_request pids fields).
Proof. intros HP. unfold OpenPlatform.getWork_request. sends. apply HP. Qed.

Lemma getWork_fuel_issues (P : Request -> Prop) (fuel : nat) :
  (forall f p, P (sent ("work?access_token=" ++ getToken "library" ++
                        "&fields=" ++ f ++ "&pids=" ++ p) no_options)) ->
  forall pids fields, issues P (getWork_fuel fuel pids fields).
Proof.
  intros HP. induction fuel as [ | fuel IH]; intros pids fields; simpl.
  - apply issues_never.
  - destruct (OpenPlatform.pidLimit <? List.length pids)%nat.
    + apply issues_bind; [ | intros results; apply issues_ret ].
      apply issues_Promise_all. apply Forall_forall.
      intros call Hcall. apply in_map_iff in Hcall as [c [<- _]]. apply IH.
    + now apply getWork_request_issues.
Qed.

Lemma getAvailability_issues (P : Request -> Prop)
  (pids fields : list JsVal) :
  (forall f p, P (sent ("availability?access_token=" ++ getToken "library" ++
                        "&fields=" ++ f ++ "&pids=" ++ p) no_options)) ->
  issues P (getAvailability pids fields).
Proof. intros HP. unfold OpenPlatform.getAvailability. sends. apply HP. Qed.

(** The parameters of [getLibraries] start with the access token. *)
Lemma librariesParameters_head (agencyIds branchIds : list JsVal)
  (ps : list string) :
  OpenPlatform.librariesParameters NumberToString getToken
    agencyIds branchIds = Ok ps ->
  exists more, ps = ("access_token=" ++ getToken "library") :: more.
Proof.
  unfold OpenPlatform.librariesParameters.
  destruct (0 <? List.length agencyIds)%nat;
    [ destruct (formatUrlArray agencyIds); [ | discriminate ] | ];
    simpl rbind;
    (destruct (0 <? List.length branchIds)%nat;
     [ destruct (formatUrlArray branchIds); [ | discriminate ] | ]);
    simpl rbind; intros [= <-]; eexists; reflexivity.
Qed.

Lemma getLibraries_issues (P : Request -> Prop)
  (agencyIds branchIds : list JsVal) :
  (forall more,
      P (sent ("libraries?" ++
               join "&" (("access_token=" ++ getToken "library") :: more))
              no_options)) ->
  issues P (getLibraries agencyIds branchIds).
Proof.
  intros HP. unfold OpenPlatform.getLibraries.
  apply issues_bind_lift. intros ps Hps.
  destruct (librariesParameters_head _ _ _ Hps) as [more ->].
  apply issues_request, HP.
Qed.

Lemma getBranch_issues (P : Request -> Prop) (branchId : JsVal) :
  (forall more,
      P (sent ("libraries?" ++
               join "&" (("access_token=" ++ getToken "library") :: more))
              no_options)) ->
  issues P (getBranch branchId).
Proof.
  intros HP. unfold OpenPlatform.getBranch.
  apply issues_bind; [ now apply getLibraries_issues | intros branches ].
  apply issues_bind; [ apply issues_lift | intros [ | ] ]; sends.
Qed.

(** Every request that a method of the client sends goes to the base
    URL and asks for JSON; it is a GET without a body, but for the order,
    which is a POST of a JSON text to the order endpoint.  A method only
    adds to the log of requests. *)
Theorem client_requests_well_formed :
  (forall path, issues well_formed (request path no_options)) /\
  (forall pids fields, issues well_formed (getWork pids fields)) /\
  (forall pids fields, issues well_formed (getAvailability pids fields)) /\
  (forall pids, issues well_formed (canBeOrdered pids)) /\
  issues well_formed getUser /\
  (forall agencyIds branchIds,
      issues well_formed (getLibraries agencyIds branchIds)) /\
  (forall branchId, issues well_formed (getBranch branchId)) /\
  (forall query options, issues well_formed (search query options)) /\
  (forall pids pickupBranch expires,
      issues well_formed (orderMaterial pids pickupBranch expires)).
Proof.
  repeat match goal with |- _ /\ _ => split end.
  - intros. apply issues_request, well_formed_get.
  - intros. apply getWork_fuel_issues. intros. apply well_formed_get.
  - intros. apply getAvailability_issues. intros. apply well_formed_get.
  - intros. unfold OpenPlatform.canBeOrdered.
    apply issues_bind; [ | intros; apply issues_lift ].
    apply getAvailability_issues. intros. apply well_formed_get.
  - unfold OpenPlatform.getUser. sends. apply well_formed_get.
  - intros. apply getLibraries_issues. intros. apply well_formed_get.
  - intros. apply getBranch_issues. intros. apply well_formed_get.
  - intros. unfold OpenPlatform.search. sends. apply well_formed_get.
  - intros. unfold OpenPlatform.orderMaterial.
    apply issues_bind; [ apply issues_lift | intros d ].
    apply issues_bind.
    + apply issues_Promise_all. repeat constructor.
      * unfold OpenPlatform.getUser. sends. apply well_formed_get.
      * apply getBranch_issues. intros. apply well_formed_get.
    + intros both. cbv zeta.
      apply issues_bind; [ apply issues_lift | intros d' ].
      apply issues_request, well_formed_order.
Qed.
(** *** Access tokens *)

Lemma with_token_join (ep aud : string) (more : list string)
  (options : Options) :
  with_token getToken ep aud
    (sent (ep ++ "?" ++ join "&" (("access_token=" ++ getToken aud) :: more))
          options).
Proof.
  unfold with_token, sent. cbn [url]. rewrite join_head.
  exists (match more with
          | [] => EmptyString
          | _ => "&" ++ join "&" more
          end).
  split.
  - rewrite !string_app_assoc. reflexivity.
  - destruct more; [ now left | right; apply (prefix_app "&") ].
Qed.

Lemma forEach_parameters_extend (user : JsVal) (items : list JsVal) :
  forall d d' : OpenPlatform.OrderData,
  forEach_loop (constructOrderParameter user) items d = Ok d' ->
  exists extra,
    OpenPlatform.parameters d' = (OpenPlatform.parameters d ++ extra)%list.
Proof.
  induction items as [ | item items IH]; intros d d'; simpl.
  - intros [= <-]. exists []. now rewrite app_nil_r.
  - destruct (constructOrderParameter user item d) as [d1 | ] eqn:Hstep;
      [ | discriminate ].
    simpl rbind. intros Hrest. destruct (IH d1 d' Hrest) as [extra ->].
    destruct (constructOrderParameter_cases _ _ _ _ _ Hstep)
      as [[-> _] | [k [v [text [_ [_ [_ ->]]]]]]].
    + now exists extra.
    + unfold OpenPlatform.set_body, OpenPlatform.push_parameter, push.
      cbn [OpenPlatform.parameters]. rewrite <- app_assoc. eauto.
Qed.

(** The parameters of an order start with the access token of the
    user. *)
Lemma order_parameters_head (pids : list JsVal)
  (pickupBranch expires user branch : JsVal) (d0 d : OpenPlatform.OrderData) :
  orderData pids pickupBranch expires = Ok d0 ->
  addBranchParameters user branch d0 = Ok d ->
  exists more,
    OpenPlatform.parameters d = ("access_token=" ++ getToken "user") :: more.
Proof.
  intros Hd0 Hd. unfold OpenPlatform.addBranchParameters in Hd.
  destruct (get_prop branch "orderParameters") as [required | ];
    [ | discriminate ].
  simpl rbind in Hd. destruct required; try discriminate.
  simpl in Hd. destruct (forEach_parameters_extend _ _ _ _ Hd) as [extra ->].
  destruct (orderData_ok _ _ _ _ _ _ Hd0) as [et [bt [fmt [_ [_ [_ ->]]]]]].
  cbn [OpenPlatform.parameters]. simpl. eauto.
Qed.

(** Every request carries an access token as its first parameter, and
    the token is that of the audience of the endpoint: the library token
    for works, availability, libraries and search, the user token for
    the user and for an order. *)
Theorem client_requests_carry_token :
  (forall pids fields,
      issues (with_token getToken "work" "library") (getWork pids fields)) /\
  (forall pids fields,
      issues (with_token getToken "availability" "library")
             (getAvailability pids fields)) /\
  (forall pids,
      issues (with_token getToken "availability" "library")
             (canBeOrdered pids)) /\
  issues (with_token getToken "user" "user") getUser /\
  (forall agencyIds branchIds,
      issues (with_token getToken "libraries" "library")
             (getLibraries agencyIds branchIds)) /\
  (forall branchId,
      issues (with_token getToken "libraries" "library")
             (getBranch branchId)) /\
  (forall query options,
      issues (with_token getToken "search" "library") (search query options)) /\
  (forall pids pickupBranch expires,
      issues (fun r => with_token getToken "user" "user" r \/
                       with_token getToken "libraries" "library" r \/
                       with_token getToken "order" "user" r)
             (orderMaterial pids pickupBranch expires)).
Proof.
  assert (Huser : with_token getToken "user" "user"
                    (sent ("user?access_token=" ++ getToken "user") no_options)).
  { exists EmptyString. split; [ | now left ].
    now rewrite string_app_nil_r. }
  assert (Hfields : forall ep f p,
             with_token getToken ep "library"
               (sent ((ep ++ "?access_token=") ++ getToken "library" ++
                      "&fields=" ++ f ++ "&pids=" ++ p) no_options)).
  { intros ep f p. eexists.
    split; [ reflexivity | right; apply (prefix_app "&") ]. }
  repeat match goal with |- _ /\ _ => split end.
  - intros. apply getWork_fuel_issues. intros f p. apply (Hfields "work").
  - intros. apply getAvailability_issues. intros f p.
    apply (Hfields "availability").
  - intros. unfold OpenPlatform.canBeOrdered.
    apply issues_bind; [ | intros; apply issues_lift ].
    apply getAvailability_issues. intros f p. apply (Hfields "availability").
  - unfold OpenPlatform.getUser. sends. exact Huser.
  - intros. apply getLibraries_issues. intros more.
    apply (with_token_join "libraries" "library").
  - intros. apply getBranch_issues. intros more.
    apply (with_token_join "libraries" "library").
  - intros. unfold OpenPlatform.search. sends.
    eexists. split; [ reflexivity | right; apply (prefix_app "&") ].
  - intros. unfold OpenPlatform.orderMaterial.
    apply issues_bind_lift. intros d0 Hd0.
    apply issues_bind.
    + apply issues_Promise_all. repeat constructor.
      * unfold OpenPlatform.getUser. sends. now left.
      * apply getBranch_issues. intros more. right. left.
        apply (with_token_join "libraries" "library").
    + intros both. cbv zeta.
      apply issues_bind_lift. intros d Hd.
      destruct (order_parameters_head _ _ _ _ _ _ _ Hd0 Hd) as [more ->].
      apply issues_request. right. right.
      apply (with_token_join "order" "user").
Qed.
(** *** A branch that is no list *)

(** When the lookup returns one object and no list, [getBranch] does not
    fail: an object without [length] is not shorter than one, and what
    is returned is its property [0], [undefined] when it has none. *)
Theorem getBranch_single_object (branchId : JsVal) (log log' : list Request)
  (t : nat) (fields : list (string * JsVal)) :
  getLibraries [] [branchId] log = (log', Fulfilled t (JObj fields)) ->
  lookup "length" fields = None ->
  getBranch branchId log = (log', Fulfilled t (field "0" fields)) /\
  (lookup "0" fields = None ->
   getBranch branchId log = (log', Fulfilled t JUndefined)).
Proof.
  intros Hlibraries Hlength.
  assert (Hrun : getBranch branchId log =
                 (log', Fulfilled t (field "0" fields))).
  { unfold OpenPlatform.getBranch.
    rewrite (bind_run _ _ _ _ _ _ Hlibraries).
    rewrite bind_lift. unfold length_less_than, field.
    rewrite Hlength. settled. }
  split; [ exact Hrun | ].
  intros Hzero. rewrite Hrun. unfold field. now rewrite Hzero.
Qed.

(** *** Search *)

(** What [searchParameters] returns. *)
Lemma searchParameters_ok (options : OpenPlatform.SearchOptions)
  (ps : list string) :
  searchParameters options = Ok ps ->
  exists lt st ft,
    ps = ((if truthy (OpenPlatform.limit options)
           then [("limit=" ++ lt)%js] else []) ++
          (if truthy (OpenPlatform.sort options)
           then [("sort=" ++ st)%js] else []) ++
          (if truthy (OpenPlatform.fields options)
           then [("fields=" ++ ft)%js] else []))%list /\
    (truthy (OpenPlatform.fields options) = true ->
     match OpenPlatform.fields options with
     | JArr items => formatUrlArray items
     | _ => Throw TypeError
     end = Ok ft).
Proof.
  unfold OpenPlatform.searchParameters.
  destruct (truthy (OpenPlatform.limit options));
    [ destruct (ToString NumberToString (OpenPlatform.limit options)) as [lt | ];
      [ | discriminate ] | ];
    simpl rbind;
    (destruct (truthy (OpenPlatform.sort options));
     [ destruct (ToString NumberToString (OpenPlatform.sort options)) as [st | ];
       [ | discriminate ] | ]);
    simpl rbind;
    (destruct (truthy (OpenPlatform.fields options));
     [ destruct (match OpenPlatform.fields options with
                 | JArr items => formatUrlArray items
                 | _ => Throw TypeError
                 end) as [ft | ]; [ | discriminate ] | ]);
    simpl rbind; intros [= <-];
    first [ exists lt | exists EmptyString ];
    first [ exists st | exists EmptyString ];
    first [ exists ft | exists EmptyString ];
    (split; [ reflexivity | intros; first [ reflexivity | discriminate ] ]).
Qed.

(** The request of [search] for a well-formed query. *)
Lemma search_run (query : string) (options : OpenPlatform.SearchOptions)
  (ps : list string) (offsetText : string) (log : list Request) :
  searchParameters options = Ok ps ->
  ToString NumberToString
    (or_default (JNum (num 0)) (OpenPlatform.offset options)) = Ok offsetText ->
  isWellFormed query = true ->
  fst (search (JStr query) options log) =
  push log (sent ("search?access_token=" ++ getToken "library" ++
                  "&q=" ++ encoded query ++
                  "&offset=" ++ offsetText ++ "&" ++ join "&" ps)
                 no_options).
Proof.
  intros Hps Hoffset Hwf.
  unfold OpenPlatform.search. cbv zeta.
  rewrite bind_lift, Hps. cbv iota beta zeta.
  rewrite bind_lift. unfold encodeURIComponent. cbn [ToString rbind].
  rewrite (Encode_encoded query Hwf).
  rewrite bind_lift, Hoffset.
  now rewrite request_run.
Qed.

(** The parameters of the URL that [search] sends, when no value put
    into it holds an [&] or a [#] of its own (the token, the offset, the
    limit and the sort are not encoded): the three that are always
    there, and an optional one if and only if the option is truthy.  A
    limit of [0] and an empty sort are left out like missing ones, while
    an empty list of fields is truthy and is sent, as [fields=,]. *)
Theorem search_optional_parameters (query : string)
  (options : OpenPlatform.SearchOptions) (ps : list string)
  (offsetText : string) (log : list Request) :
  searchParameters options = Ok ps ->
  ToString NumberToString
    (or_default (JNum (num 0)) (OpenPlatform.offset options)) = Ok offsetText ->
  isWellFormed query = true ->
  plain (getToken "library") = true ->
  plain offsetText = true ->
  forallb plain ps = true ->
  exists r,
    fst (search (JStr query) options log) = push log r /\
    percent_encoded query (encoded query) /\
    url_parameters (url r) =
      (("access_token=" ++ getToken "library")%js ::
       ("q=" ++ encoded query)%js ::
       ("offset=" ++ offsetText)%js :: ps)%list /\
    (In "limit" (url_names (url r)) <->
     truthy (OpenPlatform.limit options) = true) /\
    (In "sort" (url_names (url r)) <->
     truthy (OpenPlatform.sort options) = true) /\
    (In "fields" (url_names (url r)) <->
     truthy (OpenPlatform.fields options) = true) /\
    (OpenPlatform.limit options = JNum (num 0) ->
     ~ In "limit" (url_names (url r))) /\
    (OpenPlatform.fields options = JArr [] ->
     In "fields=," (url_parameters (url r))).
Proof.
  clear StringToNumber.
  intros Hps Hoffset Hwf Htoken Hoff Hplain.
  eexists. split; [ exact (search_run query options ps offsetText log
                             Hps Hoffset Hwf) | ].
  split; [ now apply encoded_percent_encoded | ].
  set (a := ("access_token=" ++ getToken "library")%js).
  set (b := ("q=" ++ encoded query)%js).
  set (c := ("offset=" ++ offsetText)%js).
  set (qs := (a :: b :: c ::
              match ps with [] => [EmptyString] | _ => ps end)%list).
  assert (Hpath : "search?access_token=" ++ getToken "library" ++
                  "&q=" ++ encoded query ++
                  "&offset=" ++ offsetText ++ "&" ++ join "&" ps =
                  "search" ++ "?" ++ join "&" qs).
  { subst qs a b c. destruct ps as [ | p ps']; cbn [join].
    - rewrite !string_app_assoc. reflexivity.
    - rewrite !string_app_assoc. reflexivity. }
  destruct (searchParameters_ok options ps Hps) as [lt [st [ft [Hform Hft]]]].
  assert (Hfull : forallb not_empty ps = true).
  { rewrite Hform.
    destruct (truthy (OpenPlatform.limit options));
      destruct (truthy (OpenPlatform.sort options));
      destruct (truthy (OpenPlatform.fields options)); reflexivity. }
  assert (Hparams :
            url_parameters
              (url (sent ("search?access_token=" ++ getToken "library" ++
                          "&q=" ++ encoded query ++
                          "&offset=" ++ offsetText ++ "&" ++ join "&" ps)
                         no_options)) = (a :: b :: c :: ps)%list).
  { rewrite Hpath, url_parameters_sent; try reflexivity.
    - subst qs a b c. cbn [filter not_empty].
      destruct ps as [ | p ps']; [ reflexivity | ].
      now rewrite (filter_not_empty _ Hfull).
    - subst qs. discriminate.
    - subst qs a b c. cbn [forallb].
      rewrite !plain_app, Htoken, Hoff, plain_encoded.
      destruct ps as [ | p ps']; [ reflexivity | ].
      rewrite Hplain. reflexivity. }
  split; [ exact Hparams | ].
  unfold url_names. rewrite Hparams. subst a b c. cbn [map].
  assert (Hin : forall k (x y z : list string),
             In k (map param_name (x ++ y ++ z)) <->
             In k (map param_name x) \/ In k (map param_name y) \/
             In k (map param_name z)).
  { intros. now rewrite !map_app, !in_app_iff. }
  rewrite Hform.
  change (param_name ("access_token=" ++ getToken "library"))
    with "access_token".
  change (param_name ("q=" ++ encoded query)) with "q".
  change (param_name ("offset=" ++ offsetText)) with "offset".
  destruct (truthy (OpenPlatform.limit options)) eqn:Hl;
    destruct (truthy (OpenPlatform.sort options)) eqn:Hs;
    destruct (truthy (OpenPlatform.fields options)) eqn:Hf;
    (split; [ | split; [ | split; [ | split ] ] ]);
    try (cbn [In]; rewrite Hin; simpl; intuition discriminate);
    try (intros Hzero; rewrite Hzero in Hl; discriminate);
    try (intros Hempty; rewrite Hempty in Hf; discriminate);
    try (intros Hzero; cbn [In]; rewrite Hin; simpl; intuition discriminate);
    intros Hempty; specialize (Hft eq_refl); rewrite Hempty in Hft;
    injection Hft as <-; cbn [In]; rewrite !in_app_iff; simpl; auto 10.
Qed.

(** The request of [search] for a query string: a well-formed query is
    percent-encoded, so that it holds no [&] or [=] of its own, and a
    query that is not well-formed fails the call with a URIError before
    anything is sent; the offset is [0] when none is given; and with no
    optional parameter the path ends in a [&]. *)
Theorem search_request (query : string) (options : OpenPlatform.SearchOptions)
  (ps : list string) (offsetText : string) (log : list Request) :
  searchParameters options = Ok ps ->
  ToString NumberToString
    (or_default (JNum (num 0)) (OpenPlatform.offset options)) = Ok offsetText ->
  (isWellFormed query = true ->
   fst (search (JStr query) options log) =
     push log (sent ("search?access_token=" ++ getToken "library" ++
                     "&q=" ++ encoded query ++
                     "&offset=" ++ offsetText ++ "&" ++ separated "&" ps)
                    no_options) /\
   percent_encoded query (encoded query) /\
   count_char "&"%char (encoded query) = 0 /\
   count_char "="%char (encoded query) = 0) /\
  (isWellFormed query = false ->
   search (JStr query) options log = (log, Rejected 0 URIError)) /\
  (OpenPlatform.offset options = JUndefined ->
   offsetText = NumberToString (num 0)) /\
  (truthy (OpenPlatform.limit options) = false ->
   truthy (OpenPlatform.sort options) = false ->
   truthy (OpenPlatform.fields options) = false ->
   ps = []).
Proof.
  clear StringToNumber.
  intros Hps Hoffset.
  split; [ | split; [ | split ] ].
  - intros Hwf. split; [ | split; [ | split ] ].
    + rewrite (search_run query options ps offsetText log Hps Hoffset Hwf).
      now rewrite join_separated.
    + now apply encoded_percent_encoded.
    + now apply encoded_free.
    + now apply encoded_free.
  - intros Hill. unfold OpenPlatform.search. cbv zeta.
    rewrite bind_lift, Hps. cbv iota beta zeta.
    rewrite bind_lift. unfold encodeURIComponent. cbn [ToString rbind].
    now rewrite (Encode_ill_formed query Hill).
  - intros Hnone. rewrite Hnone in Hoffset. now injection Hoffset as <-.
  - intros Hl Hs Hf. unfold OpenPlatform.searchParameters in Hps.
    rewrite Hl, Hs, Hf in Hps. simpl in Hps. now injection Hps as <-.
Qed.

End Further.
(** ** Examples *)

(** C1, witness: a 404 with the error "not found" is rejected with that
    message; a 200 without [data] is rejected with "data not found"; a
    200 with an object is fulfilled with the object. *)
Lemma request_envelope_witness :
  snd (OpenPlatform.request Demo.NumberToString
         (Demo.always (JObj [("statusCode", JNum (num 404));
                             ("error", JStr "not found")]))
         "user" no_options []) = Rejected 1 (JsError "not found") /\
  snd (OpenPlatform.request Demo.NumberToString
         (Demo.always (JObj [("statusCode", JNum (num 200))]))
         "user" no_options []) = Rejected 1 (JsError "data not found") /\
  snd (OpenPlatform.request Demo.NumberToString
         (Demo.always (Demo.envelope 200 Demo.ann))
         "user" no_options []) = Fulfilled 1 Demo.ann.
Proof.
  split; [ | split ].
  - apply (request_envelope Demo.NumberToString
             (Demo.always (JObj [("statusCode", JNum (num 404));
                                 ("error", JStr "not found")]))
             "user" no_options [] 0 _ eq_refl); reflexivity.
  - apply (request_envelope Demo.NumberToString
             (Demo.always (JObj [("statusCode", JNum (num 200))]))
             "user" no_options [] 0 _ eq_refl);
      [ reflexivity | left; reflexivity ].
  - apply (request_envelope Demo.NumberToString
             (Demo.always (Demo.envelope 200 Demo.ann))
             "user" no_options [] 0 _ eq_refl); reflexivity.
Defined.

(** C1, counterexample: the envelope [{ statusCode: 200, data: 0 }] has
    the status 200 and its [data] is present, yet [request] does not
    return that [data]: it rejects with "data not found". *)
Lemma request_rejects_present_data :
  strict_eq_num (field "statusCode" [("statusCode", JNum (num 200));
                                     ("data", JNum (num 0))]) (num 200) = true /\
  lookup "data" [("statusCode", JNum (num 200)); ("data", JNum (num 0))] =
    Some (JNum (num 0)) /\
  snd (OpenPlatform.request Demo.NumberToString
         (Demo.always (Demo.envelope 200 (JNum (num 0))))
         "user" no_options []) = Rejected 1 (JsError "data not found") /\
  (forall t,
      snd (OpenPlatform.request Demo.NumberToString
             (Demo.always (Demo.envelope 200 (JNum (num 0))))
             "user" no_options []) <> Fulfilled t (JNum (num 0))).
Proof.
  split; [ reflexivity | split; [ reflexivity | split ] ].
  - reflexivity.
  - discriminate.
Qed.

(** C10, witness: [data: 0], [data: ""], [data: false] and [data: null]
    are rejected, [data: []] is returned. *)
Lemma request_falsy_data_witness :
  Forall (fun data =>
            snd (OpenPlatform.request Demo.NumberToString
                   (Demo.always (Demo.envelope 200 data))
                   "user" no_options []) =
            Rejected 1 (JsError "data not found"))
         [JNum (num 0); JStr EmptyString; JBool false; JNull] /\
  snd (OpenPlatform.request Demo.NumberToString
         (Demo.always (Demo.envelope 200 (JArr [])))
         "user" no_options []) = Fulfilled 1 (JArr []).
Proof.
  split.
  - repeat constructor;
      match goal with
      | |- snd (_ _ (Demo.always (Demo.envelope 200 ?data)) _ _ _) = _ =>
          apply (request_falsy_data Demo.NumberToString
                   (Demo.always (Demo.envelope 200 data))
                   "user" no_options [] 0 _ data eq_refl eq_refl eq_refl);
          reflexivity
      end.
  - apply (request_falsy_data Demo.NumberToString
             (Demo.always (Demo.envelope 200 (JArr [])))
             "user" no_options [] 0 _ (JArr []) eq_refl eq_refl eq_refl).
    reflexivity.
Defined.



(** C3, witness: the array parameter of [["a b", "c,d"]] and of a list
    with the euro sign. *)
Lemma formatUrlArray_trailing_comma_witness :
  (exists texts,
      Forall2 percent_encoded ["a b"; "c,d"; Demo.euro] texts /\
      OpenPlatform.formatUrlArray Demo.NumberToString
        [JStr "a b"; JStr "c,d"; JStr Demo.euro] = Ok (terminated "," texts) /\
      count_char ","%char (terminated "," texts) = 3) /\
  OpenPlatform.formatUrlArray Demo.NumberToString
    [JStr "a b"; JStr "c,d"; JStr Demo.euro] = Ok "a%20b,c%2Cd,%E2%82%AC,".
Proof.
  split; [ | reflexivity ].
  apply (proj1 (formatUrlArray_trailing_comma Demo.NumberToString
                  ["a b"; "c,d"; Demo.euro])).
  reflexivity.
Defined.

(** C3, counterexample: a list of strings with a lone surrogate has no
    array parameter; [formatUrlArray] throws a URIError. *)
Lemma formatUrlArray_lone_surrogate :
  OpenPlatform.formatUrlArray Demo.NumberToString
    [JStr "a"; JStr Demo.lone_surrogate] = Throw URIError.
Proof. reflexivity. Qed.

(** C6, witness: two pids against a stub that returns
    [{ statusCode: 200, data: [{ title: "A" }, {}] }] yield
    [[{ title: "A" }]]. *)
Lemma getWork_removes_empty_witness :
  snd (OpenPlatform.getWork Demo.NumberToString Demo.getToken
         (Demo.always (Demo.envelope 200 (JArr [Demo.titleA; JObj []])))
         [JStr "870970-basis:1"; JStr "870970-basis:2"] [JStr "title"] []) =
  Fulfilled 1 [Demo.titleA].
Proof.
  apply (getWork_removes_empty Demo.NumberToString Demo.getToken
           (Demo.always (Demo.envelope 200 (JArr [Demo.titleA; JObj []])))
           ["870970-basis:1"; "870970-basis:2"] ["title"] [] 1
           [Demo.titleA; JObj []]).
  - vm_compute. lia.
  - reflexivity.
  - reflexivity.
  - reflexivity.
Defined.

(** C4, witness: one record that lends and can be ordered is enough, and
    an empty list gives false. *)
Lemma canBeOrdered_some_witness :
  (exists log,
      OpenPlatform.canBeOrdered Demo.NumberToString Demo.getToken
        (Demo.always
           (Demo.envelope 200
              (JArr [JObj [("willLend", JBool true);
                           ("orderPossible", JBool false)];
                     JObj [("willLend", JBool true);
                           ("orderPossible", JBool true)]])))
        [JStr "870970-basis:1"; JStr "870970-basis:2"] [] =
      (log, Fulfilled 1 true)) /\
  (exists log,
      OpenPlatform.canBeOrdered Demo.NumberToString Demo.getToken
        (Demo.always (Demo.envelope 200 (JArr [])))
        [JStr "870970-basis:1"] [] = (log, Fulfilled 1 false)).
Proof.
  split.
  - destruct (canBeOrdered_some Demo.NumberToString Demo.getToken
                (Demo.always
                   (Demo.envelope 200
                      (JArr [JObj [("willLend", JBool true);
                                   ("orderPossible", JBool false)];
                             JObj [("willLend", JBool true);
                                   ("orderPossible", JBool true)]])))
                [JStr "870970-basis:1"; JStr "870970-basis:2"] [] _ 1 _
                eq_refl ltac:(repeat constructor))
      as [answer [Hrun [Hiff _]]].
    eexists. rewrite Hrun. f_equal. f_equal. apply Hiff.
    eexists. split; [ right; left; reflexivity | split; reflexivity ].
  - destruct (canBeOrdered_some Demo.NumberToString Demo.getToken
                (Demo.always (Demo.envelope 200 (JArr [])))
                [JStr "870970-basis:1"] [] _ 1 [] eq_refl ltac:(constructor))
      as [answer [Hrun [_ [Hempty _]]]].
    eexists. rewrite Hrun. f_equal. f_equal. now apply Hempty.
Defined.

(** C7, witness: no branch in the answer is "branch not found"; a branch
    in the answer is returned. *)
Lemma getBranch_first_or_not_found_witness :
  snd (OpenPlatform.getBranch Demo.NumberToString Demo.StringToNumber
         Demo.getToken (Demo.always (Demo.envelope 200 (JArr [])))
         (JStr "710100") []) = Rejected 1 (JsError "branch not found") /\
  snd (OpenPlatform.getBranch Demo.NumberToString Demo.StringToNumber
         Demo.getToken
         (Demo.always (Demo.envelope 200 (JArr [Demo.branch ["name"]])))
         (JStr "710100") []) = Fulfilled 1 (Demo.branch ["name"]).
Proof.
  split.
  - destruct (getBranch_first_or_not_found Demo.NumberToString
                Demo.StringToNumber Demo.getToken
                (Demo.always (Demo.envelope 200 (JArr [])))
                (JStr "710100") [] _ 1 [] eq_refl) as [Hnone _].
    now rewrite (proj2 Hnone eq_refl).
  - destruct (getBranch_first_or_not_found Demo.NumberToString
                Demo.StringToNumber Demo.getToken
                (Demo.always (Demo.envelope 200 (JArr [Demo.branch ["name"]])))
                (JStr "710100") [] _ 1 [Demo.branch ["name"]] eq_refl)
      as [_ Hfirst].
    now rewrite (Hfirst _ _ eq_refl).
Defined.



(** C8, counterexample: a branch that requires [userId].  The order goes
    out, and [userId] is neither a parameter of its URL nor a key of its
    body; the access token is a parameter of the URL and no key of the
    body. *)
Lemma orderMaterial_userId_in_neither :
  exists order fields,
    get_prop (Demo.branch ["userId"]) "orderParameters" =
      Ok (JArr [JStr "userId"]) /\
    nth_error
      (fst (OpenPlatform.orderMaterial Demo.NumberToString Demo.StringToNumber
              Demo.getToken (Demo.shop Demo.ann (Demo.branch ["userId"]))
              [JStr "870970-basis:1"] (JStr "710100") JNull [])) 2 =
      Some order /\
    body (init order) = JSON_stringify Demo.NumberToString (JObj fields) /\
    url_parameters (url order) =
      ["access_token=token-user"; "orderType=normal"; "expires=null";
       "pickUpBranch=" ++ quote ++ "710100" ++ quote;
       "pids=870970-basis%3A1,"] /\
    ~ In "userId" (url_names (url order)) /\
    has_key "userId" fields = false /\
    In "access_token" (url_names (url order)) /\
    has_key "access_token" fields = false.
Proof.
  eexists. eexists.
  split; [ reflexivity | split; [ reflexivity | split; [ reflexivity | ] ] ].
  split; [ reflexivity | ].
  split; [ | split; [ reflexivity | split; [ now left | reflexivity ] ] ].
  vm_compute. intros H.
  repeat (destruct H as [H | H]; [ discriminate | ]). exact H.
Qed.

(** The values put into the URL of an order are not encoded: a user
    whose name holds an [&] gives the URL a parameter that the body does
    not have, and the name in the URL is not the name in the body. *)
Example orderMaterial_value_not_encoded :
  exists order fields,
    nth_error
      (fst (OpenPlatform.orderMaterial Demo.NumberToString Demo.StringToNumber
              Demo.getToken
              (Demo.shop (JObj [("name", JStr "x&userId=7")])
                         (Demo.branch ["name"]))
              [JStr "870970-basis:1"] (JStr "710100") JNull [])) 2 =
      Some order /\
    body (init order) = JSON_stringify Demo.NumberToString (JObj fields) /\
    In "userId=7" (url_parameters (url order)) /\
    has_key "userId" fields = false /\
    In "name=x" (url_parameters (url order)) /\
    lookup "name" fields = Some (JStr "x&userId=7").
Proof.
  eexists. eexists.
  split; [ reflexivity | split; [ reflexivity | ] ].
  vm_compute. repeat split; auto 10.
Qed.

(** A branch and a time of expiry that are not given are [null], in
    the lookup of the branch, in the URL of the order and in its
    body. *)
Example orderMaterial_defaults :
  exists order,
    fst (OpenPlatform.orderMaterial Demo.NumberToString Demo.StringToNumber
           Demo.getToken (Demo.shop Demo.ann (Demo.branch []))
           [JStr "870970-basis:1"] JUndefined JUndefined []) =
      [userRequest Demo.getToken;
       sent "libraries?access_token=token-library&branchIds=null," no_options;
       order] /\
    url_parameters (url order) =
      ["access_token=token-user"; "orderType=normal"; "expires=null";
       "pickUpBranch=" ++ quote ++ "null" ++ quote;
       "pids=870970-basis%3A1,"] /\
    body (init order) =
      JSON_stringify Demo.NumberToString
        (JObj [("orderType", JStr "normal"); ("expires", JNull);
               ("pickUpBranch", JNull);
               ("pids", JArr [JStr "870970-basis:1"])]).
Proof. eexists. repeat split; reflexivity. Qed.

(** A field of the body that is [undefined] is not in the JSON text: for
    a user without [address] and a branch that requires it, the URL says
    [address=undefined] and the text sent is that of a body without
    [address]. *)
Example orderMaterial_undefined_field :
  exists d,
    OpenPlatform.addBranchParameters Demo.NumberToString
      (JObj [("name", JStr "Ann")]) (Demo.branch ["address"])
      (OpenPlatform.mkOrderData ["orderType=normal"]
                                [("orderType", JStr "normal")]) = Ok d /\
    OpenPlatform.parameters d = ["orderType=normal"; "address=undefined"] /\
    OpenPlatform.body_fields d =
      [("orderType", JStr "normal"); ("address", JUndefined)] /\
    body (OpenPlatform.orderOptions Demo.NumberToString d) =
      JSON_stringify Demo.NumberToString (JObj [("orderType", JStr "normal")]).
Proof. eexists. repeat split; reflexivity. Qed.

(** C8, witness: a branch that requires [name], [phone] and [userId].
    The name and the phone are in the URL and in the body of the order
    that is sent, [userId] is in neither. *)
Lemma orderMaterial_same_fields_witness :
  exists order fields,
    fst (OpenPlatform.orderMaterial Demo.NumberToString Demo.StringToNumber
           Demo.getToken
           (Demo.shop Demo.ann (Demo.branch ["name"; "phone"; "userId"]))
           [JStr "870970-basis:1"] (JStr "710100") JNull []) =
      [userRequest Demo.getToken; branchRequest Demo.getToken "710100";
       order] /\
    body (init order) = JSON_stringify Demo.NumberToString (JObj fields) /\
    same_fields Demo.NumberToString (url_parameters (url order)) fields /\
    (forall k, In k ["name"; "phone"] ->
               In k (url_names (url order)) /\ has_key k fields = true) /\
    ~ In "userId" (url_names (url order)) /\
    has_key "userId" fields = false.
Proof.
  destruct (orderMaterial_same_fields Demo.NumberToString Demo.StringToNumber
              Demo.getToken
              (Demo.shop Demo.ann (Demo.branch ["name"; "phone"; "userId"]))
              [JStr "870970-basis:1"] (JStr "710100") JNull [] _ _
              Demo.ann (Demo.branch ["name"; "phone"; "userId"])
              [JStr "name"; JStr "phone"; JStr "userId"] _ _
              eq_refl eq_refl eq_refl eq_refl eq_refl)
    as [[Hlog Hbody] [_ [Hsame [_ [Hsupplied [Hneither _]]]]]].
  eexists. eexists.
  split; [ exact Hlog | split; [ exact Hbody | ] ].
  split; [ exact Hsame | split; [ | apply Hneither ] ].
  - intros k Hk. apply Hsupplied.
    + simpl in Hk. destruct Hk as [<- | [<- | []]]; simpl; auto.
    + simpl in Hk. destruct Hk as [<- | [<- | []]]; simpl; auto.
  - simpl. intros H.
    repeat (destruct H as [H | H]; [ discriminate | ]). exact H.
  - discriminate.
Defined.


(** ** Examples of the further properties *)

(** What [encodeURIComponent] makes of a space, of the euro sign, of a
    G clef (a surrogate pair) and of a lone surrogate. *)
Example Encode_examples :
  Encode "a b" = Ok "a%20b" /\
  Encode Demo.euro = Ok "%E2%82%AC" /\
  Encode Demo.clef = Ok "%F0%9D%84%9E" /\
  Encode Demo.lone_surrogate = Throw URIError /\
  percent_decode "%F0%9D%84%9E" = Some Demo.clef.
Proof. repeat split; reflexivity. Qed.

(** The encoding of ["a&b=c"] holds no [&] and no [=]. *)
Lemma Encode_text_url_safe_witness :
  Encode "a&b=c" = Ok "a%26b%3Dc" /\
  count_char "&"%char "a%26b%3Dc" = 0 /\
  count_char "="%char "a%26b%3Dc" = 0.
Proof.
  destruct (Encode_text_url_safe "a&b=c" "a%26b%3Dc" eq_refl)
    as [_ [Hfree _]].
  split; [ reflexivity | ].
  inversion Hfree as [ | ? ? Hamp Hrest]. subst.
  inversion Hrest as [ | ? ? Heq _]. subst.
  split; [ exact Hamp | exact Heq ].
Defined.

(** The array parameter of [["a b", "c,d"]] splits at its commas into
    two pieces that decode to the items, and an empty piece. *)
Lemma formatUrlArray_splits_back_witness :
  exists out texts,
    OpenPlatform.formatUrlArray Demo.NumberToString
      [JStr "a b"; JStr "c,d"] = Ok out /\
    split_on ","%char out = (texts ++ [EmptyString])%list /\
    map percent_decode texts = [Some "a b"; Some "c,d"]%js.
Proof.
  apply (formatUrlArray_splits_back Demo.NumberToString ["a b"; "c,d"]).
  - discriminate.
  - reflexivity.
Defined.

(** The empty list and the list of the empty string have the same array
    parameter, and are the exception. *)
Lemma formatUrlArray_injective_witness :
  OpenPlatform.formatUrlArray Demo.NumberToString [] = Ok "," /\
  OpenPlatform.formatUrlArray Demo.NumberToString [JStr EmptyString] =
    Ok "," /\
  (@nil string = [EmptyString] \/
   (@nil string = [] /\ [EmptyString] = [EmptyString]) \/
   (@nil string = [EmptyString] /\ [EmptyString] = @nil string)).
Proof.
  split; [ reflexivity | split; [ reflexivity | ] ].
  apply (formatUrlArray_injective Demo.NumberToString [] [EmptyString] ",");
    reflexivity.
Defined.

(** The response [null] is a type error; the response [[]] is an error
    with an empty message. *)
Lemma request_response_not_an_object_witness :
  snd (OpenPlatform.request Demo.NumberToString (Demo.always JNull)
         "user" no_options []) = Rejected 1 TypeError /\
  snd (OpenPlatform.request Demo.NumberToString (Demo.always (JArr []))
         "user" no_options []) = Rejected 1 (JsError EmptyString).
Proof.
  split.
  - apply (request_response_not_an_object Demo.NumberToString
             (Demo.always JNull) "user" no_options [] 0 JNull eq_refl).
    discriminate.
  - apply (request_response_not_an_object Demo.NumberToString
             (Demo.always (JArr [])) "user" no_options [] 0 (JArr []) eq_refl).
    discriminate.
Defined.

(** Ann was returned: the response was an envelope with the status 200
    and Ann as its [data], and came in the turn before. *)
Lemma request_fulfilled_only_if_witness :
  exists t' fields,
    1 = S t' /\
    Demo.always (Demo.envelope 200 Demo.ann) [] (sent "user" no_options) =
      Answer t' (Some (JObj fields)) /\
    strict_eq_num (field "statusCode" fields) (num 200) = true /\
    (exists x, field "statusCode" fields = JNum x) /\
    field "data" fields = Demo.ann /\
    truthy Demo.ann = true.
Proof.
  apply (request_fulfilled_only_if Demo.NumberToString
           (Demo.always (Demo.envelope 200 Demo.ann))
           "user" no_options [] 1 Demo.ann).
  reflexivity.
Defined.

(** The messages for a 404 without [error], with the error [null] and
    with the error [{}]. *)
Lemma request_error_message_witness :
  snd (OpenPlatform.request Demo.NumberToString
         (Demo.always (JObj [("statusCode", JNum (num 404))]))
         "user" no_options []) = Rejected 1 (JsError EmptyString) /\
  snd (OpenPlatform.request Demo.NumberToString
         (Demo.always (JObj [("statusCode", JNum (num 404));
                             ("error", JNull)]))
         "user" no_options []) = Rejected 1 (JsError "null") /\
  snd (OpenPlatform.request Demo.NumberToString
         (Demo.always (JObj [("statusCode", JNum (num 404));
                             ("error", JObj [])]))
         "user" no_options []) = Rejected 1 (JsError "[object Object]").
Proof.
  split; [ | split ].
  - destruct (request_error_message Demo.NumberToString
                (Demo.always (JObj [("statusCode", JNum (num 404))]))
                "user" no_options [] 0 _ eq_refl eq_refl) as [Hnone _].
    now apply Hnone.
  - destruct (request_error_message Demo.NumberToString
                (Demo.always (JObj [("statusCode", JNum (num 404));
                                    ("error", JNull)]))
                "user" no_options [] 0 _ eq_refl eq_refl) as [_ [Hnull _]].
    now apply Hnull.
  - destruct (request_error_message Demo.NumberToString
                (Demo.always (JObj [("statusCode", JNum (num 404));
                                    ("error", JObj [])]))
                "user" no_options [] 0 _ eq_refl eq_refl) as [_ [_ Hobject]].
    now apply (Hobject []).
Defined.

(** A [data] that is one work and no list of works is a type error. *)
Lemma getWork_data_not_a_list_witness :
  snd (OpenPlatform.getWork Demo.NumberToString Demo.getToken
         (Demo.always (Demo.envelope 200 Demo.titleA))
         [JStr "870970-basis:1"] [JStr "title"] []) = Rejected 1 TypeError.
Proof.
  apply (getWork_data_not_a_list Demo.NumberToString Demo.getToken
           (Demo.always (Demo.envelope 200 Demo.titleA))
           ["870970-basis:1"] ["title"] [] 1 Demo.titleA).
  - vm_compute. lia.
  - reflexivity.
  - reflexivity.
  - reflexivity.
  - discriminate.
Defined.

(** A [null] behind the first record that can be ordered is not looked
    at; a [null] before it is a type error. *)
Lemma canBeOrdered_stops_at_first_witness :
  (exists log,
      OpenPlatform.canBeOrdered Demo.NumberToString Demo.getToken
        (Demo.always
           (Demo.envelope 200
              (JArr [JObj [("willLend", JBool false)];
                     JObj [("willLend", JBool true);
                           ("orderPossible", JBool true)];
                     JNull])))
        [JStr "870970-basis:1"] [] = (log, Fulfilled 1 true)) /\
  (exists log,
      OpenPlatform.canBeOrdered Demo.NumberToString Demo.getToken
        (Demo.always
           (Demo.envelope 200
              (JArr [JObj [("willLend", JBool false)];
                     JNull;
                     JObj [("willLend", JBool true);
                           ("orderPossible", JBool true)]])))
        [JStr "870970-basis:1"] [] = (log, Rejected 1 TypeError)).
Proof.
  split.
  - destruct (canBeOrdered_stops_at_first Demo.NumberToString Demo.getToken
                (Demo.always
                   (Demo.envelope 200
                      (JArr [JObj [("willLend", JBool false)];
                             JObj [("willLend", JBool true);
                                   ("orderPossible", JBool true)];
                             JNull])))
                [JStr "870970-basis:1"] [] _ 1 _ eq_refl) as [Hhit _].
    eexists.
    apply (Hhit [JObj [("willLend", JBool false)]]
                (JObj [("willLend", JBool true);
                       ("orderPossible", JBool true)])
                [JNull] eq_refl);
      [ repeat constructor | reflexivity ].
  - destruct (canBeOrdered_stops_at_first Demo.NumberToString Demo.getToken
                (Demo.always
                   (Demo.envelope 200
                      (JArr [JObj [("willLend", JBool false)];
                             JNull;
                             JObj [("willLend", JBool true);
                                   ("orderPossible", JBool true)]])))
                [JStr "870970-basis:1"] [] _ 1 _ eq_refl) as [_ [Hnull _]].
    eexists.
    apply (Hnull [JObj [("willLend", JBool false)]]
                 [JObj [("willLend", JBool true);
                        ("orderPossible", JBool true)]] eq_refl);
      [ repeat constructor | reflexivity ].
Defined.

(** No such branch: the two lookups went out, and no order.  A branch
    whose id is a lone surrogate: only the user was looked up. *)
Lemma orderMaterial_orders_last_witness :
  OpenPlatform.orderMaterial Demo.NumberToString Demo.StringToNumber
    Demo.getToken (Demo.always (Demo.envelope 200 (JArr [])))
    [JStr "870970-basis:1"] (JStr "710100") JNull [] =
  ([userRequest Demo.getToken; branchRequest Demo.getToken "710100"],
   Rejected 1 (JsError "branch not found")) /\
  OpenPlatform.orderMaterial Demo.NumberToString Demo.StringToNumber
    Demo.getToken (Demo.always (Demo.envelope 200 (JArr [])))
    [JStr "870970-basis:1"] (JStr Demo.lone_surrogate) JNull [] =
  ([userRequest Demo.getToken], Rejected 0 URIError).
Proof.
  split.
  - destruct (orderMaterial_orders_last Demo.NumberToString
                Demo.StringToNumber
                Demo.getToken (Demo.always (Demo.envelope 200 (JArr [])))
                [JStr "870970-basis:1"] (JStr "710100") JNull [])
      as [_ [_ Hlookups]].
    destruct (Hlookups _ "710100" eq_refl eq_refl eq_refl)
      as [_ [_ [Hrejected _]]].
    apply (Hrejected 1 (JsError "branch not found")). reflexivity.
  - destruct (orderMaterial_orders_last Demo.NumberToString
                Demo.StringToNumber
                Demo.getToken (Demo.always (Demo.envelope 200 (JArr [])))
                [JStr "870970-basis:1"] (JStr Demo.lone_surrogate) JNull [])
      as [_ [Hill _]].
    apply (Hill _ Demo.lone_surrogate eq_refl eq_refl eq_refl).
Defined.

(** A branch that lists [name] twice: the URL of Ann's order has two
    [name] parameters, the body has the key once. *)
Lemma orderMaterial_repeated_requirements_witness :
  exists order fields,
    fst (OpenPlatform.orderMaterial Demo.NumberToString Demo.StringToNumber
           Demo.getToken
           (Demo.shop Demo.ann (Demo.branch ["name"; "name"; "phone"]))
           [JStr "870970-basis:1"] (JStr "710100") JNull []) =
      [userRequest Demo.getToken; branchRequest Demo.getToken "710100";
       order] /\
    body (init order) = JSON_stringify Demo.NumberToString (JObj fields) /\
    NoDup (keys fields) /\
    count_named "name" (url_parameters (url order)) = 2 /\
    count_named "phone" (url_parameters (url order)) = 1 /\
    count_named "access_token" (url_parameters (url order)) = 1.
Proof.
  destruct (orderMaterial_repeated_requirements Demo.NumberToString
              Demo.StringToNumber Demo.getToken
              (Demo.shop Demo.ann (Demo.branch ["name"; "name"; "phone"]))
              [JStr "870970-basis:1"] (JStr "710100") JNull [] _ _
              Demo.ann (Demo.branch ["name"; "name"; "phone"])
              [JStr "name"; JStr "name"; JStr "phone"] _ _
              eq_refl eq_refl eq_refl eq_refl eq_refl)
    as [order [Hlog [Hbody [Hkeys [Hsupplied Hfixed]]]]].
  exists order. eexists.
  split; [ exact Hlog | split; [ exact Hbody | ] ].
  split; [ exact Hkeys | split; [ | split ] ].
  - apply (Hsupplied "name"). simpl. auto.
  - apply (Hsupplied "phone"). simpl. auto.
  - apply (Hfixed "access_token"). simpl. auto.
Defined.

(** A branch lookup answered with one branch object and no list gives
    [undefined]. *)
Lemma getBranch_single_object_witness :
  snd (OpenPlatform.getBranch Demo.NumberToString Demo.StringToNumber
         Demo.getToken
         (Demo.always (Demo.envelope 200 (Demo.branch ["name"])))
         (JStr "710100") []) = Fulfilled 1 JUndefined.
Proof.
  destruct (getBranch_single_object Demo.NumberToString Demo.StringToNumber
              Demo.getToken
              (Demo.always (Demo.envelope 200 (Demo.branch ["name"])))
              (JStr "710100") [] _ 1 _ eq_refl eq_refl) as [_ Hundefined].
  now rewrite (Hundefined eq_refl).
Defined.

(** A limit of [0], an empty sort and an empty list of fields: of the
    three only the fields are in the URL that is sent. *)
Lemma search_optional_parameters_witness :
  exists r,
    fst (OpenPlatform.search Demo.NumberToString Demo.getToken
           (Demo.always (Demo.envelope 200 (JArr [])))
           (JStr "harry potter")
           (OpenPlatform.mkSearchOptions JUndefined (JNum (num 0))
                                         (JStr EmptyString) (JArr []))
           []) = [r] /\
    url_parameters (url r) =
      ["access_token=token-library"; "q=harry%20potter"; "offset=0";
       "fields=,"] /\
    ~ In "limit" (url_names (url r)) /\
    In "fields=," (url_parameters (url r)).
Proof.
  destruct (search_optional_parameters Demo.NumberToString Demo.getToken
              (Demo.always (Demo.envelope 200 (JArr [])))
              "harry potter"
              (OpenPlatform.mkSearchOptions JUndefined (JNum (num 0))
                                            (JStr EmptyString) (JArr []))
              ["fields=,"] "0" []
              eq_refl eq_refl eq_refl eq_refl eq_refl eq_refl)
    as [r [Hlog [_ [Hparams [_ [_ [_ [Hlimit Hfields]]]]]]]].
  exists r. split; [ exact Hlog | split; [ exact Hparams | split ] ].
  - now apply Hlimit.
  - now apply Hfields.
Defined.

(** The values of [limit] and [sort] are not encoded: a sort that holds
    an [&] gives the URL a limit that was not asked for. *)
Example search_value_not_encoded :
  exists r,
    fst (OpenPlatform.search Demo.NumberToString Demo.getToken
           (Demo.always (Demo.envelope 200 (JArr [])))
           (JStr "harry potter")
           (OpenPlatform.mkSearchOptions JUndefined JUndefined
                                         (JStr "a&limit=5") JUndefined)
           []) = [r] /\
    truthy JUndefined = false /\
    In "limit=5" (url_parameters (url r)) /\
    In "limit" (url_names (url r)).
Proof. eexists. split; [ reflexivity | ]. vm_compute. auto 10. Qed.

(** The request of a search for "harry potter" with no options, and of
    a search for a lone surrogate. *)
Lemma search_request_witness :
  fst (OpenPlatform.search Demo.NumberToString Demo.getToken
         (Demo.always (Demo.envelope 200 (JArr [])))
         (JStr "harry potter") OpenPlatform.no_search_options []) =
  [sent "search?access_token=token-library&q=harry%20potter&offset=0&"
        no_options] /\
  OpenPlatform.search Demo.NumberToString Demo.getToken
    (Demo.always (Demo.envelope 200 (JArr [])))
    (JStr Demo.lone_surrogate) OpenPlatform.no_search_options [] =
  ([], Rejected 0 URIError).
Proof.
  split.
  - destruct (search_request Demo.NumberToString Demo.getToken
                (Demo.always (Demo.envelope 200 (JArr [])))
                "harry potter" OpenPlatform.no_search_options [] "0" []
                eq_refl eq_refl) as [Hrequest _].
    exact (proj1 (Hrequest eq_refl)).
  - destruct (search_request Demo.NumberToString Demo.getToken
                (Demo.always (Demo.envelope 200 (JArr [])))
                Demo.lone_surrogate OpenPlatform.no_search_options [] "0" []
                eq_refl eq_refl) as [_ [Hill _]].
    exact (Hill eq_refl).
Defined.

(** The works returned for 45 pids are not empty. *)
Lemma getWork_never_returns_empty_witness :
  Forall (fun w => nonEmpty w = true)
         [Demo.titleA; Demo.titleA; Demo.titleA].
Proof.
  apply (getWork_never_returns_empty Demo.NumberToString Demo.getToken
           (Demo.always (Demo.envelope 200 (JArr [Demo.titleA; JObj []])))
           (map JStr Demo.pids45) [JStr "title"] [] 1).
  reflexivity.
Defined.
